(** * Jotter: stroke classification and redraw reconciliation

    A shallow embedding of the shape-recognition code of the Jotter canvas
    and the properties its specification states about it.  The repository
    holds the web canvas component in successive revisions:

    - [Heuristic]: GridCanvas.js, web canvas document: the heuristic
      classifier with corner and circularity tests, drawing over the ink;
    - [ContourClassification], [Fallback]: part_002: the OpenCV.js contour
      classifier, with a stripped-down heuristic fallback;
    - [WebCanvas]: part_003, last document: the final orchestrator and the
      clear-and-redraw reconciler.

    JavaScript numbers are IEEE-754 binary64 values; they are modelled by
    Rocq's primitive floats, so the definitions evaluate as the source
    does, NaN, the infinities and the signed zeros included.  Two things
    are recorded beside the values the source computes, because the
    specification speaks of them: the divisions a predicate performs
    ([Traced]) and the classifiers a detection consults. *)

From Stdlib Require Import ZArith List Bool Lia PeanoNat.
From Stdlib Require Import Floats Uint63.
From Stdlib Require Import String.
Import ListNotations.

Set Implicit Arguments.

(** [length] is the list length throughout. *)
Abbreviation length := Datatypes.length (only parsing).
Set Warnings "-inexact-float".

(* ================================================================== *)
(** ** The JavaScript number layer *)

Module JS.

Definition number := float.

(** [a === b] on numbers: false on NaN, true on [+0 === -0]. *)
Definition strict_eq (a b : float) : bool := PrimFloat.eqb a b.

(** [array.length] read as a number. *)
Definition of_nat (n : nat) : float :=
  PrimFloat.of_uint63 (Uint63.of_Z (Z.of_nat n)).

(** An integer pixel count read as a number. *)
Definition of_Z (z : Z) : float :=
  if (z <? 0)%Z then PrimFloat.opp (PrimFloat.of_uint63 (Uint63.of_Z (- z)))
  else PrimFloat.of_uint63 (Uint63.of_Z z).

Definition Math_PI : float := 0x1.921fb54442d18p+1%float.

Definition Math_sqrt (v : float) : float := PrimFloat.sqrt v.

Definition Math_abs (v : float) : float := PrimFloat.abs v.

(** [Math.pow(b, 2)].  The source raises to the literal exponent 2 only,
    which evaluates to the single rounded product [b * b]. *)
Definition Math_pow_2 (b : float) : float := (b * b)%float.

Definition isNaN (v : float) : bool := negb (PrimFloat.eqb v v).

(** One step of [Math.min]: NaN is contagious and [-0] is below [+0]. *)
Definition min2 (a b : float) : float :=
  if isNaN a || isNaN b then PrimFloat.nan
  else if PrimFloat.ltb a b then a
  else if PrimFloat.ltb b a then b
  else if PrimFloat.get_sign a then a else b.

Definition max2 (a b : float) : float :=
  if isNaN a || isNaN b then PrimFloat.nan
  else if PrimFloat.ltb a b then b
  else if PrimFloat.ltb b a then a
  else if PrimFloat.get_sign a then b else a.

(** [Math.min(...xs)] and [Math.max(...xs)]; the empty spreads give
    [+Infinity] and [-Infinity]. *)
Definition Math_min (xs : list float) : float :=
  fold_left min2 xs PrimFloat.infinity.

Definition Math_max (xs : list float) : float :=
  fold_left max2 xs PrimFloat.neg_infinity.

(** [Math.floor] of a finite number, as an integer. *)
Definition Math_floor (v : float) : Z :=
  match Prim2SF v with
  | S754_finite s m e => Z.shiftl (if s then Zneg m else Zpos m) e
  | _ => 0%Z
  end.

End JS.

(* ================================================================== *)
(** ** Points, strokes and the geometry helpers

    These helpers are the same text in every revision of the component. *)

Record Point : Type := mkPoint { x : float; y : float }.

Definition Stroke := list Point.

(** [stroke[0]] and [stroke[stroke.length - 1]]; [None] stands for the
    [undefined] an empty array yields. *)
Definition first (stroke : Stroke) : option Point := nth_error stroke 0.

Definition last (stroke : Stroke) : option Point :=
  nth_error stroke (length stroke - 1).

Module Geometry.
Import JS.
Local Open Scope float_scope.

Definition THRESHOLD : float := 10.

Definition distance (point1 point2 : Point) : float :=
  Math_sqrt (Math_pow_2 (x point2 - x point1) + Math_pow_2 (y point2 - y point1)).

(** The loop [for (i = 1; i < stroke.length; i++) total += distance(stroke[i-1], stroke[i])],
    carried along the list with the previous point. *)
Fixpoint totalFrom (prev : Point) (rest : list Point) (total : float) : float :=
  match rest with
  | [] => total
  | curr :: rest' => totalFrom curr rest' (total + distance prev curr)
  end.

Definition calculateTotalDistance (stroke : Stroke) : float :=
  match stroke with
  | [] => 0
  | p :: rest => totalFrom p rest 0
  end.

Record BoundingBox : Type := mkBoundingBox {
  minX : float; maxX : float; minY : float; maxY : float;
  width : float; height : float
}.

Definition getBoundingBox (stroke : Stroke) : BoundingBox :=
  let xs := map x stroke in
  let ys := map y stroke in
  {| minX := Math_min xs; maxX := Math_max xs;
     minY := Math_min ys; maxY := Math_max ys;
     width := Math_max xs - Math_min xs;
     height := Math_max ys - Math_min ys |}.

(** [values.reduce((sum, val) => sum + val, 0)] *)
Definition sum (values : list float) : float :=
  fold_left (fun acc val => acc + val) values 0.

End Geometry.

(* ================================================================== *)
(** ** Divisions as observable steps

    The specification speaks about divisions the predicates perform, so
    every [/] of the heuristic classifier is written through [divide],
    which yields the IEEE quotient and records what was divided by. *)

Inductive Division : Type :=
| DivByLength (n : nat)               (* [... / stroke.length], [... / values.length] *)
| DivByPathLength (d : float)         (* [straightDistance / totalDistance] *)
| DivByAverageRadius (d : float)      (* [variance / averageRadius] *)
| DivByBoxHeight (d : float).         (* [bounds.width / bounds.height] *)

Definition byZero (d : Division) : bool :=
  match d with
  | DivByLength n => Nat.eqb n 0
  | DivByPathLength v | DivByAverageRadius v | DivByBoxHeight v => JS.strict_eq v 0
  end.

Definition Traced (A : Type) : Type := (A * list Division)%type.

Definition ret {A} (a : A) : Traced A := (a, []).

Definition bind {A B} (m : Traced A) (f : A -> Traced B) : Traced B :=
  let r := f (fst m) in (fst r, snd m ++ snd r).

Definition value {A} (m : Traced A) : A := fst m.

Definition divisions {A} (m : Traced A) : list Division := snd m.

Declare Scope traced_scope.
Delimit Scope traced_scope with traced.
Notation "v <- m ;; k" := (bind m (fun v => k))
  (at level 61, m at next level, right associativity) : traced_scope.

Definition divideByLength (a : float) (n : nat) : Traced float :=
  ((a / JS.of_nat n)%float, [DivByLength n]).

Definition divide (tag : float -> Division) (a b : float) : Traced float :=
  ((a / b)%float, [tag b]).

Module Statistics.
Import JS Geometry.
Local Open Scope float_scope.
Local Open Scope traced_scope.

Definition calculateCenter (stroke : Stroke) : Traced Point :=
  let sumX := fold_left (fun acc p => acc + x p) stroke 0 in
  let sumY := fold_left (fun acc p => acc + y p) stroke 0 in
  cx <- divideByLength sumX (length stroke) ;;
  cy <- divideByLength sumY (length stroke) ;;
  ret (mkPoint cx cy).

Definition calculateVariance (values : list float) : Traced float :=
  mean <- divideByLength (sum values) (length values) ;;
  let squaredDiffs := map (fun val => Math_pow_2 (val - mean)) values in
  divideByLength (sum squaredDiffs) (length values).

Definition average (values : list float) : Traced float :=
  divideByLength (sum values) (length values).

End Statistics.

(** The strings the classifiers answer with. *)
Inductive ShapeKind : Type :=
| line | rectangle | square | circle | triangle | arrow | freehand | unknown.

Definition ShapeKind_eqb (a b : ShapeKind) : bool :=
  match a, b with
  | line, line | rectangle, rectangle | square, square | circle, circle
  | triangle, triangle | arrow, arrow | freehand, freehand | unknown, unknown => true
  | _, _ => false
  end.

(** The classifiers a detection may consult, recorded in call order. *)
Inductive Classifier : Type :=
| LineHeuristic | CircleHeuristic | RectangleHeuristic | ArrowHeuristic
| ContourClassifier.


(* ================================================================== *)
(** ** The rendering surface

    The 2D context is an external collaborator; what the component does to
    it is the sequence of calls it issues.  A handler that reads a property
    of [undefined] stops with a [TypeError], issuing nothing further. *)

Inductive CanvasCall : Type :=
| SetStrokeStyle (color : string)
| SetLineWidth (w : float)
| SetLineCap (cap : string)
| SetLineJoin (join : string)
| BeginPath
| MoveTo (px py : float)
| LineTo (px py : float)
| ClosePath
| StrokePath                                   (* [ctx.stroke()] *)
| Arc (cx cy r startAngle endAngle : float)
| StrokeRect (rx ry w h : float)
| ClearRect (rx ry w h : float).

Record Draw : Type := mkDraw { calls : list CanvasCall; completed : bool }.

Definition emit (cs : list CanvasCall) : Draw := mkDraw cs true.

Definition typeError : Draw := mkDraw [] false.

Definition andThen (d1 d2 : Draw) : Draw :=
  if completed d1 then mkDraw (calls d1 ++ calls d2) (completed d2) else d1.

Infix "+>" := andThen (at level 62, left associativity).

(** [list.forEach(draw)] *)
Definition forEach {A} (draw : A -> Draw) (l : list A) : Draw :=
  fold_left (fun acc a => acc +> draw a) l (emit []).

Module Canvas.
Local Open Scope float_scope.

Definition GRID_SIZE : Z := 40.

Section Grid.
(** [Dimensions.get('window')]: the window size, in whole pixels. *)
Variables width height : Z.

(** [for (let x = 0; x <= width; x += GRID_SIZE)], run on fuel. *)
Fixpoint verticalLines (fuel : nat) (gx : Z) : list CanvasCall :=
  match fuel with
  | O => []
  | S fuel' =>
      if (gx <=? width)%Z
      then [BeginPath; MoveTo (JS.of_Z gx) 0; LineTo (JS.of_Z gx) (JS.of_Z height); StrokePath]
           ++ verticalLines fuel' (gx + GRID_SIZE)
      else []
  end.

Fixpoint horizontalLines (fuel : nat) (gy : Z) : list CanvasCall :=
  match fuel with
  | O => []
  | S fuel' =>
      if (gy <=? height)%Z
      then [BeginPath; MoveTo 0 (JS.of_Z gy); LineTo (JS.of_Z width) (JS.of_Z gy); StrokePath]
           ++ horizontalLines fuel' (gy + GRID_SIZE)
      else []
  end.

(** One unit of fuel per pixel outlasts a loop that advances by
    [GRID_SIZE] pixels a turn. *)
Definition drawGrid : list CanvasCall :=
  [SetStrokeStyle "#f0f0f0"%string; SetLineWidth 0.5]
  ++ verticalLines (Z.to_nat (width + 1)) 0
  ++ horizontalLines (Z.to_nat (height + 1)) 0
  ++ [SetStrokeStyle "#000000"%string; SetLineWidth 2].

End Grid.
End Canvas.

(** What the browser delivers to the component. *)
Inductive Event : Type :=
| MouseDown (pos : Point)
| MouseMove (pos : Point)
| MouseUp
| MouseLeave
| ScriptLoaded.                (* [script.onload] of the OpenCV.js tag *)

(** One completed stroke: press, drag through the further samples,
    release. *)
Definition strokeEvents (stroke : Stroke) : list Event :=
  match stroke with
  | [] => []
  | p :: rest => MouseDown p :: map MouseMove rest ++ [MouseUp]
  end.

(* ================================================================== *)
(** ** The heuristic classifier (GridCanvas.js, web canvas revision) *)

Module Heuristic.
Import JS Geometry Statistics.
Local Open Scope float_scope.
Local Open Scope traced_scope.

Section Corners.
(** [Math.atan2(dy, dx)]: the only library function of the classifier
    with no IEEE definition; the code is read for any implementation. *)
Variable Math_atan2 : float -> float -> float.
(** [Dimensions.get('window')] *)
Variables windowWidth windowHeight : Z.

Fixpoint findCorners (stroke : Stroke) : list Point :=
  match stroke with
  | prev :: rest =>
      match rest with
      | curr :: next :: _ =>
          let angle1 := Math_atan2 (y curr - y prev) (x curr - x prev) in
          let angle2 := Math_atan2 (y next - y curr) (x next - x curr) in
          let angleDiff := Math_abs (angle1 - angle2) in
          if Math_PI / 6 <? angleDiff
          then curr :: findCorners rest
          else findCorners rest
      | _ => []
      end
  | [] => []
  end.

Definition isTriangle (stroke : Stroke) : bool :=
  Nat.leb 3 (length (findCorners stroke)).

Definition isLine (stroke : Stroke) : Traced bool :=
  if Nat.ltb (length stroke) 2 then ret false else
  match first stroke, last stroke with
  | Some a, Some b =>
      let straightDistance := distance a b in
      let totalDistance := calculateTotalDistance stroke in
      if strict_eq totalDistance 0 then ret false else
      ratio <- divide DivByPathLength straightDistance totalDistance ;;
      ret (0.9 <? ratio)
  | _, _ => ret false
  end.

Definition isRectangle (stroke : Stroke) : Traced bool :=
  if Nat.ltb (length stroke) 4 then ret false else
  match first stroke, last stroke with
  | Some a, Some b =>
      let startEndDistance := distance a b in
      let isClosed := startEndDistance <? THRESHOLD in
      if negb isClosed then ret false else
      let bounds := getBoundingBox stroke in
      aspectRatio <- divide DivByBoxHeight (width bounds) (height bounds) ;;
      let corners := findCorners stroke in
      let hasCorners := Nat.leb 2 (length corners) in
      let reasonableAspectRatio := (0.2 <? aspectRatio) && (aspectRatio <? 5.0) in
      ret (isClosed && hasCorners && reasonableAspectRatio)
  | _, _ => ret false
  end.

Definition isCircle (stroke : Stroke) : Traced bool :=
  if Nat.ltb (length stroke) 6 then ret false else
  match first stroke, last stroke with
  | Some a, Some b =>
      let startEndDistance := distance a b in
      let isClosed := startEndDistance <? THRESHOLD in
      if negb isClosed then ret false else
      center <- calculateCenter stroke ;;
      let distances := map (fun point => distance center point) stroke in
      averageRadius <- average distances ;;
      if strict_eq averageRadius 0 then ret false else
      variance <- calculateVariance distances ;;
      circularity <- divide DivByAverageRadius variance averageRadius ;;
      let bounds := getBoundingBox stroke in
      aspectRatio <- divide DivByBoxHeight (width bounds) (height bounds) ;;
      let isRoughlySquare := (0.5 <? aspectRatio) && (aspectRatio <? 2.0) in
      let isCircular := circularity <? 0.5 in
      ret (isClosed && isCircular && isRoughlySquare)
  | _, _ => ret false
  end.

Definition isArrow (stroke : Stroke) : bool :=
  if Nat.ltb (length stroke) 6 then false else
  let shaftEnd := Z.to_nat (Math_floor (of_nat (length stroke) * 0.7)) in
  let shaft := firstn shaftEnd stroke in
  let head := skipn shaftEnd stroke in
  let shaftIsLine := value (isLine shaft) in
  let headIsTriangle := isTriangle head in
  shaftIsLine && headIsTriangle.

(** [detectShape] with the classifiers it consulted, in order. *)
Definition detectShape (stroke : Stroke) : ShapeKind * list Classifier :=
  if value (isLine stroke) then (line, [LineHeuristic])
  else if value (isCircle stroke) then (circle, [LineHeuristic; CircleHeuristic])
  else if value (isRectangle stroke)
       then (rectangle, [LineHeuristic; CircleHeuristic; RectangleHeuristic])
  else if isArrow stroke
       then (arrow, [LineHeuristic; CircleHeuristic; RectangleHeuristic; ArrowHeuristic])
  else (freehand, [LineHeuristic; CircleHeuristic; RectangleHeuristic; ArrowHeuristic]).


(** [drawRecognizedShape(shape, stroke)]: the recognised shape is drawn
    over whatever the surface already shows. *)
Definition drawRecognizedShape (shape : ShapeKind) (stroke : Stroke) : Draw :=
  emit [SetStrokeStyle "#ff0000"%string; SetLineWidth 3] +>
  (match shape with
   | line =>
       match first stroke, last stroke with
       | Some a, Some b =>
           emit [BeginPath; MoveTo (x a) (y a); LineTo (x b) (y b); StrokePath]
       | _, _ => emit [BeginPath] +> typeError
       end
   | rectangle =>
       let bounds := getBoundingBox stroke in
       emit [StrokeRect (minX bounds) (minY bounds) (width bounds) (height bounds)]
   | circle =>
       let center := value (calculateCenter stroke) in
       let radius := value (average (map (fun point => distance center point) stroke)) in
       emit [BeginPath; Arc (x center) (y center) radius 0 (2 * Math_PI); StrokePath]
   | arrow =>
       let shaftEnd := Z.to_nat (Math_floor (of_nat (length stroke) * 0.7)) in
       match first stroke, nth_error stroke shaftEnd, last stroke with
       | Some a, Some s, Some b =>
           emit [BeginPath; MoveTo (x a) (y a); LineTo (x s) (y s); StrokePath;
                 BeginPath; MoveTo (x s) (y s); LineTo (x b) (y b);
                 LineTo (x s - 10) (y s); ClosePath; StrokePath]
       | Some a, None, _ => emit [BeginPath; MoveTo (x a) (y a)] +> typeError
       | _, _, _ => emit [BeginPath] +> typeError
       end
   | _ => emit []
   end) +>
  emit [SetStrokeStyle "#000000"%string; SetLineWidth 2].

(** The component state ([useState] cells), the calls issued to the 2D
    context so far and the classifiers consulted so far.  Every handler
    runs on the state the events before it have left. *)
Record State : Type := mkState {
  isDrawing : bool;
  currentStroke : Stroke;
  recognizedShapes : list (ShapeKind * Stroke);   (* [{ type, stroke }] *)
  canvas : list CanvasCall;
  consulted : list Classifier
}.

Definition handleMouseDown (pos : Point) (st : State) : State :=
  {| isDrawing := true;
     currentStroke := [pos];
     recognizedShapes := recognizedShapes st;
     canvas := canvas st ++ [BeginPath; MoveTo (x pos) (y pos)];
     consulted := consulted st |}.

Definition handleMouseMove (pos : Point) (st : State) : State :=
  if negb (isDrawing st) then st else
  {| isDrawing := isDrawing st;
     currentStroke := currentStroke st ++ [pos];
     recognizedShapes := recognizedShapes st;
     canvas := canvas st ++ [LineTo (x pos) (y pos); StrokePath];
     consulted := consulted st |}.

Definition handleMouseUp (st : State) : State :=
  if isDrawing st && Nat.ltb 1 (length (currentStroke st)) then
    let (detectedShape, used) := detectShape (currentStroke st) in
    if negb (ShapeKind_eqb detectedShape freehand) then
      let d := drawRecognizedShape detectedShape (currentStroke st) in
      if completed d then
        {| isDrawing := false;
           currentStroke := [];
           recognizedShapes := recognizedShapes st ++ [(detectedShape, currentStroke st)];
           canvas := canvas st ++ calls d;
           consulted := consulted st ++ used |}
      else (* the TypeError leaves the handler before any state update *)
        {| isDrawing := isDrawing st;
           currentStroke := currentStroke st;
           recognizedShapes := recognizedShapes st;
           canvas := canvas st ++ calls d;
           consulted := consulted st ++ used |}
    else
      {| isDrawing := false;
         currentStroke := [];
         recognizedShapes := recognizedShapes st;
         canvas := canvas st;
         consulted := consulted st ++ used |}
  else
    {| isDrawing := false;
       currentStroke := [];
       recognizedShapes := recognizedShapes st;
       canvas := canvas st;
       consulted := consulted st |}.

Definition handleMouseLeave (st : State) : State :=
  {| isDrawing := false;
     currentStroke := [];
     recognizedShapes := recognizedShapes st;
     canvas := canvas st;
     consulted := consulted st |}.

(** The state after mounting: the grid is on the surface. *)
Definition mounted : State :=
  {| isDrawing := false; currentStroke := []; recognizedShapes := [];
     canvas := [SetStrokeStyle "#000000"%string; SetLineWidth 2;
                SetLineCap "round"%string; SetLineJoin "round"%string]
               ++ Canvas.drawGrid windowWidth windowHeight;
     consulted := [] |}.

(** This revision loads no script: [ScriptLoaded] finds no handler. *)
Definition step (st : State) (e : Event) : State :=
  match e with
  | MouseDown pos => handleMouseDown pos st
  | MouseMove pos => handleMouseMove pos st
  | MouseUp => handleMouseUp st
  | MouseLeave => handleMouseLeave st
  | ScriptLoaded => st
  end.

Definition run (events : list Event) (st : State) : State :=
  fold_left step events st.

End Corners.

End Heuristic.

(* ================================================================== *)
(** ** The contour classifier (part_002 and the final revision of part_003)

    OpenCV.js is an external collaborator.  [OpenCV] is its interface as the
    component uses it: the measurements of a contour, and [findContours],
    the whole rasterise / grayscale / threshold / trace pipeline run on the
    scratch canvas of one stroke, [None] when any step of it throws. *)

Record CvRect : Type := mkCvRect {
  rect_x : float; rect_y : float; rect_width : float; rect_height : float
}.

Class OpenCV : Type := {
  Contour : Type;
  arcLength : Contour -> float;
  (* the rows of the polygon [approxPolyDP] writes, as [data32S] pairs *)
  approxPolyDP : Contour -> float -> list (Z * Z);
  contourArea : Contour -> float;
  boundingRect : Contour -> CvRect;
  minEnclosingCircle : Contour -> Point * float;
  findContours : Stroke -> option (list Contour)
}.

(** The shape objects, one constructor per object literal of the source. *)
Inductive Shape : Type :=
| Line (stroke : Stroke)                                   (* [{ type: 'line', stroke }] *)
| Triangle (vertices : list Point)                         (* [{ type: 'triangle', vertices }] *)
| Rectangle (vertices : list Point) (bounds : CvRect)      (* [{ type: 'rectangle', vertices, boundingRect }] *)
| RectangleBox (bounds : Geometry.BoundingBox)             (* [{ type: 'rectangle', boundingRect }] *)
| Circle (center : Point) (radius : float)                 (* [{ type: 'circle', center, radius }] *)
| Freehand                                                 (* [{ type: 'freehand' }] *)
| Unknown.                                                 (* [{ type: 'unknown' }] *)

Definition type (shape : Shape) : ShapeKind :=
  match shape with
  | Line _ => line
  | Triangle _ => triangle
  | Rectangle _ _ | RectangleBox _ => rectangle
  | Circle _ _ => circle
  | Freehand => freehand
  | Unknown => unknown
  end.

Module ContourClassification.
Import JS.
Local Open Scope float_scope.

Definition getVertices (approx : list (Z * Z)) : list Point :=
  map (fun row => mkPoint (of_Z (fst row)) (of_Z (snd row))) approx.

Section WithOpenCV.
Context {cv : OpenCV}.

Definition circularity (contour : Contour) : float :=
  let perimeter := arcLength contour in
  let area := contourArea contour in
  4 * Math_PI * area / (perimeter * perimeter).

Definition classifyShape (contour : Contour) : Shape :=
  let perimeter := arcLength contour in
  let approx := approxPolyDP contour (0.02 * perimeter) in
  let verticesCount := length approx in
  let area := contourArea contour in
  let bounds := boundingRect contour in
  if Nat.eqb verticesCount 3 then Triangle (getVertices approx)
  else if Nat.eqb verticesCount 4 then Rectangle (getVertices approx) bounds
  else
    let circularity := 4 * Math_PI * area / (perimeter * perimeter) in
    if 0.85 <? circularity
    then let circle := minEnclosingCircle contour in Circle (fst circle) (snd circle)
    else Unknown.

(** [detectShapes(canvas)] for the scratch canvas of [stroke].  The
    library is reachable only once its script has loaded; before that
    the first use of [cv] throws, and the [catch] answers [[]].  The
    measurements of a traced contour are taken not to throw. *)
Definition detectShapes (opencvLoaded : bool) (stroke : Stroke) : list Shape :=
  match (if opencvLoaded then findContours stroke else None) with
  | Some contours =>
      filter (fun shape => negb (ShapeKind_eqb (type shape) unknown))
             (map classifyShape contours)
  | None => []
  end.

(** The first OpenCV revision (part_003, first document), superseded by
    the classifier above: it answers with the kind only. *)
Definition classifyShape_legacy (contour : Contour) : ShapeKind :=
  let perimeter := arcLength contour in
  let epsilon := 0.02 * perimeter in
  let approx := approxPolyDP contour epsilon in
  let vertices := length approx in
  let area := contourArea contour in
  let bounds := boundingRect contour in
  let aspectRatio := rect_width bounds / rect_height bounds in
  if Nat.eqb vertices 3 then triangle
  else if Nat.eqb vertices 4 then
    if (0.8 <? aspectRatio) && (aspectRatio <? 1.2) then square else rectangle
  else if Nat.ltb 8 vertices then
    let circularity := 4 * Math_PI * area / (perimeter * perimeter) in
    if 0.8 <? circularity then circle else unknown
  else unknown.

End WithOpenCV.
End ContourClassification.

(* ================================================================== *)
(** ** The fallback heuristics (part_002 and part_003: same text)

    The OpenCV revisions keep [isLine] as it was and strip [isRectangle]
    and [isCircle] down to closure and bounding-box shape. *)

Module Fallback.
Import JS Geometry Statistics.
Local Open Scope float_scope.
Local Open Scope traced_scope.

Definition isLine : Stroke -> Traced bool := Heuristic.isLine.

Definition isRectangle (stroke : Stroke) : Traced bool :=
  if Nat.ltb (length stroke) 4 then ret false else
  match first stroke, last stroke with
  | Some a, Some b =>
      let startEndDistance := distance a b in
      let isClosed := startEndDistance <? THRESHOLD in
      if negb isClosed then ret false else
      let bounds := getBoundingBox stroke in
      aspectRatio <- divide DivByBoxHeight (width bounds) (height bounds) ;;
      ret (isClosed && (0.2 <? aspectRatio) && (aspectRatio <? 5.0))
  | _, _ => ret false
  end.

Definition isCircle (stroke : Stroke) : Traced bool :=
  if Nat.ltb (length stroke) 6 then ret false else
  match first stroke, last stroke with
  | Some a, Some b =>
      let startEndDistance := distance a b in
      let isClosed := startEndDistance <? THRESHOLD in
      if negb isClosed then ret false else
      center <- calculateCenter stroke ;;
      let distances := map (fun point => distance center point) stroke in
      averageRadius <- average distances ;;
      if strict_eq averageRadius 0 then ret false else
      let bounds := getBoundingBox stroke in
      aspectRatio <- divide DivByBoxHeight (width bounds) (height bounds) ;;
      let isRoughlySquare := (0.5 <? aspectRatio) && (aspectRatio <? 2.0) in
      ret (isClosed && isRoughlySquare)
  | _, _ => ret false
  end.

(** [detectShapeFallback] of part_002, with the classifiers it consults. *)
Definition detectShapeFallback (stroke : Stroke) : Shape * list Classifier :=
  if value (isRectangle stroke)
  then (RectangleBox (getBoundingBox stroke), [RectangleHeuristic])
  else if value (isCircle stroke) then
    let center := value (calculateCenter stroke) in
    let radius := value (average (map (fun point => distance center point) stroke)) in
    (Circle center radius, [RectangleHeuristic; CircleHeuristic])
  else (Freehand, [RectangleHeuristic; CircleHeuristic]).

Section WithOpenCV.
Context {cv : OpenCV}.
Import ContourClassification.

(** [detectShape] of part_002.  Inside the [try], only the scratch
    drawing can throw (on an empty stroke); [detectShapes] has its own
    [catch]. *)
Definition detectShape (opencvLoaded : bool) (stroke : Stroke)
  : Shape * list Classifier :=
  if value (isLine stroke) then (Line stroke, [LineHeuristic])
  else if negb opencvLoaded then
    let r := detectShapeFallback stroke in (fst r, LineHeuristic :: snd r)
  else
    match first stroke with
    | Some _ =>
        match detectShapes opencvLoaded stroke with
        | detectedShape :: _ => (detectedShape, [LineHeuristic; ContourClassifier])
        | [] => (Freehand, [LineHeuristic; ContourClassifier])
        end
    | None =>
        let r := detectShapeFallback stroke in (fst r, LineHeuristic :: snd r)
    end.

End WithOpenCV.
End Fallback.

(* ================================================================== *)
(** ** The orchestrator and the reconciler (part_003, final revision) *)

Module WebCanvas.
Import JS Geometry ContourClassification.
Local Open Scope float_scope.

Definition isLine : Stroke -> Traced bool := Fallback.isLine.
Definition isRectangle : Stroke -> Traced bool := Fallback.isRectangle.
Definition isCircle : Stroke -> Traced bool := Fallback.isCircle.

Section Component.
Context {cv : OpenCV}.
(** [Dimensions.get('window')] *)
Variables width height : Z.

(** [detectShape], with the classifiers it consults.  When the library
    has not loaded the source only logs the fact and goes on into the
    [try]; its [catch] answers freehand. *)
Definition detectShape (opencvLoaded : bool) (stroke : Stroke)
  : Shape * list Classifier :=
  if value (isLine stroke) then (Line stroke, [LineHeuristic])
  else
    match first stroke with
    | Some _ =>
        match detectShapes opencvLoaded stroke with
        | detectedShape :: _ => (detectedShape, [LineHeuristic; ContourClassifier])
        | [] => (Freehand, [LineHeuristic; ContourClassifier])
        end
    | None => (Freehand, [LineHeuristic])
    end.

(** The path of a polygon: [moveTo(vertices[0])], a [lineTo] for each
    further vertex, [closePath]. *)
Definition polygonPath (vertices : list Point) : Draw :=
  match vertices with
  | v0 :: rest =>
      emit (MoveTo (x v0) (y v0) :: map (fun v => LineTo (x v) (y v)) rest ++ [ClosePath])
  | [] => typeError
  end.

Definition drawCleanShape (shape : Shape) : Draw :=
  emit [SetStrokeStyle "#ff0000"%string; SetLineWidth 3; BeginPath] +>
  (match shape with
   | Line stroke =>
       match first stroke, last stroke with
       | Some a, Some b => emit [MoveTo (x a) (y a); LineTo (x b) (y b)]
       | _, _ => typeError
       end
   | Rectangle vertices _ => polygonPath vertices
   | RectangleBox _ => typeError
   | Circle center radius => emit [Arc (x center) (y center) radius 0 (2 * Math_PI)]
   | Triangle vertices => polygonPath vertices
   | Freehand | Unknown => emit []
   end) +>
  emit [StrokePath; SetStrokeStyle "#000000"%string; SetLineWidth 2].

(** [drawRecognizedShape(newShape)], reading the ledger of the render
    the handler belongs to. *)
Definition drawRecognizedShape (recognizedShapes : list Shape) (newShape : Shape) : Draw :=
  emit [ClearRect 0 0 (of_Z width) (of_Z height)] +>
  emit (Canvas.drawGrid width height) +>
  forEach drawCleanShape recognizedShapes +>
  drawCleanShape newShape.

Record State : Type := mkState {
  isDrawing : bool;
  currentStroke : Stroke;
  recognizedShapes : list Shape;
  opencvLoaded : bool;
  canvas : list CanvasCall;
  consulted : list Classifier
}.

(** The state after mounting: the grid is on the surface. *)
Definition mounted : State :=
  {| isDrawing := false; currentStroke := []; recognizedShapes := [];
     opencvLoaded := false;
     canvas := [SetStrokeStyle "#000000"%string; SetLineWidth 2;
                SetLineCap "round"%string; SetLineJoin "round"%string]
               ++ Canvas.drawGrid width height;
     consulted := [] |}.

Definition scriptOnload (st : State) : State :=
  {| isDrawing := isDrawing st; currentStroke := currentStroke st;
     recognizedShapes := recognizedShapes st;
     opencvLoaded := true;
     canvas := canvas st; consulted := consulted st |}.

Definition handleMouseDown (pos : Point) (st : State) : State :=
  {| isDrawing := true;
     currentStroke := [pos];
     recognizedShapes := recognizedShapes st;
     opencvLoaded := opencvLoaded st;
     canvas := canvas st ++ [BeginPath; MoveTo (x pos) (y pos)];
     consulted := consulted st |}.

Definition handleMouseMove (pos : Point) (st : State) : State :=
  if negb (isDrawing st) then st else
  {| isDrawing := isDrawing st;
     currentStroke := currentStroke st ++ [pos];
     recognizedShapes := recognizedShapes st;
     opencvLoaded := opencvLoaded st;
     canvas := canvas st ++ [LineTo (x pos) (y pos); StrokePath];
     consulted := consulted st |}.

Definition handleMouseUp (st : State) : State :=
  if isDrawing st && Nat.ltb 1 (length (currentStroke st)) then
    let (detectedShape, used) := detectShape (opencvLoaded st) (currentStroke st) in
    if negb (ShapeKind_eqb (type detectedShape) freehand) then
      let d := drawRecognizedShape (recognizedShapes st) detectedShape in
      if completed d then
        {| isDrawing := false;
           currentStroke := [];
           recognizedShapes := recognizedShapes st ++ [detectedShape];
           opencvLoaded := opencvLoaded st;
           canvas := canvas st ++ calls d;
           consulted := consulted st ++ used |}
      else (* the TypeError leaves the handler before any state update *)
        {| isDrawing := isDrawing st;
           currentStroke := currentStroke st;
           recognizedShapes := recognizedShapes st;
           opencvLoaded := opencvLoaded st;
           canvas := canvas st ++ calls d;
           consulted := consulted st ++ used |}
    else
      {| isDrawing := false;
         currentStroke := [];
         recognizedShapes := recognizedShapes st;
         opencvLoaded := opencvLoaded st;
         canvas := canvas st;
         consulted := consulted st ++ used |}
  else
    {| isDrawing := false;
       currentStroke := [];
       recognizedShapes := recognizedShapes st;
       opencvLoaded := opencvLoaded st;
       canvas := canvas st;
       consulted := consulted st |}.

Definition handleMouseLeave (st : State) : State :=
  {| isDrawing := false;
     currentStroke := [];
     recognizedShapes := recognizedShapes st;
     opencvLoaded := opencvLoaded st;
     canvas := canvas st;
     consulted := consulted st |}.

Definition step (st : State) (e : Event) : State :=
  match e with
  | MouseDown pos => handleMouseDown pos st
  | MouseMove pos => handleMouseMove pos st
  | MouseUp => handleMouseUp st
  | MouseLeave => handleMouseLeave st
  | ScriptLoaded => scriptOnload st
  end.

Definition run (events : list Event) (st : State) : State :=
  fold_left step events st.

End Component.
End WebCanvas.

(* ================================================================== *)
(** ** The vocabulary of the specification

    The quantities the specification names, written from its words over the
    geometry helpers; the properties compare the code with them. *)

Module Spec.
Import JS Geometry.
Local Open Scope float_scope.

(** "closed iff distance(first,last) < CLOSE_THRESHOLD (10 units)" *)
Definition closed (stroke : Stroke) : bool :=
  match first stroke, last stroke with
  | Some a, Some b => distance a b <? 10
  | _, _ => false
  end.

(** "aspectRatio = bbox.width/bbox.height" *)
Definition aspectRatio (stroke : Stroke) : float :=
  width (getBoundingBox stroke) / height (getBoundingBox stroke).

(** "pathLength(stroke): sum of consecutive distances" *)
Definition pathLength (stroke : Stroke) : float := calculateTotalDistance stroke.

(** The segment a [Line] stands for, read off the object as the renderer
    reads it. *)
Definition endpoints (shape : Shape) : option (Point * Point) :=
  match shape with
  | Line stroke =>
      match first stroke, last stroke with
      | Some a, Some b => Some (a, b)
      | _, _ => None
      end
  | _ => None
  end.

(** "straightness = distance(first,last) / pathLength(stroke)" *)
Definition straightness (stroke : Stroke) : float :=
  match first stroke, last stroke with
  | Some a, Some b => distance a b / pathLength stroke
  | _, _ => nan
  end.

(** "distances = distance(centroid, p) for each p" *)
Definition radii (stroke : Stroke) : list float :=
  let centroid := value (Statistics.calculateCenter stroke) in
  map (fun p => distance centroid p) stroke.

(** "mean(distances)" *)
Definition meanRadius (stroke : Stroke) : float :=
  value (Statistics.average (radii stroke)).

(** "circularity = variance(distances)/mean(distances)", the variance
    being the population variance *)
Definition radialCircularity (stroke : Stroke) : float :=
  value (Statistics.calculateVariance (radii stroke)) / meanRadius stroke.

(** No recorded division had a zero divisor. *)
Definition noDivisionByZero (ds : list Division) : bool :=
  forallb (fun d => negb (byZero d)) ds.

(** The same, leaving the divisions by the bounding-box height aside. *)
Definition noGuardedDivisionByZero (ds : list Division) : bool :=
  forallb (fun d => match d with
                    | DivByBoxHeight _ => true
                    | _ => negb (byZero d)
                    end) ds.

(** "Degenerate geometry (zero path length, zero bounding-box dimension,
    zero average radius)" *)
Definition degenerate (stroke : Stroke) : bool :=
  strict_eq (pathLength stroke) 0
  || strict_eq (width (getBoundingBox stroke)) 0
  || strict_eq (height (getBoundingBox stroke)) 0
  || strict_eq (meanRadius stroke) 0.

(** A shape object the renderer can draw: a line has its stroke, a polygon
    its vertices. *)
Definition drawable (shape : Shape) : bool :=
  match shape with
  | Line stroke => negb (Nat.eqb (length stroke) 0)
  | Triangle vertices | Rectangle vertices _ => negb (Nat.eqb (length vertices) 0)
  | RectangleBox _ => false
  | Circle _ _ | Freehand | Unknown => true
  end.

(** The ledger holds drawable shapes, none of them freehand. *)
Definition ledgerSound (st : WebCanvas.State) : Prop :=
  Forall (fun shape => drawable shape = true /\ type shape <> freehand)
         (WebCanvas.recognizedShapes st).

(** "Malformed stroke (fewer than 2 points)": no classification. *)
Definition malformed (stroke : Stroke) : bool := Nat.ltb (length stroke) 2.

(** A completed stroke counts as recognised when it is classified and the
    verdict is not freehand, and as freehand when it is classified so. *)
Definition recognised (verdict : Stroke -> ShapeKind) (stroke : Stroke) : bool :=
  negb (malformed stroke) && negb (ShapeKind_eqb (verdict stroke) freehand).

Definition leftFreehand (verdict : Stroke -> ShapeKind) (stroke : Stroke) : bool :=
  negb (malformed stroke) && ShapeKind_eqb (verdict stroke) freehand.

(** The verdict of the final orchestrator on a stroke, as a kind. *)
Definition verdictOf {cv : OpenCV} (opencvLoaded : bool) (stroke : Stroke) : ShapeKind :=
  type (fst (WebCanvas.detectShape opencvLoaded stroke)).

(** The events of a sequence of completed strokes. *)
Definition strokesEvents (strokes : list Stroke) : list Event :=
  flat_map strokeEvents strokes.

(** The rough ink of a stroke in progress. *)
Definition ink (stroke : Stroke) : list CanvasCall :=
  match stroke with
  | [] => []
  | p :: rest =>
      [BeginPath; MoveTo (x p) (y p)]
      ++ flat_map (fun q => [LineTo (x q) (y q); StrokePath]) rest
  end.



End Spec.

(* ================================================================== *)
(** ** Signs

    A number that is NaN or carries a clear sign bit: what squares, square
    roots, lengths and their sums and quotients are. *)

Definition nonneg (f : spec_float) : Prop :=
  match f with
  | S754_nan => True
  | S754_zero s | S754_infinity s | S754_finite s _ _ => s = false
  end.

Definition Nonneg (v : float) : Prop := nonneg (Prim2SF v).

(* ================================================================== *)
(** ** Sample strokes and collaborators *)

(** A five-point closed diamond: round by every measure the specification
    names, and one point short of the gate. *)
Definition diamond5 : Stroke :=
  [mkPoint 10 0; mkPoint 0 10; mkPoint (-10) 0; mkPoint 0 (-10); mkPoint 10 0]%float.

(** A short stroke for the size gates. *)
Definition corner3 : Stroke :=
  [mkPoint 0 0; mkPoint 3 0; mkPoint 0 4]%float.

(** Four samples along a horizontal segment: the bounding box has no
    height. *)
Definition horizontal4 : Stroke :=
  [mkPoint 0 0; mkPoint 1 0; mkPoint 2 0; mkPoint 3 0]%float.

(** A press and a release drag on one spot: the path has no length. *)
Definition still2 : Stroke := [mkPoint 1 1; mkPoint 1 1]%float.

(** An [atan2] for running the samples: any function will do where the
    property at hand holds for all of them. *)
Definition flat_atan2 (dy dx : float) : float := 0%float.

(** The specification's two-point example: a stroke straight from corner to corner. *)
Definition diagonal2 : Stroke := [mkPoint 0 0; mkPoint 100 100]%float.

(** A closed, near-circular stroke: eight samples at radius ten and back
    to the start. *)
Definition ring9 : Stroke :=
  [mkPoint 10 0; mkPoint 7 7; mkPoint 0 10; mkPoint (-7) 7; mkPoint (-10) 0;
   mkPoint (-7) (-7); mkPoint 0 (-10); mkPoint 7 (-7); mkPoint 10 0]%float.

(** The specification's near-closed rectangle. *)
Definition box5 : Stroke :=
  [mkPoint 0 0; mkPoint 50 0; mkPoint 50 50; mkPoint 0 50; mkPoint 0 2]%float.

(** A closed stroke whose first three samples lie on one segment: of its
    two interior points the first is no corner for any [atan2]. *)
Definition hook4 : Stroke :=
  [mkPoint 0 0; mkPoint 1 1; mkPoint 2 2; mkPoint 0 1]%float.

(** A stand-in for OpenCV.js: a contour is the table of its measurements,
    and [trace] is what the pipeline answers for a stroke. *)
Record SampleContour : Type := mkSampleContour {
  sample_perimeter : float;
  sample_polygon : list (Z * Z);
  sample_area : float;
  sample_rect : CvRect;
  sample_circle : Point * float
}.

Definition sampleCV (trace : Stroke -> option (list SampleContour)) : OpenCV :=
  {| Contour := SampleContour;
     arcLength := sample_perimeter;
     approxPolyDP := fun contour _ => sample_polygon contour;
     contourArea := sample_area;
     boundingRect := sample_rect;
     minEnclosingCircle := sample_circle;
     findContours := trace |}.

Definition triangleContour : SampleContour :=
  {| sample_perimeter := 120; sample_polygon := [(0, 0); (40, 0); (0, 30)]%Z;
     sample_area := 600; sample_rect := mkCvRect 0 0 40 30;
     sample_circle := (mkPoint 20 15, 25) |}%float.

Definition squareContour : SampleContour :=
  {| sample_perimeter := 200; sample_polygon := [(0, 0); (50, 0); (50, 50); (0, 50)]%Z;
     sample_area := 2500; sample_rect := mkCvRect 0 0 50 50;
     sample_circle := (mkPoint 25 25, 36) |}%float.

(** Six vertices, circularity [4 * pi * 314 / 63^2], about 0.994. *)
Definition roundContour : SampleContour :=
  {| sample_perimeter := 63;
     sample_polygon := [(10, 0); (5, 9); (-5, 9); (-10, 0); (-5, -9); (5, -9)]%Z;
     sample_area := 314; sample_rect := mkCvRect (-10) (-10) 20 20;
     sample_circle := (mkPoint 0 0, 10) |}%float.

(** Five vertices, circularity [4 * pi * 100 / 80^2], about 0.196. *)
Definition raggedContour : SampleContour :=
  {| sample_perimeter := 80;
     sample_polygon := [(0, 0); (30, 0); (30, 5); (10, 5); (0, 10)]%Z;
     sample_area := 100; sample_rect := mkCvRect 0 0 30 10;
     sample_circle := (mkPoint 15 5, 16) |}%float.

(** The library absent: every pipeline run throws. *)
Definition absentCV : OpenCV := sampleCV (fun _ => None).
(** A small window, two grid lines each way. *)
Definition sampleWidth : Z := 80.
Definition sampleHeight : Z := 40.

(** The press and the drag of [diagonal2], the button still down. *)
Definition diagonalDrag : list Event :=
  [MouseDown (mkPoint 0 0); MouseMove (mkPoint 100 100)]%float.

(** A press with no drag yet, over a ledger of one line. *)
Definition pressedOnce : WebCanvas.State :=
  {| WebCanvas.isDrawing := true;
     WebCanvas.currentStroke := [mkPoint 5 5]%float;
     WebCanvas.recognizedShapes := [Line diagonal2];
     WebCanvas.opencvLoaded := true;
     WebCanvas.canvas := [];
     WebCanvas.consulted := [LineHeuristic] |}.

Definition heuristicPressedOnce : Heuristic.State :=
  {| Heuristic.isDrawing := true;
     Heuristic.currentStroke := [mkPoint 5 5]%float;
     Heuristic.recognizedShapes := [(line, diagonal2)];
     Heuristic.canvas := [];
     Heuristic.consulted := [LineHeuristic] |}.

(* ================================================================== *)
(** ** The release handler of part_002

    part_002 has the renderer, the state and the press, drag and leave
    handlers of the final revision word for word; its release handler
    differs in the [detectShape] it calls, the one with the fallback. *)

Module Part002.
Section Component.
Context {cv : OpenCV}.
Variables width height : Z.

Definition handleMouseUp (st : WebCanvas.State) : WebCanvas.State :=
  if WebCanvas.isDrawing st && Nat.ltb 1 (length (WebCanvas.currentStroke st)) then
    let (detectedShape, used) :=
      Fallback.detectShape (WebCanvas.opencvLoaded st) (WebCanvas.currentStroke st) in
    if negb (ShapeKind_eqb (type detectedShape) freehand) then
      let d := WebCanvas.drawRecognizedShape width height
                 (WebCanvas.recognizedShapes st) detectedShape in
      if completed d then
        {| WebCanvas.isDrawing := false;
           WebCanvas.currentStroke := [];
           WebCanvas.recognizedShapes := WebCanvas.recognizedShapes st ++ [detectedShape];
           WebCanvas.opencvLoaded := WebCanvas.opencvLoaded st;
           WebCanvas.canvas := WebCanvas.canvas st ++ calls d;
           WebCanvas.consulted := WebCanvas.consulted st ++ used |}
      else (* the TypeError leaves the handler before any state update *)
        {| WebCanvas.isDrawing := WebCanvas.isDrawing st;
           WebCanvas.currentStroke := WebCanvas.currentStroke st;
           WebCanvas.recognizedShapes := WebCanvas.recognizedShapes st;
           WebCanvas.opencvLoaded := WebCanvas.opencvLoaded st;
           WebCanvas.canvas := WebCanvas.canvas st ++ calls d;
           WebCanvas.consulted := WebCanvas.consulted st ++ used |}
    else
      {| WebCanvas.isDrawing := false;
         WebCanvas.currentStroke := [];
         WebCanvas.recognizedShapes := WebCanvas.recognizedShapes st;
         WebCanvas.opencvLoaded := WebCanvas.opencvLoaded st;
         WebCanvas.canvas := WebCanvas.canvas st;
         WebCanvas.consulted := WebCanvas.consulted st ++ used |}
  else
    {| WebCanvas.isDrawing := false;
       WebCanvas.currentStroke := [];
       WebCanvas.recognizedShapes := WebCanvas.recognizedShapes st;
       WebCanvas.opencvLoaded := WebCanvas.opencvLoaded st;
       WebCanvas.canvas := WebCanvas.canvas st;
       WebCanvas.consulted := WebCanvas.consulted st |}.

Definition step (st : WebCanvas.State) (e : Event) : WebCanvas.State :=
  match e with
  | MouseDown pos => WebCanvas.handleMouseDown pos st
  | MouseMove pos => WebCanvas.handleMouseMove pos st
  | MouseUp => handleMouseUp st
  | MouseLeave => WebCanvas.handleMouseLeave st
  | ScriptLoaded => WebCanvas.scriptOnload st
  end.

Definition run (events : list Event) (st : WebCanvas.State) : WebCanvas.State :=
  fold_left step events st.

End Component.
End Part002.

(* ================================================================== *)
(** ** The native canvas (GridCanvas.js, first documents)

    A Skia path is the list of its verbs; [copy] is the list itself.  The
    pan responder is created inside [useRef(...)], so the handlers the
    view keeps are those of the first render, and the [currentPath] they
    read is the one of that render. *)

Module NativeCanvas.

Inductive PathVerb : Type :=
| PathMoveTo (px py : float)
| PathLineTo (px py : float).

Definition SkPath := list PathVerb.

Record State : Type := mkState {
  paths : list SkPath;
  currentPath : option SkPath
}.

(** [useState([])], [useState(null)] *)
Definition initial : State := {| paths := []; currentPath := None |}.

Section Closure.
(** The render whose closure the handlers hold. *)
Variable render : State.

Definition onPanResponderGrant (loc : Point) (st : State) : State :=
  {| paths := paths st; currentPath := Some [PathMoveTo (x loc) (y loc)] |}.

Definition onPanResponderMove (loc : Point) (st : State) : State :=
  match currentPath render with
  | Some path =>
      let updatedPath := path ++ [PathLineTo (x loc) (y loc)] in
      {| paths := paths st; currentPath := Some updatedPath |}
  | None => st
  end.

Definition onPanResponderRelease (st : State) : State :=
  match currentPath render with
  | Some path => {| paths := paths st ++ [path]; currentPath := None |}
  | None => st
  end.

End Closure.

Inductive Gesture : Type :=
| Grant (loc : Point)
| Move (loc : Point)
| Release.

(** The component: its handlers are those created in the first render. *)
Definition respond (st : State) (g : Gesture) : State :=
  match g with
  | Grant loc => onPanResponderGrant loc st
  | Move loc => onPanResponderMove initial loc st
  | Release => onPanResponderRelease initial st
  end.

Definition run (gestures : list Gesture) (st : State) : State :=
  fold_left respond gestures st.

(** What the canvas shows: the finished paths and the one in progress. *)
Definition shown (st : State) : list SkPath :=
  paths st ++ match currentPath st with Some path => [path] | None => [] end.

Definition isLineTo (v : PathVerb) : bool :=
  match v with PathLineTo _ _ => true | PathMoveTo _ _ => false end.

End NativeCanvas.

(* ================================================================== *)
(** ** Further samples *)

(** An [atan2] that tells directions apart: it answers the rise. *)
Definition rise_atan2 (dy dx : float) : float := dy.

(** Ten samples along a shaft and a head of five that zigzags. *)
Definition arrow15 : Stroke :=
  [mkPoint 0 0; mkPoint 10 0; mkPoint 20 0; mkPoint 30 0; mkPoint 40 0;
   mkPoint 50 0; mkPoint 60 0; mkPoint 70 0; mkPoint 80 0; mkPoint 90 0;
   mkPoint 100 0; mkPoint 95 5; mkPoint 100 0; mkPoint 95 5; mkPoint 100 0]%float.

(** Six samples back and forth along a horizontal segment, ending where
    they began: closed, of positive mean radius, and the bounding box has
    no height. *)
Definition flat6 : Stroke :=
  [mkPoint 0 0; mkPoint 4 0; mkPoint 8 0; mkPoint 4 0; mkPoint 2 0; mkPoint 0 0]%float.



(** The button down at the end of [box5], the library not loaded, the
    ledger empty. *)
Definition boxPending : WebCanvas.State :=
  {| WebCanvas.isDrawing := true;
     WebCanvas.currentStroke := box5;
     WebCanvas.recognizedShapes := [];
     WebCanvas.opencvLoaded := false;
     WebCanvas.canvas := [];
     WebCanvas.consulted := [] |}.

(* ================================================================== *)
(** ** Further vocabulary for the properties *)

Module Terms.

(** [l1] is [l2] with some elements left out, the order kept. *)
Inductive Subsequence {A : Type} : list A -> list A -> Prop :=
| sub_nil (l : list A) : Subsequence [] l
| sub_skip (a : A) (l1 l2 : list A) : Subsequence l1 l2 -> Subsequence l1 (a :: l2)
| sub_take (a : A) (l1 l2 : list A) : Subsequence l1 l2 -> Subsequence (a :: l1) (a :: l2).

(** The points of a stroke other than its first and last. *)
Definition interior (stroke : Stroke) : Stroke := removelast (tl stroke).

(** The [strokeStyle] and the [lineWidth] of the context after a sequence
    of calls. *)
Definition strokeStyleAfter (cs : list CanvasCall) (before : string) : string :=
  fold_left (fun style c => match c with SetStrokeStyle s => s | _ => style end)
            cs before.

Definition lineWidthAfter (cs : list CanvasCall) (before : float) : float :=
  fold_left (fun w c => match c with SetLineWidth v => v | _ => w end) cs before.

(** A ledger entry as the data model has it: a line over a stroke of two
    points or more, a triangle of three vertices, a rectangle of four, a
    circle. *)
Definition wellFormed (shape : Shape) : Prop :=
  match shape with
  | Line stroke => 2 <= length stroke
  | Triangle vertices => length vertices = 3
  | Rectangle vertices _ => length vertices = 4
  | Circle _ _ => True
  | RectangleBox _ | Freehand | Unknown => False
  end.

(** The multiples of [GRID_SIZE] from 0 up to [limit], [limit] included. *)
Definition gridStops (limit : Z) : list Z :=
  map (fun k => (Canvas.GRID_SIZE * Z.of_nat k)%Z)
      (seq 0 (Z.to_nat (limit / Canvas.GRID_SIZE + 1))).

Definition verticalLine (height gx : Z) : list CanvasCall :=
  [BeginPath; MoveTo (JS.of_Z gx) 0; LineTo (JS.of_Z gx) (JS.of_Z height); StrokePath].

Definition horizontalLine (width gy : Z) : list CanvasCall :=
  [BeginPath; MoveTo 0 (JS.of_Z gy); LineTo (JS.of_Z width) (JS.of_Z gy); StrokePath].

(** Two numbers with the same magnitude: equal up to the sign bit. *)
Definition sameMagnitude (f g : spec_float) : Prop :=
  match f, g with
  | S754_nan, S754_nan => True
  | S754_zero _, S754_zero _ => True
  | S754_infinity _, S754_infinity _ => True
  | S754_finite _ m e, S754_finite _ m' e' => m = m' /\ e = e'
  | _, _ => False
  end.

(** [a] is a number not below the number [b]. *)
Definition notBelow (a b : spec_float) : Prop :=
  match SFcompare a b with
  | Some Eq | Some Gt => True
  | _ => False
  end.

(** The context draws the user's ink in black, two pixels wide. *)
Definition inkStyled (cs : list CanvasCall) : Prop :=
  forall (style : string) (w : float),
    strokeStyleAfter cs style = "#000000"%string /\ lineWidthAfter cs w = 2%float.

(** A [Line] object. *)
Definition isLineShape (shape : Shape) : Prop :=
  match shape with Line _ => True | _ => False end.

End Terms.


(* ================================================================== *)
(** * Properties *)

Unset Implicit Arguments.

(** ** IEEE facts the guards rely on *)

Module FloatFacts.
Local Open Scope float_scope.

Lemma Prim2SF_zero : Prim2SF 0 = S754_zero false.
Proof. reflexivity. Qed.

(** [v === 0] holds exactly for the two zeros. *)
Lemma strict_eq_zero (v : float) :
  JS.strict_eq v 0 = true -> exists s, Prim2SF v = S754_zero s.
Proof.
  unfold JS.strict_eq. rewrite FloatAxioms.eqb_spec, Prim2SF_zero.
  destruct (Prim2SF v) as [s|s| |s m e]; cbn; try discriminate.
  - intros _. now exists s.
  - destruct s; discriminate.
  - destruct s; discriminate.
Qed.

(** A strictly positive number is not [=== 0]. *)
Lemma positive_not_zero (v : float) :
  (0 <? v) = true -> JS.strict_eq v 0 = false.
Proof.
  unfold JS.strict_eq. rewrite FloatAxioms.ltb_spec, FloatAxioms.eqb_spec, Prim2SF_zero.
  destruct (Prim2SF v) as [s|s| |s m e]; cbn; try discriminate;
    destruct s; cbn; intros; congruence.
Qed.

(** Dividing by a zero gives NaN or an infinity, which lies in no open
    interval. *)
Lemma quotient_by_zero_in_no_interval (w h lo hi : float) :
  JS.strict_eq h 0 = true -> (lo <? w / h) && (w / h <? hi) = false.
Proof.
  intros Hz. destruct (strict_eq_zero _ Hz) as [s Hs].
  rewrite !FloatAxioms.ltb_spec, FloatAxioms.div_spec, Hs.
  destruct (Prim2SF w) as [sw|sw| |sw mw ew], (Prim2SF lo) as [sl|sl| |sl ml el],
    (Prim2SF hi) as [sh|sh| |sh mh eh];
    cbn; try reflexivity;
    destruct sw, s; cbn; try reflexivity;
    try (destruct sl; reflexivity); try (destruct sh; reflexivity);
    try (destruct sl, sh; reflexivity).
Qed.

(** A zero divided by anything is NaN or a zero, which is not above a
    positive bound. *)
Lemma zero_quotient_not_above (w h lo : float) :
  JS.strict_eq w 0 = true -> (0 <? lo) = true -> (lo <? w / h) = false.
Proof.
  intros Hz Hlo. destruct (strict_eq_zero _ Hz) as [s Hs].
  rewrite FloatAxioms.ltb_spec, Prim2SF_zero in Hlo.
  rewrite FloatAxioms.ltb_spec, FloatAxioms.div_spec, Hs.
  destruct (Prim2SF h) as [sh|sh| |sh mh eh], (Prim2SF lo) as [sl|sl| |sl ml el];
    cbn in *; try reflexivity; try discriminate;
    destruct sl; cbn in *; try reflexivity; discriminate.
Qed.

End FloatFacts.

(** ** Lists and strokes *)

Lemma first_some (stroke : Stroke) :
  0 < length stroke -> exists a, first stroke = Some a.
Proof.
  destruct stroke as [|a rest]; simpl; [lia|]. intros _. now exists a.
Qed.

Lemma last_some (stroke : Stroke) :
  0 < length stroke -> exists b, last stroke = Some b.
Proof.
  intros H. unfold last.
  destruct (nth_error stroke (length stroke - 1)) as [b|] eqn:E.
  - now exists b.
  - apply nth_error_None in E. lia.
Qed.

(** Every corner is an interior point: a stroke of [n] points has at most
    [n - 2] corners, whatever [atan2] answers. *)
Lemma findCorners_length (atan2 : float -> float -> float) (stroke : Stroke) :
  length (Heuristic.findCorners atan2 stroke) <= length stroke - 2.
Proof.
  induction stroke as [|prev rest IH]; simpl; [lia|].
  destruct rest as [|curr [|next tl]]; simpl; try lia.
  simpl in IH.
  match goal with |- context [if ?c then _ else _] => destruct c end;
    simpl; lia.
Qed.

(** ** The traced computations *)

Lemma value_bind {A B} (m : Traced A) (f : A -> Traced B) :
  value (bind m f) = value (f (value m)).
Proof. reflexivity. Qed.

Lemma divisions_bind {A B} (m : Traced A) (f : A -> Traced B) :
  divisions (bind m f) = divisions m ++ divisions (f (value m)).
Proof. reflexivity. Qed.

(** ** The heuristic predicates (GridCanvas.js) *)

Section HeuristicPredicates.
Import JS Geometry Statistics.
Local Open Scope float_scope.
Variable atan2 : float -> float -> float.

(** What an accepted stroke has passed, read off the code. *)
Lemma isRectangle_accepts (stroke : Stroke) :
  value (Heuristic.isRectangle atan2 stroke) = true ->
  2 <= length (Heuristic.findCorners atan2 stroke)
  /\ (0.2 <? Spec.aspectRatio stroke) = true
  /\ (Spec.aspectRatio stroke <? 5.0) = true.
Proof.
  unfold Heuristic.isRectangle, Spec.aspectRatio.
  destruct (Nat.ltb (length stroke) 4); [discriminate|].
  destruct (first stroke), (last stroke); try discriminate.
  destruct (negb _); [discriminate|].
  cbn -[Heuristic.findCorners getBoundingBox Nat.leb].
  rewrite !andb_true_iff, Nat.leb_le. tauto.
Qed.

Lemma isCircle_accepts (stroke : Stroke) :
  value (Heuristic.isCircle stroke) = true ->
  strict_eq (Spec.meanRadius stroke) 0 = false
  /\ (0.5 <? Spec.aspectRatio stroke) = true
  /\ (Spec.aspectRatio stroke <? 2.0) = true.
Proof.
  unfold Heuristic.isCircle, Spec.aspectRatio, Spec.meanRadius, Spec.radii.
  destruct (Nat.ltb (length stroke) 6); [discriminate|].
  destruct (first stroke), (last stroke); try discriminate.
  destruct (negb _); [discriminate|].
  unfold value, strict_eq.
  cbn -[getBoundingBox calculateCenter average calculateVariance distance].
  match goal with |- context [if ?c then _ else _] => destruct c eqn:Hz end;
    cbn -[getBoundingBox calculateCenter average calculateVariance distance];
    [discriminate|].
  rewrite !andb_true_iff. tauto.
Qed.

(** C6.  The rectangle predicate of GridCanvas.js holds exactly when the
    stroke is closed (first and last point less than 10 apart), at least
    two corners are detected, and the bounding-box aspect ratio lies
    strictly between 0.2 and 5.0.  The four-point gate of the code is
    implied by the corner count. *)
Theorem isRectangle_iff_closed_corners_aspect (stroke : Stroke) :
  value (Heuristic.isRectangle atan2 stroke) = true <->
  Spec.closed stroke = true
  /\ 2 <= length (Heuristic.findCorners atan2 stroke)
  /\ (0.2 <? Spec.aspectRatio stroke) = true
  /\ (Spec.aspectRatio stroke <? 5.0) = true.
Proof.
  unfold Heuristic.isRectangle, Spec.closed, Spec.aspectRatio.
  pose proof (findCorners_length atan2 stroke) as Hc.
  destruct (Nat.ltb_spec (length stroke) 4) as [Hlt|Hge].
  - split; [discriminate|]. intros (_ & H2 & _). lia.
  - destruct (first_some stroke) as [a ->]; [lia|].
    destruct (last_some stroke) as [b ->]; [lia|].
    unfold THRESHOLD.
    destruct (distance a b <? 10) eqn:Hcl; cbn -[Heuristic.findCorners getBoundingBox Nat.leb].
    + rewrite !andb_true_iff, Nat.leb_le. tauto.
    + split; [discriminate|]. intros (H & _). discriminate.
Qed.

(** The circle predicate of GridCanvas.js, guard by guard: at least 6
    points, closure, a mean radius that is not zero, circularity below 0.5
    and an aspect ratio between 0.5 and 2.0. *)
Lemma isCircle_iff_guards (stroke : Stroke) :
  value (Heuristic.isCircle stroke) = true <->
  6 <= length stroke
  /\ Spec.closed stroke = true
  /\ strict_eq (Spec.meanRadius stroke) 0 = false
  /\ (Spec.radialCircularity stroke <? 0.5) = true
  /\ (0.5 <? Spec.aspectRatio stroke) = true
  /\ (Spec.aspectRatio stroke <? 2.0) = true.
Proof.
  unfold Heuristic.isCircle, Spec.closed, Spec.aspectRatio,
    Spec.radialCircularity, Spec.meanRadius, Spec.radii.
  destruct (Nat.ltb_spec (length stroke) 6) as [Hlt|Hge].
  - split; [discriminate|]. intros (H & _). lia.
  - destruct (first_some stroke) as [a ->]; [lia|].
    destruct (last_some stroke) as [b ->]; [lia|].
    unfold THRESHOLD, value, strict_eq.
    destruct (distance a b <? 10) eqn:Hcl;
      cbn -[getBoundingBox calculateCenter average calculateVariance distance].
    + match goal with |- context [if ?c then _ else _] => destruct c eqn:Hz end;
        cbn -[getBoundingBox calculateCenter average calculateVariance distance].
      * split; [discriminate|]. intros (_ & _ & H & _). discriminate.
      * rewrite !andb_true_iff. tauto.
    + split; [discriminate|]. intros (_ & H & _). discriminate.
Qed.

(** C10.  The size gates: under 6 points no circle, under 4 points no
    rectangle, in GridCanvas.js and in the fallback copies alike, whatever
    the geometry of the stroke. *)
Theorem minimum_size_gates (stroke : Stroke) :
  (length stroke < 6 ->
     value (Heuristic.isCircle stroke) = false
     /\ value (WebCanvas.isCircle stroke) = false)
  /\ (length stroke < 4 ->
     value (Heuristic.isRectangle atan2 stroke) = false
     /\ value (WebCanvas.isRectangle stroke) = false).
Proof.
  unfold WebCanvas.isCircle, WebCanvas.isRectangle, Heuristic.isCircle,
    Heuristic.isRectangle, Fallback.isCircle, Fallback.isRectangle.
  split; intros H.
  - destruct (Nat.ltb_spec (length stroke) 6); [now split | lia].
  - destruct (Nat.ltb_spec (length stroke) 4); [now split | lia].
Qed.

End HeuristicPredicates.

(** ** Signs of the measured quantities *)

Lemma binary_round_aux_sign (s : bool) (m e : Z) (l : location) :
  match binary_round_aux prec emax s m e l with
  | S754_nan => True
  | S754_zero s' | S754_infinity s' | S754_finite s' _ _ => s' = s
  end.
Proof.
  unfold binary_round_aux.
  destruct (shr_fexp prec emax m e l) as [mrs' e'].
  destruct (shr_fexp prec emax _ e' loc_Exact) as [mrs'' e''].
  destruct (shr_m mrs''); try exact I; try reflexivity.
  destruct (Z.leb e'' _); reflexivity.
Qed.

Lemma binary_round_aux_nonneg (m e : Z) (l : location) :
  nonneg (binary_round_aux prec emax false m e l).
Proof.
  pose proof (binary_round_aux_sign false m e l) as H. unfold nonneg.
  destruct (binary_round_aux prec emax false m e l); auto.
Qed.

Lemma binary_normalize_nonneg (m e : Z) :
  (0 <= m)%Z -> nonneg (binary_normalize prec emax m e false).
Proof.
  intros Hm. destruct m as [|p|p]; simpl; try reflexivity; try lia.
  unfold binary_round. destruct (shl_align _ _ _) as [mz ez].
  apply binary_round_aux_nonneg.
Qed.

Lemma mul_self_Nonneg (v : float) : Nonneg (v * v)%float.
Proof.
  unfold Nonneg. rewrite FloatAxioms.mul_spec. unfold SF64mul.
  destruct (Prim2SF v) as [s|s| |s m e]; simpl; try exact I;
    try (destruct s; reflexivity).
  replace (xorb s s) with false by (destruct s; reflexivity).
  apply binary_round_aux_nonneg.
Qed.

Lemma add_Nonneg (a b : float) : Nonneg a -> Nonneg b -> Nonneg (a + b)%float.
Proof.
  unfold Nonneg. rewrite FloatAxioms.add_spec. unfold SF64add.
  destruct (Prim2SF a) as [sa|sa| |sa ma ea], (Prim2SF b) as [sb|sb| |sb mb eb];
    cbn [nonneg SFadd]; intros Ha Hb; subst; try exact I; try reflexivity.
  apply binary_normalize_nonneg. cbn [cond_Zopp].
  apply Z.add_nonneg_nonneg; apply Pos2Z.is_nonneg.
Qed.

Lemma sqrt_Nonneg (a : float) : Nonneg a -> Nonneg (PrimFloat.sqrt a).
Proof.
  unfold Nonneg. rewrite FloatAxioms.sqrt_spec. unfold SF64sqrt.
  destruct (Prim2SF a) as [sa|sa| |sa ma ea]; simpl; intros Ha; subst;
    try exact I; try reflexivity.
  destruct (SFsqrt_core_binary prec emax (Z.pos ma) ea) as [[mz ez] lz].
  apply binary_round_aux_nonneg.
Qed.

Lemma div_Nonneg (a b : float) : Nonneg a -> Nonneg b -> Nonneg (a / b)%float.
Proof.
  unfold Nonneg. rewrite FloatAxioms.div_spec. unfold SF64div.
  destruct (Prim2SF a) as [sa|sa| |sa ma ea], (Prim2SF b) as [sb|sb| |sb mb eb];
    simpl; intros Ha Hb; subst; try exact I; try reflexivity.
  destruct (SFdiv_core_binary prec emax (Z.pos ma) ea (Z.pos mb) eb) as [[mz ez] lz].
  apply binary_round_aux_nonneg.
Qed.

Lemma of_nat_Nonneg (n : nat) : Nonneg (JS.of_nat n).
Proof.
  unfold Nonneg, JS.of_nat. rewrite FloatAxioms.of_uint63_spec.
  apply binary_normalize_nonneg.
  apply Uint63.to_Z_bounded.
Qed.

Lemma zero_Nonneg : Nonneg 0%float.
Proof. reflexivity. Qed.

Lemma distance_Nonneg (a b : Point) : Nonneg (Geometry.distance a b).
Proof.
  unfold Geometry.distance, JS.Math_sqrt, JS.Math_pow_2.
  apply sqrt_Nonneg, add_Nonneg; apply mul_self_Nonneg.
Qed.

Lemma sum_Nonneg (values : list float) :
  Forall Nonneg values -> Nonneg (Geometry.sum values).
Proof.
  unfold Geometry.sum.
  assert (G : forall acc, Nonneg acc -> Forall Nonneg values ->
                          Nonneg (fold_left (fun acc val => (acc + val)%float) values acc)).
  { induction values as [|v values IH]; intros acc Hacc Hall; [exact Hacc|].
    inversion Hall; subst. simpl. apply IH; [now apply add_Nonneg | assumption]. }
  apply G, zero_Nonneg.
Qed.

Lemma average_Nonneg (values : list float) :
  Forall Nonneg values -> Nonneg (value (Statistics.average values)).
Proof.
  intros H. unfold Statistics.average, divideByLength, value. cbn [fst].
  apply div_Nonneg; [now apply sum_Nonneg | apply of_nat_Nonneg].
Qed.

Lemma calculateVariance_Nonneg (values : list float) :
  Nonneg (value (Statistics.calculateVariance values)).
Proof.
  unfold Statistics.calculateVariance, divideByLength, bind, value. cbn [fst].
  apply div_Nonneg; [|apply of_nat_Nonneg].
  apply sum_Nonneg, Forall_forall. intros v Hin.
  apply in_map_iff in Hin. destruct Hin as (w & <- & _).
  apply mul_self_Nonneg.
Qed.

Lemma radii_Nonneg (stroke : Stroke) : Forall Nonneg (Spec.radii stroke).
Proof.
  unfold Spec.radii. apply Forall_forall. intros v Hin.
  apply in_map_iff in Hin. destruct Hin as (p & <- & _).
  apply distance_Nonneg.
Qed.

(** A quotient of such numbers by a zero is NaN or plus infinity: it is
    below nothing. *)
Lemma quotient_by_zero_not_below (v a bound : float) :
  Nonneg v -> Nonneg a -> JS.strict_eq a 0 = true ->
  (v / a <? bound)%float = false.
Proof.
  unfold Nonneg. intros Hv Ha Hz.
  destruct (FloatFacts.strict_eq_zero a Hz) as [s Hs].
  rewrite Hs in Ha. cbn in Ha. subst s.
  rewrite FloatAxioms.ltb_spec, FloatAxioms.div_spec, Hs.
  destruct (Prim2SF v) as [sv|sv| |sv mv ev]; cbn in Hv; subst; cbn;
    try reflexivity;
    destruct (Prim2SF bound) as [sb|sb| |sb mb eb]; try reflexivity;
    destruct sb; reflexivity.
Qed.

(** With a zero mean radius the circularity is below no bound: the guard
    on the mean radius rejects nothing the circularity test would pass. *)
Lemma zero_radius_not_circular (stroke : Stroke) :
  JS.strict_eq (Spec.meanRadius stroke) 0 = true ->
  (Spec.radialCircularity stroke <? 0.5)%float = false.
Proof.
  intros Hz. unfold Spec.radialCircularity.
  apply quotient_by_zero_not_below.
  - apply calculateVariance_Nonneg.
  - apply average_Nonneg, radii_Nonneg.
  - exact Hz.
Qed.

(** C7, as the code has it.  The circle predicate of GridCanvas.js holds
    exactly when the stroke has at least 6 points, is closed (first and
    last point less than 10 apart), has a circularity (population variance
    of the point-to-centroid distances over their mean) strictly below 0.5
    and a bounding-box aspect ratio strictly between 0.5 and 2.0.  The
    guard on a zero mean radius adds nothing to these. *)
Theorem isCircle_iff_gated (stroke : Stroke) :
  value (Heuristic.isCircle stroke) = true <->
  6 <= length stroke
  /\ Spec.closed stroke = true
  /\ (Spec.radialCircularity stroke <? 0.5)%float = true
  /\ (0.5 <? Spec.aspectRatio stroke)%float = true
  /\ (Spec.aspectRatio stroke <? 2.0)%float = true.
Proof.
  rewrite isCircle_iff_guards. split.
  - tauto.
  - intros (Hlen & Hcl & Hcirc & Hlo & Hhi). repeat split; try assumption.
    destruct (JS.strict_eq (Spec.meanRadius stroke) 0) eqn:Hz; [|reflexivity].
    rewrite (zero_radius_not_circular stroke Hz) in Hcirc. discriminate.
Qed.

(** C7, as stated, fails: closure, circularity and aspect ratio all hold of
    [diamond5], and the predicate answers false. *)
Lemma isCircle_iff_fails_on_diamond5 :
  ~ (forall stroke : Stroke,
       value (Heuristic.isCircle stroke) = true <->
       Spec.closed stroke = true
       /\ (Spec.radialCircularity stroke <? 0.5)%float = true
       /\ (0.5 <? Spec.aspectRatio stroke)%float = true
       /\ (Spec.aspectRatio stroke <? 2.0)%float = true).
Proof.
  intros H. specialize (H diamond5). destruct H as [_ H].
  assert (E : value (Heuristic.isCircle diamond5) = false) by reflexivity.
  rewrite E in H. discriminate H.
  repeat split; vm_compute; reflexivity.
Qed.

Lemma minimum_size_gates_witness :
  (value (Heuristic.isCircle corner3) = false
   /\ value (WebCanvas.isCircle corner3) = false)
  /\ (value (Heuristic.isRectangle flat_atan2 corner3) = false
      /\ value (WebCanvas.isRectangle corner3) = false).
Proof.
  destruct (minimum_size_gates flat_atan2 corner3) as [H6 H4].
  split; [apply H6 | apply H4]; simpl; lia.
Defined.

(** ** Degenerate geometry *)

Section Degenerate.
Import JS Geometry Statistics.
Local Open Scope float_scope.
Variable atan2 : float -> float -> float.

Lemma isLine_zero_path (stroke : Stroke) :
  strict_eq (Spec.pathLength stroke) 0 = true ->
  value (Heuristic.isLine stroke) = false.
Proof.
  unfold Heuristic.isLine, Spec.pathLength. intros Hz.
  destruct (Nat.ltb (length stroke) 2); [reflexivity|].
  destruct (first stroke), (last stroke); try reflexivity.
  now rewrite Hz.
Qed.

Lemma isLine_divisions (stroke : Stroke) :
  Spec.noDivisionByZero (divisions (Heuristic.isLine stroke)) = true.
Proof.
  unfold Heuristic.isLine.
  destruct (Nat.ltb (length stroke) 2); [reflexivity|].
  destruct (first stroke), (last stroke); try reflexivity.
  destruct (strict_eq (calculateTotalDistance stroke) 0) eqn:Hz; [reflexivity|].
  cbn -[calculateTotalDistance strict_eq]. now rewrite Hz.
Qed.

(** With a bounding box of no width or no height the aspect ratio lies in
    no interval with a positive lower bound. *)
Lemma flat_box_aspect (stroke : Stroke) (lo hi : float) :
  strict_eq (width (getBoundingBox stroke)) 0 = true
  \/ strict_eq (height (getBoundingBox stroke)) 0 = true ->
  (0 <? lo) = true ->
  (lo <? Spec.aspectRatio stroke) && (Spec.aspectRatio stroke <? hi) = false.
Proof.
  unfold Spec.aspectRatio. intros [Hw|Hh] Hlo.
  - now rewrite (FloatFacts.zero_quotient_not_above _ _ _ Hw Hlo).
  - now apply FloatFacts.quotient_by_zero_in_no_interval.
Qed.

Lemma isRectangle_flat_box (stroke : Stroke) :
  strict_eq (width (getBoundingBox stroke)) 0 = true
  \/ strict_eq (height (getBoundingBox stroke)) 0 = true ->
  value (Heuristic.isRectangle atan2 stroke) = false.
Proof.
  intros Hflat.
  destruct (value (Heuristic.isRectangle atan2 stroke)) eqn:E; [|reflexivity].
  apply isRectangle_accepts in E.
  destruct E as (_ & Hlo & Hhi).
  pose proof (flat_box_aspect stroke 0.2 5.0 Hflat eq_refl) as F.
  rewrite Hlo, Hhi in F. discriminate.
Qed.

Lemma isCircle_flat_box (stroke : Stroke) :
  strict_eq (width (getBoundingBox stroke)) 0 = true
  \/ strict_eq (height (getBoundingBox stroke)) 0 = true ->
  value (Heuristic.isCircle stroke) = false.
Proof.
  intros Hflat.
  destruct (value (Heuristic.isCircle stroke)) eqn:E; [|reflexivity].
  apply isCircle_accepts in E.
  destruct E as (_ & Hlo & Hhi).
  pose proof (flat_box_aspect stroke 0.5 2.0 Hflat eq_refl) as F.
  rewrite Hlo, Hhi in F. discriminate.
Qed.

Lemma isCircle_zero_radius (stroke : Stroke) :
  strict_eq (Spec.meanRadius stroke) 0 = true ->
  value (Heuristic.isCircle stroke) = false.
Proof.
  intros Hz.
  destruct (value (Heuristic.isCircle stroke)) eqn:E; [|reflexivity].
  apply isCircle_accepts in E.
  destruct E as (Hnz & _). congruence.
Qed.

Lemma isRectangle_guarded_divisions (stroke : Stroke) :
  Spec.noGuardedDivisionByZero (divisions (Heuristic.isRectangle atan2 stroke)) = true.
Proof.
  unfold Heuristic.isRectangle.
  destruct (Nat.ltb (length stroke) 4); [reflexivity|].
  destruct (first stroke), (last stroke); try reflexivity.
  destruct (negb _); reflexivity.
Qed.

Lemma isCircle_guarded_divisions (stroke : Stroke) :
  Spec.noGuardedDivisionByZero (divisions (Heuristic.isCircle stroke)) = true.
Proof.
  unfold Heuristic.isCircle.
  destruct (Nat.ltb_spec (length stroke) 6) as [Hlt|Hge]; [reflexivity|].
  destruct (first stroke), (last stroke); try reflexivity.
  destruct (negb _); [reflexivity|].
  assert (Hn : Nat.eqb (length stroke) 0 = false) by (apply Nat.eqb_neq; lia).
  rewrite divisions_bind; cbv beta.
  rewrite divisions_bind; cbv beta.
  unfold Spec.noGuardedDivisionByZero. rewrite !forallb_app.
  set (distances := map _ stroke).
  assert (Hd : length distances = length stroke) by apply length_map.
  assert (Hc : forallb (fun d => match d with
                                 | DivByBoxHeight _ => true
                                 | _ => negb (byZero d)
                                 end) (divisions (calculateCenter stroke)) = true).
  { cbn. now rewrite Hn. }
  assert (Ha : forallb (fun d => match d with
                                 | DivByBoxHeight _ => true
                                 | _ => negb (byZero d)
                                 end) (divisions (average distances)) = true).
  { cbn. now rewrite Hd, Hn. }
  rewrite Hc, Ha.
  destruct (strict_eq (value (average distances)) 0) eqn:Hz; [reflexivity|].
  rewrite !divisions_bind; cbv beta. rewrite !forallb_app.
  assert (Hv : forallb (fun d => match d with
                                 | DivByBoxHeight _ => true
                                 | _ => negb (byZero d)
                                 end) (divisions (calculateVariance distances)) = true).
  { cbn. now rewrite ?length_map, Hd, Hn. }
  rewrite Hv.
  unfold divide, divisions, ret, byZero; cbn [snd forallb andb].
  now rewrite Hz.
Qed.

(** Each predicate answers "not matched" on the degenerate quantity it
    reads: [isLine] on a zero path length, [isRectangle] and [isCircle] on
    a bounding box of zero width or height, [isCircle] on a zero mean
    radius.  The divisions by the path length, by the mean radius and by
    the number of points are never by zero. *)
Lemma degenerate_geometry_not_matched (stroke : Stroke) :
  (strict_eq (Spec.pathLength stroke) 0 = true ->
     value (Heuristic.isLine stroke) = false)
  /\ (strict_eq (width (getBoundingBox stroke)) 0 = true
      \/ strict_eq (height (getBoundingBox stroke)) 0 = true ->
     value (Heuristic.isRectangle atan2 stroke) = false
     /\ value (Heuristic.isCircle stroke) = false)
  /\ (strict_eq (Spec.meanRadius stroke) 0 = true ->
     value (Heuristic.isCircle stroke) = false)
  /\ Spec.noDivisionByZero (divisions (Heuristic.isLine stroke)) = true
  /\ Spec.noGuardedDivisionByZero (divisions (Heuristic.isRectangle atan2 stroke)) = true
  /\ Spec.noGuardedDivisionByZero (divisions (Heuristic.isCircle stroke)) = true.
Proof.
  repeat split.
  - apply isLine_zero_path.
  - now apply isRectangle_flat_box.
  - now apply isCircle_flat_box.
  - apply isCircle_zero_radius.
  - apply isLine_divisions.
  - apply isRectangle_guarded_divisions.
  - apply isCircle_guarded_divisions.
Qed.

End Degenerate.

(** C5.  The division [bounds.width / bounds.height] of [isRectangle] and
    of [isCircle] has no guard.  [flat6] is closed, is no line and has a
    bounding box of zero height: [detectShape] passes it to both
    predicates, both answer "not matched", as the claim has it, and both
    divide the width by that zero on the way, [isCircle] right after its
    guarded division by the mean radius.  So does [isRectangle] on
    [horizontal4].  The division of [isLine] by the path length is never
    by zero, on any stroke. *)
Theorem box_height_division_unguarded (atan2 : float -> float -> float) :
  (JS.strict_eq (Geometry.height (Geometry.getBoundingBox flat6)) 0 = true
   /\ JS.strict_eq (Spec.meanRadius flat6) 0 = false
   /\ snd (Heuristic.detectShape atan2 flat6)
      = [LineHeuristic; CircleHeuristic; RectangleHeuristic; ArrowHeuristic]
   /\ value (Heuristic.isCircle flat6) = false
   /\ divisions (Heuristic.isCircle flat6)
      = [DivByLength 6; DivByLength 6; DivByLength 6; DivByLength 6; DivByLength 6;
         DivByAverageRadius (Spec.meanRadius flat6); DivByBoxHeight 0%float]
   /\ Spec.noDivisionByZero (divisions (Heuristic.isCircle flat6)) = false
   /\ value (Heuristic.isRectangle atan2 flat6) = false
   /\ divisions (Heuristic.isRectangle atan2 flat6) = [DivByBoxHeight 0%float]
   /\ Spec.noDivisionByZero (divisions (Heuristic.isRectangle atan2 flat6)) = false)
  /\ (JS.strict_eq (Geometry.height (Geometry.getBoundingBox horizontal4)) 0 = true
      /\ value (Heuristic.isRectangle atan2 horizontal4) = false
      /\ divisions (Heuristic.isRectangle atan2 horizontal4) = [DivByBoxHeight 0%float]
      /\ Spec.noDivisionByZero (divisions (Heuristic.isRectangle atan2 horizontal4))
         = false)
  /\ (forall stroke : Stroke,
        Spec.noDivisionByZero (divisions (Heuristic.isLine stroke)) = true).
Proof.
  assert (Hc : value (Heuristic.isCircle flat6) = false).
  { apply isCircle_flat_box. right. reflexivity. }
  assert (Hr : value (Heuristic.isRectangle atan2 flat6) = false).
  { apply isRectangle_flat_box. right. reflexivity. }
  split; [|split].
  - split; [reflexivity|]. split; [vm_compute; reflexivity|].
    split.
    { unfold Heuristic.detectShape. rewrite Hc, Hr.
      change (value (Heuristic.isLine flat6)) with false.
      now destruct (Heuristic.isArrow atan2 flat6). }
    split; [exact Hc|].
    split; [vm_compute; reflexivity|].
    split; [vm_compute; reflexivity|].
    split; [exact Hr|].
    split; reflexivity.
  - split; [reflexivity|]. split; [|split; reflexivity].
    apply isRectangle_flat_box. right. reflexivity.
  - apply isLine_divisions.
Qed.

(** ** The orchestrator: lines first *)

Section LineFirst.
Import JS Geometry.
Local Open Scope float_scope.
Context {cv : OpenCV}.
Variable atan2 : float -> float -> float.

Lemma straight_stroke_isLine (stroke : Stroke) :
  2 <= length stroke ->
  (0 <? Spec.pathLength stroke) = true ->
  (0.9 <? Spec.straightness stroke) = true ->
  value (Heuristic.isLine stroke) = true.
Proof.
  unfold Heuristic.isLine, Spec.straightness, Spec.pathLength.
  intros Hlen Hpos Hstraight.
  destruct (Nat.ltb_spec (length stroke) 2) as [Hlt|_]; [lia|].
  destruct (first stroke), (last stroke); try (vm_compute in Hstraight; discriminate).
  rewrite (FloatFacts.positive_not_zero _ Hpos).
  exact Hstraight.
Qed.

(** C1.  A stroke of at least two points, of positive path length and of
    straightness above 0.9 is classified as the [Line] carrying that very
    stroke, whose endpoints are its first and last points; the line
    heuristic is the only classifier consulted, and the answer depends
    neither on the library nor on whether it has loaded.  The first
    revision (GridCanvas.js) answers 'line' on the same terms. *)
Theorem straight_stroke_classified_line (opencvLoaded : bool) (stroke : Stroke) :
  2 <= length stroke ->
  (0 <? Spec.pathLength stroke) = true ->
  (0.9 <? Spec.straightness stroke) = true ->
  WebCanvas.detectShape opencvLoaded stroke = (Line stroke, [LineHeuristic])
  /\ (exists a b, first stroke = Some a /\ last stroke = Some b
                  /\ Spec.endpoints (Line stroke) = Some (a, b))
  /\ Heuristic.detectShape atan2 stroke = (line, [LineHeuristic]).
Proof.
  intros Hlen Hpos Hstraight.
  pose proof (straight_stroke_isLine stroke Hlen Hpos Hstraight) as Hline.
  unfold WebCanvas.detectShape, WebCanvas.isLine, Fallback.isLine, Heuristic.detectShape.
  rewrite Hline. split; [reflexivity|]. split; [|reflexivity].
  destruct (first_some stroke) as [a Ha]; [lia|].
  destruct (last_some stroke) as [b Hb]; [lia|].
  exists a, b. unfold Spec.endpoints. now rewrite Ha, Hb.
Qed.

End LineFirst.

Lemma straight_stroke_classified_line_witness :
  WebCanvas.detectShape (cv := absentCV) false diagonal2 = (Line diagonal2, [LineHeuristic])
  /\ (exists a b, first diagonal2 = Some a /\ last diagonal2 = Some b
                  /\ Spec.endpoints (Line diagonal2) = Some (a, b))
  /\ Heuristic.detectShape flat_atan2 diagonal2 = (line, [LineHeuristic]).
Proof.
  apply (straight_stroke_classified_line (cv := absentCV) flat_atan2 false diagonal2).
  - simpl. lia.
  - vm_compute. reflexivity.
  - vm_compute. reflexivity.
Defined.

(** ** The contour classifier *)

Section ContourClassifier.
Import JS ContourClassification.
Local Open Scope float_scope.
Context {cv : OpenCV}.

(** C8.  With [approx] the polygon approximation at 2% of the perimeter:
    three vertices give a Triangle on them, four a Rectangle on them; any
    other count gives the Circle of the minimum enclosing circle exactly
    when [4 * pi * area / perimeter^2] exceeds 0.85, and is unknown
    otherwise; the unknown contours are discarded by [detectShapes]. *)
Theorem classifyShape_by_vertices_and_circularity (contour : Contour) :
  let approx := approxPolyDP contour (0.02 * arcLength contour) in
  (length approx = 3%nat -> classifyShape contour = Triangle (getVertices approx))
  /\ (length approx = 4%nat ->
      classifyShape contour = Rectangle (getVertices approx) (boundingRect contour))
  /\ (length approx <> 3%nat -> length approx <> 4%nat ->
      (type (classifyShape contour) = circle <-> (0.85 <? circularity contour) = true)
      /\ ((0.85 <? circularity contour) = true ->
          classifyShape contour
          = Circle (fst (minEnclosingCircle contour)) (snd (minEnclosingCircle contour)))
      /\ ((0.85 <? circularity contour) = false -> classifyShape contour = Unknown))
  /\ (forall opencvLoaded stroke,
        Forall (fun shape => type shape <> unknown) (detectShapes opencvLoaded stroke)).
Proof.
  cbv zeta. unfold classifyShape, circularity.
  repeat split.
  - intros ->. reflexivity.
  - intros ->. reflexivity.
  - destruct (Nat.eqb_spec (length (approxPolyDP contour (0.02 * arcLength contour))) 3%nat);
      [contradiction|].
    destruct (Nat.eqb_spec (length (approxPolyDP contour (0.02 * arcLength contour))) 4%nat);
      [contradiction|].
    destruct (0.85 <? _); [reflexivity | discriminate].
  - destruct (Nat.eqb_spec (length (approxPolyDP contour (0.02 * arcLength contour))) 3%nat);
      [contradiction|].
    destruct (Nat.eqb_spec (length (approxPolyDP contour (0.02 * arcLength contour))) 4%nat);
      [contradiction|].
    intros ->. reflexivity.
  - intros E.
    destruct (Nat.eqb_spec (length (approxPolyDP contour (0.02 * arcLength contour))) 3%nat);
      [contradiction|].
    destruct (Nat.eqb_spec (length (approxPolyDP contour (0.02 * arcLength contour))) 4%nat);
      [contradiction|].
    now rewrite E.
  - intros E.
    destruct (Nat.eqb_spec (length (approxPolyDP contour (0.02 * arcLength contour))) 3%nat);
      [contradiction|].
    destruct (Nat.eqb_spec (length (approxPolyDP contour (0.02 * arcLength contour))) 4%nat);
      [contradiction|].
    now rewrite E.
  - intros opencvLoaded stroke. unfold detectShapes.
    destruct (if opencvLoaded then findContours stroke else None) as [contours|];
      [|constructor].
    apply Forall_forall. intros shape Hin.
    apply filter_In in Hin. destruct Hin as [_ Hk].
    intros E. rewrite E in Hk. discriminate.
Qed.

(** What the contour classifier hands over can be drawn: a polygon has its
    three or four vertices. *)
Lemma classifyShape_vertices (contour : Contour) :
  match classifyShape contour with
  | Triangle vertices => length vertices = 3%nat
  | Rectangle vertices _ => length vertices = 4%nat
  | RectangleBox _ | Line _ | Freehand => False
  | Circle _ _ | Unknown => True
  end.
Proof.
  unfold classifyShape, getVertices.
  destruct (Nat.eqb_spec (length (approxPolyDP contour (0.02 * arcLength contour))) 3%nat) as [E|_].
  - now rewrite length_map.
  - destruct (Nat.eqb_spec (length (approxPolyDP contour (0.02 * arcLength contour))) 4%nat) as [E|_].
    + now rewrite length_map.
    + now destruct (0.85 <? _).
Qed.

End ContourClassifier.

Lemma classifyShape_by_vertices_and_circularity_witness :
  ContourClassification.classifyShape (cv := absentCV) triangleContour
  = Triangle (ContourClassification.getVertices (sample_polygon triangleContour))
  /\ ContourClassification.classifyShape (cv := absentCV) squareContour
     = Rectangle (ContourClassification.getVertices (sample_polygon squareContour))
                 (sample_rect squareContour)
  /\ ContourClassification.classifyShape (cv := absentCV) roundContour
     = Circle (fst (sample_circle roundContour)) (snd (sample_circle roundContour))
  /\ ContourClassification.classifyShape (cv := absentCV) raggedContour = Unknown.
Proof.
  split; [|split; [|split]].
  - apply (classifyShape_by_vertices_and_circularity (cv := absentCV) triangleContour).
    reflexivity.
  - apply (classifyShape_by_vertices_and_circularity (cv := absentCV) squareContour).
    reflexivity.
  - apply (classifyShape_by_vertices_and_circularity (cv := absentCV) roundContour).
    + simpl. lia.
    + simpl. lia.
    + vm_compute. reflexivity.
  - apply (classifyShape_by_vertices_and_circularity (cv := absentCV) raggedContour).
    + simpl. lia.
    + simpl. lia.
    + vm_compute. reflexivity.
Defined.

(** The superseded classifier of the first OpenCV revision is stricter on
    the vertex count and laxer on the circularity: it turns down the
    six-vertex [roundContour] that the final classifier takes for a
    circle. *)
Lemma classifyShape_legacy_differs :
  ContourClassification.classifyShape_legacy (cv := absentCV) roundContour = unknown
  /\ type (ContourClassification.classifyShape (cv := absentCV) roundContour) = circle.
Proof. split; reflexivity. Qed.

(** ** Without the contour collaborator *)

Lemma SFltb_trans (a b c : spec_float) :
  SFltb a b = true -> SFltb b c = true -> SFltb a c = true.
Proof.
  unfold SFltb, SFcompare.
  destruct a as [sa|sa| |sa ma ea], b as [sb|sb| |sb mb eb], c as [sc|sc| |sc mc ec];
    try discriminate;
    repeat match goal with s : bool |- _ => destruct s end;
    try discriminate; try reflexivity;
    rewrite ?Pos.compare_cont_spec; cbn [Pos.switch_Eq];
    destruct (Z.compare_spec ea eb), (Z.compare_spec eb ec), (Z.compare_spec ea ec);
    subst; try lia; try discriminate; try reflexivity;
    destruct (Pos.compare_spec ma mb), (Pos.compare_spec mb mc), (Pos.compare_spec ma mc);
    subst; cbn; try discriminate; try reflexivity; lia.
Qed.

Lemma ltb_trans (a b c : float) :
  (a <? b)%float = true -> (b <? c)%float = true -> (a <? c)%float = true.
Proof. rewrite !FloatAxioms.ltb_spec. apply SFltb_trans. Qed.

Section Unavailable.
Import JS Geometry Statistics.
Local Open Scope float_scope.
Context {cv : OpenCV}.

(** In the OpenCV revisions every stroke the circle fallback accepts is
    accepted by the rectangle fallback as well. *)
Lemma fallback_circle_is_rectangle (stroke : Stroke) :
  value (Fallback.isCircle stroke) = true ->
  value (Fallback.isRectangle stroke) = true.
Proof.
  unfold Fallback.isCircle, Fallback.isRectangle.
  destruct (Nat.ltb_spec (length stroke) 6) as [Hlt|Hge]; [discriminate|].
  destruct (Nat.ltb_spec (length stroke) 4) as [Hlt'|_]; [lia|].
  destruct (first stroke), (last stroke); try discriminate.
  destruct (negb _) eqn:Hcl; [discriminate|].
  apply negb_false_iff in Hcl.
  unfold value.
  cbn -[getBoundingBox calculateCenter average distance strict_eq THRESHOLD].
  destruct (strict_eq _ 0); [discriminate|].
  cbn -[getBoundingBox calculateCenter average distance strict_eq THRESHOLD].
  rewrite Hcl. cbn [andb].
  intros H. apply andb_true_iff in H. destruct H as [Hlo Hhi].
  rewrite (ltb_trans 0.2 0.5 _ eq_refl Hlo), (ltb_trans _ 2.0 5.0 Hhi eq_refl).
  reflexivity.
Qed.

(** So the fallback of part_002, testing the rectangle first, never
    answers circle. *)
Lemma fallback_never_circle (stroke : Stroke) :
  type (fst (Fallback.detectShapeFallback stroke)) <> circle.
Proof.
  unfold Fallback.detectShapeFallback.
  destruct (value (Fallback.isRectangle stroke)) eqn:Hr; [discriminate|].
  destruct (value (Fallback.isCircle stroke)) eqn:Hc; [|discriminate].
  apply fallback_circle_is_rectangle in Hc. congruence.
Qed.

(** In the final revision an unloaded library leaves line and freehand as
    the only answers. *)
Lemma unloaded_line_or_freehand (stroke : Stroke) :
  fst (WebCanvas.detectShape false stroke) = Line stroke
  \/ fst (WebCanvas.detectShape false stroke) = Freehand.
Proof.
  unfold WebCanvas.detectShape.
  destruct (value (WebCanvas.isLine stroke)); [now left|].
  right. now destruct (first stroke).
Qed.

(** C3 at [ring9].  The stroke is closed, has nine points, the circularity
    and the aspect ratio of a circle, and is no line: the heuristic circle
    predicate of GridCanvas.js accepts it.  With the library not loaded the
    final orchestrator tries the contour pipeline all the same and answers
    freehand; the orchestrator of part_002 does fall back, and answers
    rectangle. *)
Theorem ring9_without_contours :
  (Spec.closed ring9 = true
   /\ (Spec.radialCircularity ring9 <? 0.5) = true
   /\ (0.5 <? Spec.aspectRatio ring9) = true
   /\ (Spec.aspectRatio ring9 <? 2.0) = true
   /\ 6 <= length ring9
   /\ value (Heuristic.isLine ring9) = false
   /\ value (Heuristic.isCircle ring9) = true)
  /\ WebCanvas.detectShape false ring9 = (Freehand, [LineHeuristic; ContourClassifier])
  /\ Fallback.detectShape false ring9
     = (RectangleBox (getBoundingBox ring9), [LineHeuristic; RectangleHeuristic]).
Proof.
  split; [|split].
  - repeat split; try (vm_compute; reflexivity). simpl. lia.
  - reflexivity.
  - reflexivity.
Qed.

End Unavailable.

(** ** Sequencing of draw calls *)

Lemma andThen_completed (d1 d2 : Draw) :
  completed d1 = true -> completed d2 = true ->
  completed (d1 +> d2) = true /\ calls (d1 +> d2) = calls d1 ++ calls d2.
Proof. unfold andThen. intros -> ->. now split. Qed.

Lemma forEach_completed {A} (draw : A -> Draw) (l : list A) :
  Forall (fun a => completed (draw a) = true) l ->
  completed (forEach draw l) = true
  /\ calls (forEach draw l) = flat_map (fun a => calls (draw a)) l.
Proof.
  unfold forEach.
  assert (G : forall (acc : Draw),
             completed acc = true ->
             Forall (fun a => completed (draw a) = true) l ->
             completed (fold_left (fun acc a => acc +> draw a) l acc) = true
             /\ calls (fold_left (fun acc a => acc +> draw a) l acc)
                = calls acc ++ flat_map (fun a => calls (draw a)) l).
  { induction l as [|a l IH]; intros acc Hacc Hall; simpl.
    - split; [assumption | now rewrite app_nil_r].
    - inversion Hall as [|? ? Ha Hl]; subst.
      destruct (andThen_completed acc (draw a) Hacc Ha) as [Hc Hk].
      destruct (IH (acc +> draw a) Hc Hl) as [Hc' Hk'].
      split; [assumption|]. now rewrite Hk', Hk, app_assoc. }
  intros Hall. apply (G (emit []) eq_refl Hall).
Qed.

(** ** The reconciler of the final revision *)

Section Reconciler.
Import JS Geometry ContourClassification.
Local Open Scope float_scope.
Context {cv : OpenCV}.
Variables width height : Z.

Let State := WebCanvas.State.
Let handleMouseUp := WebCanvas.handleMouseUp (cv := cv) width height.
Let run := WebCanvas.run (cv := cv) width height.
Let mounted := WebCanvas.mounted width height.

Lemma isLine_two_points (stroke : Stroke) :
  value (Heuristic.isLine stroke) = true -> 2 <= length stroke.
Proof.
  unfold Heuristic.isLine.
  destruct (Nat.ltb_spec (length stroke) 2); [discriminate | intros _; assumption].
Qed.

Lemma drawCleanShape_completed (shape : Shape) :
  Spec.drawable shape = true -> completed (WebCanvas.drawCleanShape shape) = true.
Proof.
  destruct shape as [stroke|vertices|vertices r|b|c r| |]; intros Hd;
    try reflexivity; try discriminate.
  - destruct stroke as [|a rest]; [discriminate|].
    destruct (last_some (a :: rest)) as [b Hb]; [simpl; lia|].
    unfold WebCanvas.drawCleanShape.
    change (first (a :: rest)) with (Some a). rewrite Hb. reflexivity.
  - destruct vertices; [discriminate | reflexivity].
  - destruct vertices; [discriminate | reflexivity].
Qed.



Lemma detectShapes_drawable (opencvLoaded : bool) (stroke : Stroke) :
  Forall (fun shape => Spec.drawable shape = true)
         (detectShapes opencvLoaded stroke).
Proof.
  unfold detectShapes.
  destruct (if opencvLoaded then findContours stroke else None) as [contours|];
    [|constructor].
  apply Forall_forall. intros shape Hin.
  apply filter_In in Hin. destruct Hin as [Hin _].
  apply in_map_iff in Hin. destruct Hin as (contour & <- & _).
  pose proof (classifyShape_vertices contour) as Hv.
  destruct (classifyShape contour) as [?|vertices|vertices ?|?|? ?| |];
    simpl; try reflexivity; try contradiction;
    rewrite Hv; reflexivity.
Qed.

Lemma detectShape_drawable (opencvLoaded : bool) (stroke : Stroke) :
  Spec.drawable (fst (WebCanvas.detectShape opencvLoaded stroke)) = true.
Proof.
  unfold WebCanvas.detectShape, WebCanvas.isLine, Fallback.isLine.
  destruct (value (Heuristic.isLine stroke)) eqn:Hline.
  - apply isLine_two_points in Hline. simpl.
    destruct (Nat.eqb_spec (length stroke) 0); [lia | reflexivity].
  - destruct (first stroke); [|reflexivity].
    pose proof (detectShapes_drawable opencvLoaded stroke) as Hall.
    destruct (detectShapes opencvLoaded stroke) as [|shape rest]; [reflexivity|].
    now inversion Hall.
Qed.

Lemma drawRecognizedShape_calls (ledger : list Shape) (newShape : Shape) :
  Forall (fun shape => Spec.drawable shape = true) ledger ->
  Spec.drawable newShape = true ->
  completed (WebCanvas.drawRecognizedShape width height ledger newShape) = true
  /\ calls (WebCanvas.drawRecognizedShape width height ledger newShape)
     = [ClearRect 0 0 (of_Z width) (of_Z height)]
       ++ Canvas.drawGrid width height
       ++ flat_map (fun shape => calls (WebCanvas.drawCleanShape shape)) ledger
       ++ calls (WebCanvas.drawCleanShape newShape).
Proof.
  intros Hledger Hnew. unfold WebCanvas.drawRecognizedShape.
  destruct (forEach_completed WebCanvas.drawCleanShape ledger) as [Hc Hk].
  { eapply Forall_impl; [|exact Hledger].
    intros shape. apply drawCleanShape_completed. }
  pose proof (drawCleanShape_completed newShape Hnew) as Hn.
  destruct (andThen_completed (emit [ClearRect 0 0 (of_Z width) (of_Z height)])
              (emit (Canvas.drawGrid width height)) eq_refl eq_refl) as [H1 K1].
  destruct (andThen_completed _ _ H1 Hc) as [H2 K2].
  destruct (andThen_completed _ _ H2 Hn) as [H3 K3].
  split; [exact H3|].
  rewrite K3, K2, K1, Hk. simpl calls. now rewrite <- !app_assoc.
Qed.

(** What a release does to a sound state: the one equation behind the
    ledger and the redraw properties. *)
Lemma handleMouseUp_sound (st : WebCanvas.State) :
  Spec.ledgerSound st ->
  let stroke := WebCanvas.currentStroke st in
  let verdict := WebCanvas.detectShape (WebCanvas.opencvLoaded st) stroke in
  handleMouseUp st =
  if WebCanvas.isDrawing st && Nat.ltb 1 (length stroke) then
    if negb (ShapeKind_eqb (type (fst verdict)) freehand) then
      {| WebCanvas.isDrawing := false;
         WebCanvas.currentStroke := [];
         WebCanvas.recognizedShapes := WebCanvas.recognizedShapes st ++ [fst verdict];
         WebCanvas.opencvLoaded := WebCanvas.opencvLoaded st;
         WebCanvas.canvas :=
           WebCanvas.canvas st
           ++ [ClearRect 0 0 (of_Z width) (of_Z height)]
           ++ Canvas.drawGrid width height
           ++ flat_map (fun shape => calls (WebCanvas.drawCleanShape shape))
                       (WebCanvas.recognizedShapes st)
           ++ calls (WebCanvas.drawCleanShape (fst verdict));
         WebCanvas.consulted := WebCanvas.consulted st ++ snd verdict |}
    else
      {| WebCanvas.isDrawing := false;
         WebCanvas.currentStroke := [];
         WebCanvas.recognizedShapes := WebCanvas.recognizedShapes st;
         WebCanvas.opencvLoaded := WebCanvas.opencvLoaded st;
         WebCanvas.canvas := WebCanvas.canvas st;
         WebCanvas.consulted := WebCanvas.consulted st ++ snd verdict |}
  else
    {| WebCanvas.isDrawing := false;
       WebCanvas.currentStroke := [];
       WebCanvas.recognizedShapes := WebCanvas.recognizedShapes st;
       WebCanvas.opencvLoaded := WebCanvas.opencvLoaded st;
       WebCanvas.canvas := WebCanvas.canvas st;
       WebCanvas.consulted := WebCanvas.consulted st |}.
Proof.
  intros Hsound. cbv zeta.
  unfold handleMouseUp, WebCanvas.handleMouseUp.
  destruct (WebCanvas.isDrawing st && Nat.ltb 1 (length (WebCanvas.currentStroke st)));
    [|reflexivity].
  pose proof (detectShape_drawable (WebCanvas.opencvLoaded st) (WebCanvas.currentStroke st))
    as Hdraw.
  destruct (WebCanvas.detectShape (WebCanvas.opencvLoaded st) (WebCanvas.currentStroke st))
    as [shape used].
  simpl fst in *. simpl snd.
  destruct (negb (ShapeKind_eqb (type shape) freehand)); [|reflexivity].
  destruct (drawRecognizedShape_calls (WebCanvas.recognizedShapes st) shape) as [Hc Hk].
  { eapply Forall_impl; [|exact Hsound]. now intros s [H _]. }
  { exact Hdraw. }
  rewrite Hc, Hk. reflexivity.
Qed.

Lemma ShapeKind_eqb_eq (a b : ShapeKind) : ShapeKind_eqb a b = true <-> a = b.
Proof. destruct a, b; simpl; split; congruence. Qed.

Lemma handleMouseUp_ledgerSound (st : WebCanvas.State) :
  Spec.ledgerSound st -> Spec.ledgerSound (handleMouseUp st).
Proof.
  intros Hsound. rewrite (handleMouseUp_sound st Hsound). cbv zeta.
  destruct (WebCanvas.isDrawing st && _); [|exact Hsound].
  destruct (negb (ShapeKind_eqb _ freehand)) eqn:Hk; [|exact Hsound].
  unfold Spec.ledgerSound. simpl.
  apply Forall_app. split; [exact Hsound|].
  constructor; [|constructor]. split.
  - apply detectShape_drawable.
  - intros E. apply negb_true_iff in Hk.
    apply ShapeKind_eqb_eq in E. congruence.
Qed.

Lemma step_ledgerSound (st : WebCanvas.State) (e : Event) :
  Spec.ledgerSound st -> Spec.ledgerSound (WebCanvas.step width height st e).
Proof.
  intros Hsound. destruct e as [pos|pos| | |]; simpl.
  - exact Hsound.
  - unfold WebCanvas.handleMouseMove. now destruct (negb (WebCanvas.isDrawing st)).
  - now apply handleMouseUp_ledgerSound.
  - exact Hsound.
  - exact Hsound.
Qed.

Lemma run_ledgerSound (events : list Event) (st : WebCanvas.State) :
  Spec.ledgerSound st -> Spec.ledgerSound (run events st).
Proof.
  revert st. induction events as [|e events IH]; intros st Hsound; simpl.
  - exact Hsound.
  - apply IH. now apply step_ledgerSound.
Qed.

Lemma mounted_ledgerSound : Spec.ledgerSound mounted.
Proof. constructor. Qed.

End Reconciler.

(** ** Completed strokes, final revision *)

Section CompletedStrokes.
Import JS Geometry ContourClassification.
Local Open Scope float_scope.
Context {cv : OpenCV}.
Variables width height : Z.

Let handleMouseUp := WebCanvas.handleMouseUp (cv := cv) width height.
Let run := WebCanvas.run (cv := cv) width height.
Let mounted := WebCanvas.mounted width height.

Lemma run_app (events1 events2 : list Event) (st : WebCanvas.State) :
  run (events1 ++ events2) st = run events2 (run events1 st).
Proof. apply fold_left_app. Qed.

(** Dragging with the button down extends the stroke and its ink. *)
Lemma run_moves (rest : list Point) (st : WebCanvas.State) :
  WebCanvas.isDrawing st = true ->
  run (map MouseMove rest) st =
  {| WebCanvas.isDrawing := true;
     WebCanvas.currentStroke := WebCanvas.currentStroke st ++ rest;
     WebCanvas.recognizedShapes := WebCanvas.recognizedShapes st;
     WebCanvas.opencvLoaded := WebCanvas.opencvLoaded st;
     WebCanvas.canvas :=
       WebCanvas.canvas st
       ++ flat_map (fun q => [LineTo (x q) (y q); StrokePath]) rest;
     WebCanvas.consulted := WebCanvas.consulted st |}.
Proof.
  revert st. induction rest as [|q rest IH]; intros st Hd.
  - simpl. rewrite !app_nil_r. destruct st; simpl in *. now subst.
  - simpl. unfold run, WebCanvas.run in IH. rewrite IH.
    + unfold WebCanvas.handleMouseMove. rewrite Hd. simpl.
      now rewrite <- !app_assoc.
    + unfold WebCanvas.handleMouseMove. now rewrite Hd.
Qed.

(** A completed stroke reaches the release handler whole. *)
Lemma run_stroke (p : Point) (rest : list Point) (st : WebCanvas.State) :
  run (strokeEvents (p :: rest)) st =
  handleMouseUp
    {| WebCanvas.isDrawing := true;
       WebCanvas.currentStroke := p :: rest;
       WebCanvas.recognizedShapes := WebCanvas.recognizedShapes st;
       WebCanvas.opencvLoaded := WebCanvas.opencvLoaded st;
       WebCanvas.canvas := WebCanvas.canvas st ++ Spec.ink (p :: rest);
       WebCanvas.consulted := WebCanvas.consulted st |}.
Proof.
  unfold strokeEvents.
  change (MouseDown p :: map MouseMove rest ++ [MouseUp])
    with ([MouseDown p] ++ map MouseMove rest ++ [MouseUp]).
  rewrite !run_app. simpl (run [MouseDown p] st).
  rewrite run_moves by reflexivity.
  simpl. unfold handleMouseUp. now rewrite <- !app_assoc.
Qed.

Lemma not_malformed (stroke : Stroke) :
  Nat.ltb 1 (length stroke) = negb (Spec.malformed stroke).
Proof.
  unfold Spec.malformed.
  destruct (Nat.ltb_spec 1 (length stroke)), (Nat.ltb_spec (length stroke) 2);
    simpl; try reflexivity; lia.
Qed.

Lemma stroke_ledger (stroke : Stroke) (st : WebCanvas.State) :
  Spec.ledgerSound st ->
  let st' := run (strokeEvents stroke) st in
  WebCanvas.opencvLoaded st' = WebCanvas.opencvLoaded st
  /\ WebCanvas.recognizedShapes st'
     = WebCanvas.recognizedShapes st
       ++ (if Spec.recognised (Spec.verdictOf (WebCanvas.opencvLoaded st)) stroke
           then [fst (WebCanvas.detectShape (WebCanvas.opencvLoaded st) stroke)]
           else []).
Proof.
  intros Hsound. cbv zeta.
  destruct stroke as [|p rest].
  - simpl. now rewrite app_nil_r.
  - rewrite run_stroke. unfold handleMouseUp.
    rewrite handleMouseUp_sound by exact Hsound. cbv zeta.
    cbn [WebCanvas.isDrawing WebCanvas.currentStroke WebCanvas.opencvLoaded
         WebCanvas.recognizedShapes andb].
    unfold Spec.recognised, Spec.verdictOf. rewrite not_malformed.
    destruct (negb (Spec.malformed (p :: rest))); cbn [andb].
    + destruct (negb (ShapeKind_eqb _ freehand)); cbn; split; try reflexivity.
      now rewrite app_nil_r.
    + cbn. now rewrite app_nil_r.
Qed.

Lemma strokes_ledger (strokes : list Stroke) (st : WebCanvas.State) :
  Spec.ledgerSound st ->
  WebCanvas.recognizedShapes (run (Spec.strokesEvents strokes) st)
  = WebCanvas.recognizedShapes st
    ++ map (fun stroke => fst (WebCanvas.detectShape (WebCanvas.opencvLoaded st) stroke))
           (filter (Spec.recognised (Spec.verdictOf (WebCanvas.opencvLoaded st))) strokes).
Proof.
  revert st. induction strokes as [|stroke strokes IH]; intros st Hsound.
  - simpl. now rewrite app_nil_r.
  - unfold Spec.strokesEvents in *. simpl flat_map. rewrite run_app.
    destruct (stroke_ledger stroke st Hsound) as [Hl Hr].
    rewrite IH by (apply run_ledgerSound; exact Hsound).
    rewrite Hl, Hr. simpl filter.
    destruct (Spec.recognised _ stroke); simpl; now rewrite <- ?app_assoc, ?app_nil_r.
Qed.


End CompletedStrokes.

(** ** Completed strokes, first revision (GridCanvas.js) *)

Section HeuristicStrokes.
Import JS Geometry Statistics.
Local Open Scope float_scope.
Variable atan2 : float -> float -> float.
Variables width height : Z.

Let handleMouseUp := Heuristic.handleMouseUp atan2.
Let run := Heuristic.run atan2.
Let mounted := Heuristic.mounted width height.

(** A stroke taken for an arrow has its shaft end inside it: the head
    shows three corners, so it counts five points at least. *)
Lemma isArrow_shaftEnd (stroke : Stroke) :
  Heuristic.isArrow atan2 stroke = true ->
  Z.to_nat (Math_floor (of_nat (length stroke) * 0.7)) < length stroke.
Proof.
  unfold Heuristic.isArrow, Heuristic.isTriangle.
  destruct (Nat.ltb (length stroke) 6); [discriminate|].
  set (shaftEnd := Z.to_nat _).
  intros H. apply andb_true_iff in H. destruct H as [_ H].
  apply Nat.leb_le in H.
  pose proof (findCorners_length atan2 (skipn shaftEnd stroke)) as Hc.
  rewrite length_skipn in Hc. lia.
Qed.

Lemma heuristic_draw_completed (stroke : Stroke) :
  1 < length stroke ->
  completed (Heuristic.drawRecognizedShape
               (fst (Heuristic.detectShape atan2 stroke)) stroke) = true.
Proof.
  intros Hlen.
  destruct (first_some stroke) as [a Ha]; [lia|].
  destruct (last_some stroke) as [b Hb]; [lia|].
  unfold Heuristic.detectShape.
  destruct (value (Heuristic.isLine stroke)).
  { unfold Heuristic.drawRecognizedShape. simpl fst. cbv iota. rewrite Ha, Hb. reflexivity. }
  destruct (value (Heuristic.isCircle stroke)); [reflexivity|].
  destruct (value (Heuristic.isRectangle atan2 stroke)); [reflexivity|].
  destruct (Heuristic.isArrow atan2 stroke) eqn:Harrow; [|reflexivity].
  apply isArrow_shaftEnd in Harrow.
  unfold Heuristic.drawRecognizedShape. simpl fst. cbv iota.
  destruct (nth_error stroke _) as [s|] eqn:Hs.
  - rewrite Ha, Hb. reflexivity.
  - apply nth_error_None in Hs. lia.
Qed.

Lemma heuristic_handleMouseUp (st : Heuristic.State) :
  let stroke := Heuristic.currentStroke st in
  let verdict := Heuristic.detectShape atan2 stroke in
  handleMouseUp st =
  if Heuristic.isDrawing st && Nat.ltb 1 (length stroke) then
    if negb (ShapeKind_eqb (fst verdict) freehand) then
      {| Heuristic.isDrawing := false;
         Heuristic.currentStroke := [];
         Heuristic.recognizedShapes :=
           Heuristic.recognizedShapes st ++ [(fst verdict, stroke)];
         Heuristic.canvas :=
           Heuristic.canvas st
           ++ calls (Heuristic.drawRecognizedShape (fst verdict) stroke);
         Heuristic.consulted := Heuristic.consulted st ++ snd verdict |}
    else
      {| Heuristic.isDrawing := false;
         Heuristic.currentStroke := [];
         Heuristic.recognizedShapes := Heuristic.recognizedShapes st;
         Heuristic.canvas := Heuristic.canvas st;
         Heuristic.consulted := Heuristic.consulted st ++ snd verdict |}
  else
    {| Heuristic.isDrawing := false;
       Heuristic.currentStroke := [];
       Heuristic.recognizedShapes := Heuristic.recognizedShapes st;
       Heuristic.canvas := Heuristic.canvas st;
       Heuristic.consulted := Heuristic.consulted st |}.
Proof.
  cbv zeta. unfold handleMouseUp, Heuristic.handleMouseUp.
  destruct (Heuristic.isDrawing st); [|reflexivity].
  destruct (Nat.ltb_spec 1 (length (Heuristic.currentStroke st))) as [Hlen|_];
    [|reflexivity].
  cbn [andb].
  pose proof (heuristic_draw_completed (Heuristic.currentStroke st) Hlen) as Hc.
  destruct (Heuristic.detectShape atan2 (Heuristic.currentStroke st)) as [kind used].
  simpl fst in *. simpl snd.
  destruct (negb (ShapeKind_eqb kind freehand)); [|reflexivity].
  now rewrite Hc.
Qed.

Lemma heuristic_run_app (events1 events2 : list Event) (st : Heuristic.State) :
  run (events1 ++ events2) st = run events2 (run events1 st).
Proof. apply fold_left_app. Qed.

Lemma heuristic_run_moves (rest : list Point) (st : Heuristic.State) :
  Heuristic.isDrawing st = true ->
  run (map MouseMove rest) st =
  {| Heuristic.isDrawing := true;
     Heuristic.currentStroke := Heuristic.currentStroke st ++ rest;
     Heuristic.recognizedShapes := Heuristic.recognizedShapes st;
     Heuristic.canvas :=
       Heuristic.canvas st
       ++ flat_map (fun q => [LineTo (x q) (y q); StrokePath]) rest;
     Heuristic.consulted := Heuristic.consulted st |}.
Proof.
  revert st. induction rest as [|q rest IH]; intros st Hd.
  - simpl. rewrite !app_nil_r. destruct st; simpl in *. now subst.
  - simpl. unfold run, Heuristic.run in IH. rewrite IH.
    + unfold Heuristic.handleMouseMove. rewrite Hd. simpl.
      now rewrite <- !app_assoc.
    + unfold Heuristic.handleMouseMove. now rewrite Hd.
Qed.

Lemma heuristic_run_stroke (p : Point) (rest : list Point) (st : Heuristic.State) :
  run (strokeEvents (p :: rest)) st =
  handleMouseUp
    {| Heuristic.isDrawing := true;
       Heuristic.currentStroke := p :: rest;
       Heuristic.recognizedShapes := Heuristic.recognizedShapes st;
       Heuristic.canvas := Heuristic.canvas st ++ Spec.ink (p :: rest);
       Heuristic.consulted := Heuristic.consulted st |}.
Proof.
  unfold strokeEvents.
  change (MouseDown p :: map MouseMove rest ++ [MouseUp])
    with ([MouseDown p] ++ map MouseMove rest ++ [MouseUp]).
  rewrite !heuristic_run_app. simpl (run [MouseDown p] st).
  rewrite heuristic_run_moves by reflexivity.
  simpl. unfold handleMouseUp. now rewrite <- !app_assoc.
Qed.

Lemma heuristic_strokes_ledger (strokes : list Stroke) (st : Heuristic.State) :
  Heuristic.recognizedShapes (run (Spec.strokesEvents strokes) st)
  = Heuristic.recognizedShapes st
    ++ map (fun stroke => (fst (Heuristic.detectShape atan2 stroke), stroke))
           (filter (Spec.recognised (fun stroke => fst (Heuristic.detectShape atan2 stroke)))
                   strokes).
Proof.
  revert st. induction strokes as [|stroke strokes IH]; intros st.
  - simpl. now rewrite app_nil_r.
  - unfold Spec.strokesEvents in *. simpl flat_map. rewrite heuristic_run_app.
    rewrite IH. simpl filter.
    destruct stroke as [|p rest].
    + simpl. reflexivity.
    + rewrite heuristic_run_stroke. unfold handleMouseUp.
      rewrite heuristic_handleMouseUp. cbv zeta.
      cbn [Heuristic.isDrawing Heuristic.currentStroke andb].
      unfold Spec.recognised. rewrite not_malformed.
      destruct (negb (Spec.malformed (p :: rest))); cbn [andb].
      * destruct (negb (ShapeKind_eqb _ freehand)); cbn;
          now rewrite <- ?app_assoc.
      * reflexivity.
Qed.

End HeuristicStrokes.

(** ** The ledger *)

Lemma recognised_or_freehand (verdict : Stroke -> ShapeKind) (strokes : list Stroke) :
  length (filter (Spec.recognised verdict) strokes)
  + length (filter (Spec.leftFreehand verdict) strokes)
  = length (filter (fun stroke => negb (Spec.malformed stroke)) strokes).
Proof.
  induction strokes as [|stroke strokes IH]; [reflexivity|].
  simpl. unfold Spec.recognised, Spec.leftFreehand in *.
  destruct (negb (Spec.malformed stroke)), (ShapeKind_eqb (verdict stroke) freehand);
    simpl; lia.
Qed.

Section Ledger.
Context {cv : OpenCV}.
Variable atan2 : float -> float -> float.
Variables width height : Z.

Lemma heuristic_ledger_invariant (events : list Event) (st : Heuristic.State) :
  Forall (fun entry => fst entry <> freehand) (Heuristic.recognizedShapes st) ->
  Forall (fun entry => fst entry <> freehand)
         (Heuristic.recognizedShapes (Heuristic.run atan2 events st)).
Proof.
  revert st. induction events as [|e events IH]; intros st Hst; [exact Hst|].
  simpl. apply IH. destruct e as [pos|pos| | |]; simpl; try exact Hst.
  - unfold Heuristic.handleMouseMove. now destruct (negb (Heuristic.isDrawing st)).
  - rewrite heuristic_handleMouseUp. cbv zeta.
    destruct (Heuristic.isDrawing st && _); [|exact Hst].
    destruct (negb (ShapeKind_eqb _ freehand)) eqn:Hk; [|exact Hst].
    simpl. apply Forall_app. split; [exact Hst|].
    constructor; [|constructor]. simpl. intros E.
    apply negb_true_iff in Hk. apply ShapeKind_eqb_eq in E. congruence.
Qed.

(** C2.  Start from the mounted component, the library loaded or not, and
    let any sequence of completed strokes through.  With N the number of
    strokes classified as a shape and M the number classified freehand
    (together: the strokes of two points or more), the ledger has length N
    and holds no freehand entry; this in the final revision and in
    GridCanvas.js alike.  More generally no sequence of events whatever
    puts a freehand entry in either ledger. *)
Theorem freehand_never_enters_ledger (opencvLoaded : bool) (strokes : list Stroke) :
  let st0 := if opencvLoaded
             then WebCanvas.scriptOnload (WebCanvas.mounted width height)
             else WebCanvas.mounted width height in
  let ledger :=
    WebCanvas.recognizedShapes (WebCanvas.run width height (Spec.strokesEvents strokes) st0) in
  let N := length (filter (Spec.recognised (Spec.verdictOf opencvLoaded)) strokes) in
  let M := length (filter (Spec.leftFreehand (Spec.verdictOf opencvLoaded)) strokes) in
  let verdict1 := fun stroke => fst (Heuristic.detectShape atan2 stroke) in
  let ledger1 :=
    Heuristic.recognizedShapes
      (Heuristic.run atan2 (Spec.strokesEvents strokes) (Heuristic.mounted width height)) in
  let N1 := length (filter (Spec.recognised verdict1) strokes) in
  let M1 := length (filter (Spec.leftFreehand verdict1) strokes) in
  (length ledger = N
   /\ Forall (fun shape => type shape <> freehand) ledger
   /\ N + M = length (filter (fun stroke => negb (Spec.malformed stroke)) strokes))
  /\ (length ledger1 = N1
      /\ Forall (fun entry => fst entry <> freehand) ledger1
      /\ N1 + M1 = length (filter (fun stroke => negb (Spec.malformed stroke)) strokes))
  /\ (forall events,
        Forall (fun shape => type shape <> freehand)
               (WebCanvas.recognizedShapes
                  (WebCanvas.run width height events (WebCanvas.mounted width height)))
        /\ Forall (fun entry => fst entry <> freehand)
                  (Heuristic.recognizedShapes
                     (Heuristic.run atan2 events (Heuristic.mounted width height)))).
Proof.
  cbv zeta.
  assert (Hst0 : Spec.ledgerSound
                   (if opencvLoaded
                    then WebCanvas.scriptOnload (WebCanvas.mounted width height)
                    else WebCanvas.mounted width height)).
  { destruct opencvLoaded; constructor. }
  assert (Hl0 : WebCanvas.opencvLoaded
                  (if opencvLoaded
                   then WebCanvas.scriptOnload (WebCanvas.mounted width height)
                   else WebCanvas.mounted width height) = opencvLoaded).
  { now destruct opencvLoaded. }
  assert (Hr0 : WebCanvas.recognizedShapes
                  (if opencvLoaded
                   then WebCanvas.scriptOnload (WebCanvas.mounted width height)
                   else WebCanvas.mounted width height) = []).
  { now destruct opencvLoaded. }
  split; [|split].
  - split; [|split].
    + rewrite (strokes_ledger width height strokes _ Hst0), Hl0, Hr0.
      simpl. now rewrite length_map.
    + pose proof (run_ledgerSound width height (Spec.strokesEvents strokes) _ Hst0) as H.
      eapply Forall_impl; [|exact H]. now intros shape [_ Hk].
    + apply recognised_or_freehand.
  - split; [|split].
    + rewrite (heuristic_strokes_ledger atan2 strokes). simpl. now rewrite length_map.
    + apply heuristic_ledger_invariant. constructor.
    + apply recognised_or_freehand.
  - intros events. split.
    + pose proof (run_ledgerSound width height events _ (mounted_ledgerSound width height)) as H.
      eapply Forall_impl; [|exact H]. now intros shape [_ Hk].
    + apply heuristic_ledger_invariant. constructor.
Qed.

(** C9.  A release over a stroke of fewer than two points consults no
    classifier, issues no call to the surface and leaves the ledger as it
    was; the stroke is dropped and the handler returns normally.  So a
    press and release on one spot leaves nothing but the press's own path
    start. *)
Theorem short_stroke_discarded (st : WebCanvas.State) (st1 : Heuristic.State) :
  (length (WebCanvas.currentStroke st) < 2 ->
     WebCanvas.handleMouseUp width height st =
     {| WebCanvas.isDrawing := false;
        WebCanvas.currentStroke := [];
        WebCanvas.recognizedShapes := WebCanvas.recognizedShapes st;
        WebCanvas.opencvLoaded := WebCanvas.opencvLoaded st;
        WebCanvas.canvas := WebCanvas.canvas st;
        WebCanvas.consulted := WebCanvas.consulted st |})
  /\ (length (Heuristic.currentStroke st1) < 2 ->
     Heuristic.handleMouseUp atan2 st1 =
     {| Heuristic.isDrawing := false;
        Heuristic.currentStroke := [];
        Heuristic.recognizedShapes := Heuristic.recognizedShapes st1;
        Heuristic.canvas := Heuristic.canvas st1;
        Heuristic.consulted := Heuristic.consulted st1 |})
  /\ (forall p : Point,
        WebCanvas.run width height (strokeEvents [p]) st =
        {| WebCanvas.isDrawing := false;
           WebCanvas.currentStroke := [];
           WebCanvas.recognizedShapes := WebCanvas.recognizedShapes st;
           WebCanvas.opencvLoaded := WebCanvas.opencvLoaded st;
           WebCanvas.canvas := WebCanvas.canvas st ++ [BeginPath; MoveTo (x p) (y p)];
           WebCanvas.consulted := WebCanvas.consulted st |}).
Proof.
  split; [|split].
  - intros Hlen. unfold WebCanvas.handleMouseUp.
    destruct (Nat.ltb_spec 1 (length (WebCanvas.currentStroke st))) as [H|_]; [lia|].
    now rewrite andb_false_r.
  - intros Hlen. unfold Heuristic.handleMouseUp.
    destruct (Nat.ltb_spec 1 (length (Heuristic.currentStroke st1))) as [H|_]; [lia|].
    now rewrite andb_false_r.
  - intros p. reflexivity.
Qed.

End Ledger.

Lemma short_stroke_discarded_witness :
  WebCanvas.handleMouseUp (cv := absentCV) sampleWidth sampleHeight pressedOnce =
  {| WebCanvas.isDrawing := false;
     WebCanvas.currentStroke := [];
     WebCanvas.recognizedShapes := [Line diagonal2];
     WebCanvas.opencvLoaded := true;
     WebCanvas.canvas := [];
     WebCanvas.consulted := [LineHeuristic] |}
  /\ Heuristic.handleMouseUp flat_atan2 heuristicPressedOnce =
     {| Heuristic.isDrawing := false;
        Heuristic.currentStroke := [];
        Heuristic.recognizedShapes := [(line, diagonal2)];
        Heuristic.canvas := [];
        Heuristic.consulted := [LineHeuristic] |}.
Proof.
  destruct (short_stroke_discarded (cv := absentCV) flat_atan2 sampleWidth sampleHeight
              pressedOnce heuristicPressedOnce) as (H4 & H1 & _).
  split; [apply H4 | apply H1]; simpl; lia.
Defined.


(** ** The revisions side by side *)

(** No angle differs from itself by more than thirty degrees. *)
Lemma same_angle_no_corner (a : float) :
  (JS.Math_PI / 6 <? JS.Math_abs (a - a))%float = false.
Proof.
  unfold JS.Math_abs, JS.Math_PI.
  rewrite FloatAxioms.ltb_spec, FloatAxioms.abs_spec, FloatAxioms.sub_spec.
  destruct (Prim2SF a) as [s|s| |s m e].
  - destruct s; reflexivity.
  - destruct s; reflexivity.
  - reflexivity.
  - unfold SF64sub, SFsub. rewrite Z.sub_diag. reflexivity.
Qed.

(** The fallback copy of [isRectangle] (part_002, part_003) has no corner
    test: it accepts [hook4], in which no [atan2] finds two corners. *)
Lemma fallback_isRectangle_ignores_corners (atan2 : float -> float -> float) :
  value (WebCanvas.isRectangle hook4) = true
  /\ length (Heuristic.findCorners atan2 hook4) < 2
  /\ value (Heuristic.isRectangle atan2 hook4) = false.
Proof.
  assert (Hc : length (Heuristic.findCorners atan2 hook4) < 2).
  { unfold hook4. cbn -[JS.Math_PI JS.Math_abs PrimFloat.ltb PrimFloat.div PrimFloat.sub].
    change (1 - 0)%float with 1%float. change (2 - 1)%float with 1%float.
    rewrite same_angle_no_corner.
    match goal with |- context [if ?c then _ else _] => destruct c end; simpl; lia. }
  split; [reflexivity|]. split; [exact Hc|].
  destruct (value (Heuristic.isRectangle atan2 hook4)) eqn:E; [|reflexivity].
  apply (isRectangle_accepts atan2) in E. lia.
Qed.

(** The fallback copy of [isCircle] has no circularity test either: it is
    the six-point gate, closure, a mean radius that is not zero and the
    aspect ratio. *)
Lemma fallback_isCircle_iff (stroke : Stroke) :
  value (WebCanvas.isCircle stroke) = true <->
  6 <= length stroke
  /\ Spec.closed stroke = true
  /\ JS.strict_eq (Spec.meanRadius stroke) 0 = false
  /\ (0.5 <? Spec.aspectRatio stroke)%float = true
  /\ (Spec.aspectRatio stroke <? 2.0)%float = true.
Proof.
  unfold WebCanvas.isCircle, Fallback.isCircle, Spec.closed, Spec.aspectRatio,
    Spec.meanRadius, Spec.radii.
  destruct (Nat.ltb_spec (length stroke) 6) as [Hlt|Hge].
  - split; [discriminate|]. intros (H & _). lia.
  - destruct (first_some stroke) as [a ->]; [lia|].
    destruct (last_some stroke) as [b ->]; [lia|].
    unfold Geometry.THRESHOLD, value, JS.strict_eq.
    destruct (Geometry.distance a b <? 10)%float eqn:Hcl;
      cbn -[Geometry.getBoundingBox Statistics.calculateCenter Statistics.average
            Geometry.distance].
    + match goal with |- context [if ?c then _ else _] => destruct c eqn:Hz end;
        cbn -[Geometry.getBoundingBox Statistics.calculateCenter Statistics.average
              Geometry.distance].
      * split; [discriminate|]. intros (_ & _ & H & _). discriminate.
      * rewrite !andb_true_iff. tauto.
    + split; [discriminate|]. intros (_ & H & _). discriminate.
Qed.

(** The first revision draws the recognised shape over the rough ink: it
    neither clears the surface nor redraws the grid or the ledger. *)
Lemma heuristic_recognition_draws_over :
  calls (Heuristic.drawRecognizedShape line diagonal2)
  = [SetStrokeStyle "#ff0000"%string; SetLineWidth 3; BeginPath;
     MoveTo 0 0; LineTo 100 100; StrokePath;
     SetStrokeStyle "#000000"%string; SetLineWidth 2].
Proof. reflexivity. Qed.

(** ** The grid loops run to their end *)

Lemma verticalLines_fuel (width height : Z) (fuel : nat) (gx : Z) :
  (0 <= gx)%Z -> (width - gx < Z.of_nat fuel)%Z ->
  Canvas.verticalLines width height (S fuel) gx
  = Canvas.verticalLines width height fuel gx.
Proof.
  revert gx. induction fuel as [|fuel IH]; intros gx Hgx Hfuel.
  - simpl. destruct (Z.leb_spec gx width); [lia | reflexivity].
  - change (Canvas.verticalLines width height (S (S fuel)) gx)
      with (if (gx <=? width)%Z
            then [BeginPath; MoveTo (JS.of_Z gx) 0; LineTo (JS.of_Z gx) (JS.of_Z height);
                  StrokePath]
                 ++ Canvas.verticalLines width height (S fuel) (gx + Canvas.GRID_SIZE)
            else []).
    change (Canvas.verticalLines width height (S fuel) gx)
      with (if (gx <=? width)%Z
            then [BeginPath; MoveTo (JS.of_Z gx) 0; LineTo (JS.of_Z gx) (JS.of_Z height);
                  StrokePath]
                 ++ Canvas.verticalLines width height fuel (gx + Canvas.GRID_SIZE)
            else []).
    destruct (Z.leb_spec gx width); [|reflexivity].
    rewrite IH; [reflexivity| |]; unfold Canvas.GRID_SIZE; lia.
Qed.

Lemma horizontalLines_fuel (width height : Z) (fuel : nat) (gy : Z) :
  (0 <= gy)%Z -> (height - gy < Z.of_nat fuel)%Z ->
  Canvas.horizontalLines width height (S fuel) gy
  = Canvas.horizontalLines width height fuel gy.
Proof.
  revert gy. induction fuel as [|fuel IH]; intros gy Hgy Hfuel.
  - simpl. destruct (Z.leb_spec gy height); [lia | reflexivity].
  - change (Canvas.horizontalLines width height (S (S fuel)) gy)
      with (if (gy <=? height)%Z
            then [BeginPath; MoveTo 0 (JS.of_Z gy); LineTo (JS.of_Z width) (JS.of_Z gy);
                  StrokePath]
                 ++ Canvas.horizontalLines width height (S fuel) (gy + Canvas.GRID_SIZE)
            else []).
    change (Canvas.horizontalLines width height (S fuel) gy)
      with (if (gy <=? height)%Z
            then [BeginPath; MoveTo 0 (JS.of_Z gy); LineTo (JS.of_Z width) (JS.of_Z gy);
                  StrokePath]
                 ++ Canvas.horizontalLines width height fuel (gy + Canvas.GRID_SIZE)
            else []).
    destruct (Z.leb_spec gy height); [|reflexivity].
    rewrite IH; [reflexivity| |]; unfold Canvas.GRID_SIZE; lia.
Qed.

(** The fuel [drawGrid] gives its loops is enough: more of it draws the
    same lines. *)
Lemma drawGrid_fuel_enough (width height : Z) (extra : nat) :
  Canvas.verticalLines width height (extra + Z.to_nat (width + 1)) 0
  = Canvas.verticalLines width height (Z.to_nat (width + 1)) 0
  /\ Canvas.horizontalLines width height (extra + Z.to_nat (height + 1)) 0
     = Canvas.horizontalLines width height (Z.to_nat (height + 1)) 0.
Proof.
  split; induction extra as [|extra IH]; try reflexivity.
  - rewrite <- IH. simpl plus.
    destruct (Z.ltb_spec width 0) as [Hneg|Hpos].
    + destruct (extra + Z.to_nat (width + 1)) as [|n]; simpl;
        destruct (Z.leb_spec 0 width); try lia; reflexivity.
    + apply verticalLines_fuel; lia.
  - rewrite <- IH. simpl plus.
    destruct (Z.ltb_spec height 0) as [Hneg|Hpos].
    + destruct (extra + Z.to_nat (height + 1)) as [|n]; simpl;
        destruct (Z.leb_spec 0 height); try lia; reflexivity.
    + apply horizontalLines_fuel; lia.
Qed.

(** In part_002 the rectangle the fallback answers with carries a bounding
    box and no vertices, and the renderer (the same text as in part_003)
    reads [shape.vertices[0]]: the redraw stops there with a [TypeError],
    before the new shape is drawn or entered in the ledger.  The final
    revision, having no fallback, never builds such an object. *)
Lemma part002_fallback_rectangle_not_drawable
  {cv : OpenCV} (width height : Z) (ledger : list Shape) :
  fst (Fallback.detectShape false box5) = RectangleBox (Geometry.getBoundingBox box5)
  /\ completed (WebCanvas.drawRecognizedShape width height ledger
                  (fst (Fallback.detectShape false box5))) = false.
Proof.
  split; [reflexivity|].
  change (fst (Fallback.detectShape false box5))
    with (RectangleBox (Geometry.getBoundingBox box5)).
  unfold WebCanvas.drawRecognizedShape, andThen.
  cbn [emit completed].
  destruct (completed (forEach WebCanvas.drawCleanShape ledger)); reflexivity.
Qed.

(* ================================================================== *)
(** * Further properties of the code *)

(** ** Corners, arrows and the size of a verdict (GridCanvas.js) *)

Section HeuristicShapes.
Import JS Geometry Statistics.
Local Open Scope float_scope.
Variable atan2 : float -> float -> float.

(** X1.  Whatever [atan2] answers, the corners [findCorners] returns are
    interior points of the stroke, each once and in stroke order: the
    first and the last point are never corners, and a stroke of [n] points
    has at most [n - 2]. *)
Theorem findCorners_interior_subsequence (stroke : Stroke) :
  Terms.Subsequence (Heuristic.findCorners atan2 stroke) (Terms.interior stroke)
  /\ length (Heuristic.findCorners atan2 stroke) <= length stroke - 2%nat.
Proof.
  split; [|apply findCorners_length].
  unfold Terms.interior.
  induction stroke as [|prev rest IH]; [apply Terms.sub_nil|].
  destruct rest as [|curr [|next more]]; [apply Terms.sub_nil | apply Terms.sub_nil |].
  change (Heuristic.findCorners atan2 (prev :: curr :: next :: more))
    with (if Math_PI / 6 <?
               Math_abs (atan2 (y curr - y prev) (x curr - x prev)
                         - atan2 (y next - y curr) (x next - x curr))
          then curr :: Heuristic.findCorners atan2 (curr :: next :: more)
          else Heuristic.findCorners atan2 (curr :: next :: more)).
  change (removelast (tl (prev :: curr :: next :: more)))
    with (curr :: removelast (tl (curr :: next :: more))).
  destruct (Math_PI / 6 <? _); [apply Terms.sub_take | apply Terms.sub_skip]; exact IH.
Qed.

Lemma isLine_needs_two (stroke : Stroke) :
  value (Heuristic.isLine stroke) = true -> 2 <= length stroke.
Proof.
  unfold Heuristic.isLine.
  destruct (Nat.ltb_spec (length stroke) 2); [discriminate | intros _; assumption].
Qed.

Lemma isArrow_parts (stroke : Stroke) :
  Heuristic.isArrow atan2 stroke = true ->
  let shaftEnd := Z.to_nat (Math_floor (of_nat (length stroke) * 0.7)) in
  2 <= shaftEnd /\ shaftEnd + 5 <= length stroke.
Proof.
  cbv zeta. unfold Heuristic.isArrow, Heuristic.isTriangle.
  destruct (Nat.ltb (length stroke) 6); [discriminate|].
  set (shaftEnd := Z.to_nat _).
  intros H. apply andb_true_iff in H. destruct H as [Hshaft Hhead].
  apply isLine_needs_two in Hshaft. rewrite length_firstn in Hshaft.
  apply Nat.leb_le in Hhead.
  pose proof (findCorners_length atan2 (skipn shaftEnd stroke)) as Hc.
  rewrite length_skipn in Hc. lia.
Qed.

(** X2.  A stroke taken for an arrow splits into a shaft of at least two
    points and a head of at least five, so it has seven points or more:
    the six-point gate of [isArrow] alone never lets a stroke through. *)
Theorem arrow_needs_seven_points (stroke : Stroke) :
  Heuristic.isArrow atan2 stroke = true ->
  let shaftEnd := Z.to_nat (Math_floor (of_nat (length stroke) * 0.7)) in
  2 <= length (firstn shaftEnd stroke)
  /\ 5 <= length (skipn shaftEnd stroke)
  /\ 7 <= length stroke.
Proof.
  intros H. destruct (isArrow_parts stroke H) as [H2 H5]. cbv zeta.
  rewrite length_firstn, length_skipn. lia.
Qed.

Lemma isCircle_needs_six (stroke : Stroke) :
  value (Heuristic.isCircle stroke) = true -> 6 <= length stroke.
Proof.
  unfold Heuristic.isCircle.
  destruct (Nat.ltb_spec (length stroke) 6); [discriminate | intros _; assumption].
Qed.

Lemma isRectangle_needs_four (stroke : Stroke) :
  value (Heuristic.isRectangle atan2 stroke) = true -> 4 <= length stroke.
Proof.
  unfold Heuristic.isRectangle.
  destruct (Nat.ltb_spec (length stroke) 4); [discriminate | intros _; assumption].
Qed.

(** X3.  The verdict of the heuristic [detectShape] is one of line,
    circle, rectangle, arrow and freehand, and each shape needs its
    points: a line 2, a rectangle 4, a circle 6, an arrow 7.  So a stroke
    of fewer than four points is a line or freehand. *)
Theorem verdict_needs_points (stroke : Stroke) :
  match fst (Heuristic.detectShape atan2 stroke) with
  | line => 2 <= length stroke
  | rectangle => 4 <= length stroke
  | circle => 6 <= length stroke
  | arrow => 7 <= length stroke
  | freehand => True
  | square | triangle | unknown => False
  end.
Proof.
  unfold Heuristic.detectShape.
  destruct (value (Heuristic.isLine stroke)) eqn:Hl.
  { simpl. now apply isLine_needs_two. }
  destruct (value (Heuristic.isCircle stroke)) eqn:Hc.
  { simpl. now apply isCircle_needs_six. }
  destruct (value (Heuristic.isRectangle atan2 stroke)) eqn:Hr.
  { simpl. now apply isRectangle_needs_four. }
  destruct (Heuristic.isArrow atan2 stroke) eqn:Ha; simpl; [|exact I].
  destruct (isArrow_parts stroke Ha). lia.
Qed.

(** X4.  The two closed-shape tests are not exclusive: every stroke
    [isCircle] accepts and in which two corners are found is accepted by
    [isRectangle] as well.  It is the order of the tests in [detectShape]
    that makes such a stroke a circle. *)
Theorem cornered_circle_is_rectangle_too (stroke : Stroke) :
  value (Heuristic.isCircle stroke) = true ->
  2 <= length (Heuristic.findCorners atan2 stroke) ->
  value (Heuristic.isRectangle atan2 stroke) = true
  /\ (fst (Heuristic.detectShape atan2 stroke) = line
      \/ fst (Heuristic.detectShape atan2 stroke) = circle).
Proof.
  intros Hc Hcorners. split.
  - apply isCircle_iff_guards in Hc.
    destruct Hc as (Hlen & Hcl & _ & _ & Hlo & Hhi).
    unfold Heuristic.isRectangle, Spec.closed, Spec.aspectRatio in *.
    destruct (Nat.ltb_spec (length stroke) 4) as [Hlt|_]; [lia|].
    destruct (first stroke), (last stroke); try discriminate.
    unfold THRESHOLD. rewrite Hcl.
    cbn -[Heuristic.findCorners getBoundingBox Nat.leb].
    apply Nat.leb_le in Hcorners. rewrite Hcorners.
    rewrite (ltb_trans 0.2 0.5 _ eq_refl Hlo), (ltb_trans _ 2.0 5.0 Hhi eq_refl).
    reflexivity.
  - unfold Heuristic.detectShape.
    destruct (value (Heuristic.isLine stroke)); [now left|].
    rewrite Hc. now right.
Qed.

End HeuristicShapes.

(** ** Distances and path lengths *)

Lemma binary_round_aux_magnitude (s s' : bool) (m e : Z) (l : location) :
  Terms.sameMagnitude (binary_round_aux prec emax s m e l) (binary_round_aux prec emax s' m e l).
Proof.
  unfold binary_round_aux.
  destruct (shr_fexp prec emax m e l) as [mrs' e'].
  destruct (shr_fexp prec emax _ e' loc_Exact) as [mrs'' e''].
  destruct (shr_m mrs''); try exact I.
  destruct (Z.leb e'' _); cbn; auto.
Qed.

Lemma binary_normalize_opp_magnitude (d e : Z) :
  Terms.sameMagnitude (binary_normalize prec emax d e false)
                (binary_normalize prec emax (- d) e false).
Proof.
  destruct d as [|p|p]; cbn [Z.opp binary_normalize]; try exact I;
    unfold binary_round; destruct (shl_align p e _) as [mz ez];
    apply binary_round_aux_magnitude.
Qed.

Lemma SFsub_swap (f g : spec_float) :
  Terms.sameMagnitude (SFsub prec emax f g) (SFsub prec emax g f).
Proof.
  destruct f as [sf|sf| |sf mf ef], g as [sg|sg| |sg mg eg];
    try exact I;
    try (destruct sf, sg; exact I);
    try (cbn; split; reflexivity).
  unfold SFsub. rewrite (Z.min_comm eg ef).
  generalize (cond_Zopp sf (Z.pos (fst (shl_align mf ef (Z.min ef eg))))).
  generalize (cond_Zopp sg (Z.pos (fst (shl_align mg eg (Z.min ef eg))))).
  intros b a.
  replace (b - a)%Z with (- (a - b))%Z by lia.
  apply binary_normalize_opp_magnitude.
Qed.

Lemma SFmul_self_magnitude (f g : spec_float) :
  Terms.sameMagnitude f g -> SFmul prec emax f f = SFmul prec emax g g.
Proof.
  destruct f as [sf|sf| |sf mf ef], g as [sg|sg| |sg mg eg]; cbn;
    try contradiction; try reflexivity.
  - intros _. now destruct sf, sg.
  - intros _. now destruct sf, sg.
  - intros [-> ->]. now destruct sf, sg.
Qed.

Lemma square_of_difference_swap (u v : float) :
  JS.Math_pow_2 (u - v) = JS.Math_pow_2 (v - u).
Proof.
  unfold JS.Math_pow_2. apply Prim2SF_inj.
  rewrite !FloatAxioms.mul_spec, !FloatAxioms.sub_spec.
  apply SFmul_self_magnitude, SFsub_swap.
Qed.

Lemma Nonneg_not_below_zero (v : float) : Nonneg v -> (v <? 0)%float = false.
Proof.
  unfold Nonneg. rewrite FloatAxioms.ltb_spec, FloatFacts.Prim2SF_zero.
  destruct (Prim2SF v) as [s|s| |s m e]; cbn; intros H; subst; reflexivity.
Qed.

(** X5.  [distance] does not depend on the order of its two points, and
    its result is NaN or carries a clear sign bit: it is never below zero
    and never the negative zero. *)
Theorem distance_symmetric_never_negative (p q : Point) :
  Geometry.distance p q = Geometry.distance q p
  /\ (Geometry.distance p q <? 0)%float = false
  /\ Prim2SF (Geometry.distance p q) <> S754_zero true.
Proof.
  split; [|split].
  - unfold Geometry.distance.
    now rewrite (square_of_difference_swap (x q) (x p)),
                (square_of_difference_swap (y q) (y p)).
  - apply Nonneg_not_below_zero, distance_Nonneg.
  - pose proof (distance_Nonneg p q) as H. unfold Nonneg in H.
    intros E. rewrite E in H. discriminate H.
Qed.

Lemma zero_plus_Nonneg (d : float) : Nonneg d -> (0 + d)%float = d.
Proof.
  unfold Nonneg. intros H. apply Prim2SF_inj.
  rewrite FloatAxioms.add_spec, FloatFacts.Prim2SF_zero.
  destruct (Prim2SF d) as [s|s| |s m e]; cbn in *; subst; reflexivity.
Qed.

Lemma totalFrom_Nonneg (rest : list Point) (prev : Point) (total : float) :
  Nonneg total -> Nonneg (Geometry.totalFrom prev rest total).
Proof.
  revert prev total. induction rest as [|curr rest IH]; intros prev total H; simpl.
  - exact H.
  - apply IH, add_Nonneg; [exact H | apply distance_Nonneg].
Qed.

(** X6.  The path length of a stroke of fewer than two points is 0, that
    of a two-point stroke is exactly the distance between the two, and no
    path length is below zero. *)
Theorem path_length_of_short_strokes (stroke : Stroke) :
  (length stroke < 2 -> Geometry.calculateTotalDistance stroke = 0%float)
  /\ (forall p q, stroke = [p; q] ->
        Geometry.calculateTotalDistance stroke = Geometry.distance p q)
  /\ (Geometry.calculateTotalDistance stroke <? 0)%float = false.
Proof.
  split; [|split].
  - destruct stroke as [|p [|q rest]]; simpl; intros H; try reflexivity; lia.
  - intros p q ->. simpl. apply zero_plus_Nonneg, distance_Nonneg.
  - apply Nonneg_not_below_zero.
    destruct stroke as [|p rest]; [reflexivity|].
    simpl. apply totalFrom_Nonneg. reflexivity.
Qed.

Lemma sub_self_zero_or_nan (v : float) :
  Prim2SF (v - v)%float = S754_zero false \/ Prim2SF (v - v)%float = S754_nan.
Proof.
  rewrite FloatAxioms.sub_spec.
  destruct (Prim2SF v) as [s|s| |s m e].
  - left. now destruct s.
  - right. now destruct s.
  - now right.
  - left. unfold SF64sub, SFsub. now rewrite Z.sub_diag.
Qed.

Lemma distance_self (a : Point) :
  Prim2SF (Geometry.distance a a) = S754_zero false
  \/ Prim2SF (Geometry.distance a a) = S754_nan.
Proof.
  unfold Geometry.distance, JS.Math_sqrt, JS.Math_pow_2.
  rewrite FloatAxioms.sqrt_spec, FloatAxioms.add_spec, !FloatAxioms.mul_spec.
  destruct (sub_self_zero_or_nan (x a)) as [-> | ->],
           (sub_self_zero_or_nan (y a)) as [-> | ->]; cbn; auto.
Qed.

(** X7.  A stroke that ends on the very point it started from is never a
    line, however short or straight its path: the straight distance is
    zero (or NaN), and so is the ratio. *)
Theorem loop_is_never_line (stroke : Stroke) (a : Point) :
  first stroke = Some a -> last stroke = Some a ->
  value (Heuristic.isLine stroke) = false.
Proof.
  intros Hf Hl. unfold Heuristic.isLine. rewrite Hf, Hl.
  destruct (Nat.ltb (length stroke) 2); [reflexivity|].
  destruct (JS.strict_eq (Geometry.calculateTotalDistance stroke) 0); [reflexivity|].
  unfold value, bind, divide, ret. cbn [fst].
  destruct (distance_self a) as [Hz | Hn].
  - apply FloatFacts.zero_quotient_not_above; [|reflexivity].
    unfold JS.strict_eq. rewrite FloatAxioms.eqb_spec, Hz. reflexivity.
  - rewrite FloatAxioms.ltb_spec, FloatAxioms.div_spec, Hn.
    destruct (Prim2SF 0.9); reflexivity.
Qed.

(** ** The component as a state machine (part_003 final, GridCanvas.js) *)

Lemma andThen_completed_inv (d1 d2 : Draw) :
  completed (d1 +> d2) = true ->
  completed d1 = true /\ completed d2 = true /\ calls (d1 +> d2) = calls d1 ++ calls d2.
Proof.
  unfold andThen. destruct (completed d1) eqn:E; [|congruence].
  cbn. intros H. now repeat split.
Qed.

Lemma style_app (cs1 cs2 : list CanvasCall) (style : string) :
  Terms.strokeStyleAfter (cs1 ++ cs2) style
  = Terms.strokeStyleAfter cs2 (Terms.strokeStyleAfter cs1 style).
Proof. apply fold_left_app. Qed.

Lemma width_app (cs1 cs2 : list CanvasCall) (w : float) :
  Terms.lineWidthAfter (cs1 ++ cs2) w
  = Terms.lineWidthAfter cs2 (Terms.lineWidthAfter cs1 w).
Proof. apply fold_left_app. Qed.

(** Calls ending in the reset leave the ink style. *)
Lemma inkStyled_reset (pre : list CanvasCall) :
  Terms.inkStyled (pre ++ [SetStrokeStyle "#000000"%string; SetLineWidth 2]).
Proof. intros style w. now rewrite style_app, width_app. Qed.

(** Path calls leave the style as it is. *)
Lemma inkStyled_press (cs : list CanvasCall) (px py : float) :
  Terms.inkStyled cs -> Terms.inkStyled (cs ++ [BeginPath; MoveTo px py]).
Proof.
  intros H style w. rewrite style_app, width_app. cbn. apply H.
Qed.

Lemma inkStyled_drag (cs : list CanvasCall) (px py : float) :
  Terms.inkStyled cs -> Terms.inkStyled (cs ++ [LineTo px py; StrokePath]).
Proof.
  intros H style w. rewrite style_app, width_app. cbn. apply H.
Qed.

Lemma drawGrid_inkStyled (pre : list CanvasCall) (width height : Z) :
  Terms.inkStyled (pre ++ Canvas.drawGrid width height).
Proof.
  unfold Canvas.drawGrid. rewrite !app_assoc. apply inkStyled_reset.
Qed.

Lemma drawCleanShape_ends_reset (shape : Shape) :
  completed (WebCanvas.drawCleanShape shape) = true ->
  exists pre,
    calls (WebCanvas.drawCleanShape shape)
    = pre ++ [SetStrokeStyle "#000000"%string; SetLineWidth 2].
Proof.
  unfold WebCanvas.drawCleanShape. intros H.
  apply andThen_completed_inv in H. destruct H as (_ & _ & ->).
  cbn [emit calls].
  match goal with |- context [calls ?d ++ _] => exists (calls d ++ [StrokePath]) end.
  now rewrite <- app_assoc.
Qed.

Lemma heuristic_draw_ends_reset (kind : ShapeKind) (stroke : Stroke) :
  completed (Heuristic.drawRecognizedShape kind stroke) = true ->
  exists pre,
    calls (Heuristic.drawRecognizedShape kind stroke)
    = pre ++ [SetStrokeStyle "#000000"%string; SetLineWidth 2].
Proof.
  unfold Heuristic.drawRecognizedShape. intros H.
  apply andThen_completed_inv in H. destruct H as (_ & _ & ->).
  cbn [emit calls]. eexists. reflexivity.
Qed.

Section StateMachine.
Context {cv : OpenCV}.
Variable atan2 : float -> float -> float.
Variables width height : Z.

(** What a release can do to the ledger of the final revision, in any
    state at all. *)
Lemma handleMouseUp_ledger_cases (st : WebCanvas.State) :
  WebCanvas.recognizedShapes (WebCanvas.handleMouseUp width height st)
  = WebCanvas.recognizedShapes st
  \/ (WebCanvas.recognizedShapes (WebCanvas.handleMouseUp width height st)
      = WebCanvas.recognizedShapes st
        ++ [fst (WebCanvas.detectShape (WebCanvas.opencvLoaded st)
                   (WebCanvas.currentStroke st))]
      /\ type (fst (WebCanvas.detectShape (WebCanvas.opencvLoaded st)
                      (WebCanvas.currentStroke st))) <> freehand).
Proof.
  unfold WebCanvas.handleMouseUp.
  destruct (WebCanvas.isDrawing st && _); [|now left].
  destruct (WebCanvas.detectShape _ _) as [shape used]. cbn [fst].
  destruct (negb (ShapeKind_eqb (type shape) freehand)) eqn:Hk; [|now left].
  destruct (completed _); [|now left].
  right. split; [reflexivity|].
  intros E. apply negb_true_iff in Hk. apply ShapeKind_eqb_eq in E. congruence.
Qed.

Lemma step_opencvLoaded (st : WebCanvas.State) (e : Event) :
  WebCanvas.opencvLoaded (WebCanvas.step width height st e)
  = match e with ScriptLoaded => true | _ => WebCanvas.opencvLoaded st end.
Proof.
  destruct e as [pos|pos| | |]; try reflexivity.
  - unfold WebCanvas.step, WebCanvas.handleMouseMove.
    now destruct (negb (WebCanvas.isDrawing st)).
  - unfold WebCanvas.step, WebCanvas.handleMouseUp.
    destruct (WebCanvas.isDrawing st && _); [|reflexivity].
    destruct (WebCanvas.detectShape _ _) as [shape used].
    destruct (negb _); [|reflexivity].
    now destruct (completed _).
Qed.

Lemma step_ledger_grows (st : WebCanvas.State) (e : Event) :
  exists added,
    WebCanvas.recognizedShapes (WebCanvas.step width height st e)
    = WebCanvas.recognizedShapes st ++ added.
Proof.
  destruct e as [pos|pos| | |]; try (exists []; cbn; now rewrite app_nil_r).
  - exists []. unfold WebCanvas.step, WebCanvas.handleMouseMove.
    destruct (negb (WebCanvas.isDrawing st)); cbn; now rewrite app_nil_r.
  - cbn [WebCanvas.step].
    destruct (handleMouseUp_ledger_cases st) as [-> | [-> _]].
    + exists []. now rewrite app_nil_r.
    + eexists. reflexivity.
Qed.

Lemma heuristic_step_ledger_grows (st : Heuristic.State) (e : Event) :
  exists added,
    Heuristic.recognizedShapes (Heuristic.step atan2 st e)
    = Heuristic.recognizedShapes st ++ added.
Proof.
  destruct e as [pos|pos| | |]; try (exists []; cbn; now rewrite app_nil_r).
  - exists []. unfold Heuristic.step, Heuristic.handleMouseMove.
    destruct (negb (Heuristic.isDrawing st)); cbn; now rewrite app_nil_r.
  - cbn [Heuristic.step]. rewrite heuristic_handleMouseUp. cbv zeta.
    destruct (Heuristic.isDrawing st && _);
      [|exists []; cbn; now rewrite app_nil_r].
    destruct (negb _); [eexists; reflexivity | exists []; cbn; now rewrite app_nil_r].
Qed.

(** X8.  The ledger is append-only: whatever the events, the ledger they
    leave is the ledger they found followed by the new entries, in the
    final revision and in GridCanvas.js; and a library once loaded stays
    loaded. *)
Theorem ledger_is_append_only (events : list Event)
        (st : WebCanvas.State) (st1 : Heuristic.State) :
  (exists added,
     WebCanvas.recognizedShapes (WebCanvas.run width height events st)
     = WebCanvas.recognizedShapes st ++ added)
  /\ (exists added,
        Heuristic.recognizedShapes (Heuristic.run atan2 events st1)
        = Heuristic.recognizedShapes st1 ++ added)
  /\ (WebCanvas.opencvLoaded st = true ->
      WebCanvas.opencvLoaded (WebCanvas.run width height events st) = true).
Proof.
  split; [|split].
  - revert st. induction events as [|e events IH]; intros st.
    + exists []. cbn. now rewrite app_nil_r.
    + cbn. destruct (IH (WebCanvas.step width height st e)) as [added2 H2].
      destruct (step_ledger_grows st e) as [added1 H1].
      exists (added1 ++ added2).
      unfold WebCanvas.run in H2. rewrite H2, H1. now rewrite app_assoc.
  - revert st1. induction events as [|e events IH]; intros st1.
    + exists []. cbn. now rewrite app_nil_r.
    + cbn. destruct (IH (Heuristic.step atan2 st1 e)) as [added2 H2].
      destruct (heuristic_step_ledger_grows st1 e) as [added1 H1].
      exists (added1 ++ added2).
      unfold Heuristic.run in H2. rewrite H2, H1. now rewrite app_assoc.
  - revert st. induction events as [|e events IH]; intros st Hl; [exact Hl|].
    cbn. apply IH. rewrite step_opencvLoaded. now destruct e.
Qed.

(** X9.  A release always ends the stroke.  In every state the final
    revision can reach, and in every state of GridCanvas.js whatever, the
    release handler runs to its end: drawing is off and the stroke buffer
    is empty afterwards. *)
Theorem release_always_ends_stroke (events : list Event) (st1 : Heuristic.State) :
  let st := WebCanvas.run width height (events ++ [MouseUp])
              (WebCanvas.mounted width height) in
  (WebCanvas.isDrawing st = false /\ WebCanvas.currentStroke st = [])
  /\ (Heuristic.isDrawing (Heuristic.handleMouseUp atan2 st1) = false
      /\ Heuristic.currentStroke (Heuristic.handleMouseUp atan2 st1) = []).
Proof.
  cbv zeta. split.
  - unfold WebCanvas.run. rewrite fold_left_app. cbn [fold_left WebCanvas.step].
    rewrite handleMouseUp_sound
      by (apply run_ledgerSound, mounted_ledgerSound).
    cbv zeta.
    destruct (WebCanvas.isDrawing _ && _); [|now split].
    destruct (negb _); now split.
  - rewrite heuristic_handleMouseUp. cbv zeta.
    destruct (Heuristic.isDrawing st1 && _); [|now split].
    destruct (negb _); now split.
Qed.

Lemma idle_moves (moves : list Point) (st : WebCanvas.State) :
  WebCanvas.isDrawing st = false ->
  WebCanvas.run width height (map MouseMove moves) st = st.
Proof.
  intros Hd. induction moves as [|q moves IH]; [reflexivity|].
  cbn. unfold WebCanvas.handleMouseMove. rewrite Hd. exact IH.
Qed.

Lemma heuristic_idle_moves (moves : list Point) (st : Heuristic.State) :
  Heuristic.isDrawing st = false ->
  Heuristic.run atan2 (map MouseMove moves) st = st.
Proof.
  intros Hd. induction moves as [|q moves IH]; [reflexivity|].
  cbn. unfold Heuristic.handleMouseMove. rewrite Hd. exact IH.
Qed.

(** X10.  A stroke the pointer leaves the canvas on is abandoned for good:
    after the leave, further moves and the release that follows change
    nothing more.  The ledger, the surface and the list of consulted
    classifiers are as the leave found them, whatever was drawn so far. *)
Theorem abandoned_stroke_never_classified (moves : list Point)
        (st : WebCanvas.State) (st1 : Heuristic.State) :
  WebCanvas.run width height (MouseLeave :: map MouseMove moves ++ [MouseUp]) st
  = {| WebCanvas.isDrawing := false;
       WebCanvas.currentStroke := [];
       WebCanvas.recognizedShapes := WebCanvas.recognizedShapes st;
       WebCanvas.opencvLoaded := WebCanvas.opencvLoaded st;
       WebCanvas.canvas := WebCanvas.canvas st;
       WebCanvas.consulted := WebCanvas.consulted st |}
  /\ Heuristic.run atan2 (MouseLeave :: map MouseMove moves ++ [MouseUp]) st1
     = {| Heuristic.isDrawing := false;
          Heuristic.currentStroke := [];
          Heuristic.recognizedShapes := Heuristic.recognizedShapes st1;
          Heuristic.canvas := Heuristic.canvas st1;
          Heuristic.consulted := Heuristic.consulted st1 |}.
Proof.
  split.
  - change (MouseLeave :: map MouseMove moves ++ [MouseUp])
      with ([MouseLeave] ++ map MouseMove moves ++ [MouseUp]).
    unfold WebCanvas.run. rewrite !fold_left_app.
    change (fold_left (WebCanvas.step width height) [MouseLeave] st)
      with (WebCanvas.handleMouseLeave st).
    change (fold_left (WebCanvas.step width height) (map MouseMove moves)
              (WebCanvas.handleMouseLeave st))
      with (WebCanvas.run width height (map MouseMove moves)
              (WebCanvas.handleMouseLeave st)).
    rewrite (idle_moves moves) by reflexivity.
    reflexivity.
  - change (MouseLeave :: map MouseMove moves ++ [MouseUp])
      with ([MouseLeave] ++ map MouseMove moves ++ [MouseUp]).
    unfold Heuristic.run. rewrite !fold_left_app.
    change (fold_left (Heuristic.step atan2) [MouseLeave] st1)
      with (Heuristic.handleMouseLeave st1).
    change (fold_left (Heuristic.step atan2) (map MouseMove moves)
              (Heuristic.handleMouseLeave st1))
      with (Heuristic.run atan2 (map MouseMove moves)
              (Heuristic.handleMouseLeave st1)).
    rewrite (heuristic_idle_moves moves) by reflexivity.
    reflexivity.
Qed.

End StateMachine.

(** ** What the ledger and the surface always satisfy *)

Section Invariants.
Import JS Geometry ContourClassification.
Context {cv : OpenCV}.
Variable atan2 : float -> float -> float.
Variables width height : Z.

Lemma detectShapes_wellFormed (opencvLoaded : bool) (stroke : Stroke) :
  Forall Terms.wellFormed (detectShapes opencvLoaded stroke).
Proof.
  unfold detectShapes.
  destruct (if opencvLoaded then findContours stroke else None) as [contours|];
    [|constructor].
  apply Forall_forall. intros shape Hin.
  apply filter_In in Hin. destruct Hin as [Hin Hk].
  apply in_map_iff in Hin. destruct Hin as (contour & <- & _).
  pose proof (classifyShape_vertices contour) as Hv.
  destruct (classifyShape contour); cbn in *;
    try assumption; try exact I; try contradiction; discriminate.
Qed.

Lemma detectShape_wellFormed (opencvLoaded : bool) (stroke : Stroke) :
  type (fst (WebCanvas.detectShape opencvLoaded stroke)) <> freehand ->
  Terms.wellFormed (fst (WebCanvas.detectShape opencvLoaded stroke)).
Proof.
  unfold WebCanvas.detectShape, WebCanvas.isLine, Fallback.isLine.
  destruct (value (Heuristic.isLine stroke)) eqn:Hline.
  - intros _. cbn. now apply isLine_two_points.
  - destruct (first stroke); [|intros H; now contradiction H].
    pose proof (detectShapes_wellFormed opencvLoaded stroke) as Hall.
    destruct (detectShapes opencvLoaded stroke) as [|shape rest];
      [intros H; now contradiction H|].
    intros _. now inversion Hall.
Qed.

(** X11.  The ledger of the final revision holds well-formed objects only,
    whatever the events and whatever the contour library answers: every
    entry is a line over a stroke of two points or more, a triangle of
    exactly three vertices, a rectangle of exactly four, or a circle;
    never a freehand, an unknown or a box without vertices. *)
Theorem ledger_entries_well_formed (events : list Event) :
  Forall Terms.wellFormed
         (WebCanvas.recognizedShapes
            (WebCanvas.run width height events (WebCanvas.mounted width height))).
Proof.
  assert (Hstep : forall st e,
             Forall Terms.wellFormed (WebCanvas.recognizedShapes st) ->
             Forall Terms.wellFormed
                    (WebCanvas.recognizedShapes (WebCanvas.step width height st e))).
  { intros st e Hst. destruct e as [pos|pos| | |]; try exact Hst.
    - unfold WebCanvas.step, WebCanvas.handleMouseMove.
      now destruct (negb (WebCanvas.isDrawing st)).
    - cbn [WebCanvas.step].
      destruct (handleMouseUp_ledger_cases width height st) as [-> | [-> Hk]];
        [exact Hst|].
      apply Forall_app. split; [exact Hst|].
      constructor; [|constructor]. now apply detectShape_wellFormed. }
  assert (Hrun : forall st,
             Forall Terms.wellFormed (WebCanvas.recognizedShapes st) ->
             Forall Terms.wellFormed
                    (WebCanvas.recognizedShapes (WebCanvas.run width height events st))).
  { induction events as [|e events' IH]; intros st Hst; [exact Hst|].
    cbn. apply IH. now apply Hstep. }
  apply Hrun. constructor.
Qed.

Lemma unreachable_line_or_freehand (opencvLoaded : bool) (stroke : Stroke) :
  (forall traced : Stroke, findContours traced = None) ->
  fst (WebCanvas.detectShape opencvLoaded stroke) = Line stroke
  \/ fst (WebCanvas.detectShape opencvLoaded stroke) = Freehand.
Proof.
  intros Habsent. unfold WebCanvas.detectShape, detectShapes.
  destruct (value (WebCanvas.isLine stroke)); [now left|].
  right. rewrite Habsent.
  destruct (first stroke); now destruct opencvLoaded.
Qed.

(** X12.  As long as the contour library cannot be reached (every run of
    the pipeline throws, and [detectShapes] catches it), the final
    revision recognises lines and nothing else, whatever the events and
    whether or not the load flag has been set: every entry of the ledger
    is a [Line]. *)
Theorem only_lines_without_library (events : list Event) :
  (forall traced : Stroke, findContours traced = None) ->
  Forall Terms.isLineShape
         (WebCanvas.recognizedShapes
            (WebCanvas.run width height events (WebCanvas.mounted width height))).
Proof.
  intros Habsent.
  assert (Hrun : forall st,
             Forall Terms.isLineShape (WebCanvas.recognizedShapes st) ->
             Forall Terms.isLineShape
                    (WebCanvas.recognizedShapes (WebCanvas.run width height events st))).
  { induction events as [|e events' IH]; intros st Hst; [exact Hst|].
    cbn. apply IH.
    destruct e as [pos|pos| | |]; try exact Hst.
    - unfold WebCanvas.step, WebCanvas.handleMouseMove.
      now destruct (negb (WebCanvas.isDrawing st)).
    - cbn [WebCanvas.step].
      destruct (handleMouseUp_ledger_cases width height st) as [-> | [-> Hk]];
        [exact Hst|].
      apply Forall_app. split; [exact Hst|].
      constructor; [|constructor].
      destruct (unreachable_line_or_freehand (WebCanvas.opencvLoaded st)
                  (WebCanvas.currentStroke st) Habsent) as [E|E];
        rewrite E in *; [exact I | now contradiction Hk]. }
  apply Hrun. constructor.
Qed.

Lemma heuristic_release_inkStyled (st : Heuristic.State) :
  Terms.inkStyled (Heuristic.canvas st) ->
  Terms.inkStyled (Heuristic.canvas (Heuristic.handleMouseUp atan2 st)).
Proof.
  intros Hst. rewrite heuristic_handleMouseUp. cbv zeta.
  destruct (Heuristic.isDrawing st); [|exact Hst].
  destruct (Nat.ltb_spec 1 (length (Heuristic.currentStroke st))) as [Hlen|_];
    [|exact Hst].
  cbn [andb].
  destruct (negb _); [|exact Hst].
  cbn [Heuristic.canvas].
  destruct (heuristic_draw_ends_reset
              (fst (Heuristic.detectShape atan2 (Heuristic.currentStroke st)))
              (Heuristic.currentStroke st)) as [pre ->].
  { now apply heuristic_draw_completed. }
  rewrite app_assoc. apply inkStyled_reset.
Qed.

Lemma release_inkStyled (st : WebCanvas.State) :
  Spec.ledgerSound st ->
  Terms.inkStyled (WebCanvas.canvas st) ->
  Terms.inkStyled (WebCanvas.canvas (WebCanvas.handleMouseUp width height st)).
Proof.
  intros Hsound Hst. rewrite handleMouseUp_sound by exact Hsound. cbv zeta.
  destruct (WebCanvas.isDrawing st && _); [|exact Hst].
  destruct (negb _); [|exact Hst].
  cbn [WebCanvas.canvas].
  destruct (drawCleanShape_ends_reset
              (fst (WebCanvas.detectShape (WebCanvas.opencvLoaded st)
                      (WebCanvas.currentStroke st)))) as [pre ->].
  { apply drawCleanShape_completed, detectShape_drawable. }
  rewrite !app_assoc. apply inkStyled_reset.
Qed.

(** X13.  Recognised shapes are drawn in red, three pixels wide, and the
    grid in grey, but the user's ink never is: after any sequence of
    events the context is left with [strokeStyle] black and [lineWidth] 2,
    in the final revision and in GridCanvas.js, so the segments of the
    next stroke are stroked with the ink style. *)
Theorem ink_style_restored (events : list Event) :
  Terms.inkStyled
    (WebCanvas.canvas
       (WebCanvas.run width height events (WebCanvas.mounted width height)))
  /\ Terms.inkStyled
       (Heuristic.canvas
          (Heuristic.run atan2 events (Heuristic.mounted width height))).
Proof.
  split.
  - assert (Hrun : forall st,
               Spec.ledgerSound st ->
               Terms.inkStyled (WebCanvas.canvas st) ->
               Terms.inkStyled
                 (WebCanvas.canvas (WebCanvas.run width height events st))).
    { induction events as [|e events' IH]; intros st Hsound Hst; [exact Hst|].
      cbn. apply IH; [now apply step_ledgerSound|].
      destruct e as [pos|pos| | |]; try exact Hst.
      - now apply inkStyled_press.
      - unfold WebCanvas.step, WebCanvas.handleMouseMove.
        destruct (negb (WebCanvas.isDrawing st)); [exact Hst|].
        now apply inkStyled_drag.
      - now apply release_inkStyled. }
    apply Hrun; [apply mounted_ledgerSound|].
    apply drawGrid_inkStyled.
  - assert (Hrun : forall st,
               Terms.inkStyled (Heuristic.canvas st) ->
               Terms.inkStyled
                 (Heuristic.canvas (Heuristic.run atan2 events st))).
    { induction events as [|e events' IH]; intros st Hst; [exact Hst|].
      cbn. apply IH.
      destruct e as [pos|pos| | |]; try exact Hst.
      - now apply inkStyled_press.
      - unfold Heuristic.step, Heuristic.handleMouseMove.
        destruct (negb (Heuristic.isDrawing st)); [exact Hst|].
        now apply inkStyled_drag.
      - now apply heuristic_release_inkStyled. }
    apply Hrun. apply drawGrid_inkStyled.
Qed.

End Invariants.

(** ** The grid (drawGrid) *)

Lemma verticalLines_stops (width height : Z) (n k fuel : nat) :
  n = Z.to_nat (width / Canvas.GRID_SIZE + 1 - Z.of_nat k) ->
  (width - Canvas.GRID_SIZE * Z.of_nat k < Z.of_nat fuel)%Z ->
  Canvas.verticalLines width height fuel (Canvas.GRID_SIZE * Z.of_nat k)
  = flat_map (Terms.verticalLine height)
             (map (fun j => (Canvas.GRID_SIZE * Z.of_nat j)%Z) (seq k n)).
Proof.
  unfold Canvas.GRID_SIZE.
  pose proof (Z.div_mod width 40 ltac:(lia)) as Hdm.
  pose proof (Z.mod_pos_bound width 40 ltac:(lia)) as Hmod.
  revert k fuel. induction n as [|n IH]; intros k fuel Hn Hfuel.
  - destruct fuel as [|fuel]; [reflexivity|].
    cbn [Canvas.verticalLines seq map flat_map].
    destruct (Z.leb_spec (40 * Z.of_nat k) width); [lia | reflexivity].
  - destruct fuel as [|fuel]; [lia|].
    cbn [Canvas.verticalLines].
    destruct (Z.leb_spec (40 * Z.of_nat k) width); [|lia].
    cbn [seq map flat_map]. unfold Terms.verticalLine at 1.
    replace (40 * Z.of_nat k + Canvas.GRID_SIZE)%Z with (40 * Z.of_nat (S k))%Z
      by (unfold Canvas.GRID_SIZE; lia).
    rewrite (IH (S k) fuel); [reflexivity | lia | lia].
Qed.

Lemma horizontalLines_stops (width height : Z) (n k fuel : nat) :
  n = Z.to_nat (height / Canvas.GRID_SIZE + 1 - Z.of_nat k) ->
  (height - Canvas.GRID_SIZE * Z.of_nat k < Z.of_nat fuel)%Z ->
  Canvas.horizontalLines width height fuel (Canvas.GRID_SIZE * Z.of_nat k)
  = flat_map (Terms.horizontalLine width)
             (map (fun j => (Canvas.GRID_SIZE * Z.of_nat j)%Z) (seq k n)).
Proof.
  unfold Canvas.GRID_SIZE.
  pose proof (Z.div_mod height 40 ltac:(lia)) as Hdm.
  pose proof (Z.mod_pos_bound height 40 ltac:(lia)) as Hmod.
  revert k fuel. induction n as [|n IH]; intros k fuel Hn Hfuel.
  - destruct fuel as [|fuel]; [reflexivity|].
    cbn [Canvas.horizontalLines seq map flat_map].
    destruct (Z.leb_spec (40 * Z.of_nat k) height); [lia | reflexivity].
  - destruct fuel as [|fuel]; [lia|].
    cbn [Canvas.horizontalLines].
    destruct (Z.leb_spec (40 * Z.of_nat k) height); [|lia].
    cbn [seq map flat_map]. unfold Terms.horizontalLine at 1.
    replace (40 * Z.of_nat k + Canvas.GRID_SIZE)%Z with (40 * Z.of_nat (S k))%Z
      by (unfold Canvas.GRID_SIZE; lia).
    rewrite (IH (S k) fuel); [reflexivity | lia | lia].
Qed.

Lemma gridStops_spec (limit gx : Z) :
  In gx (Terms.gridStops limit)
  <-> (0 <= gx <= limit)%Z /\ (gx mod Canvas.GRID_SIZE = 0)%Z.
Proof.
  unfold Terms.gridStops, Canvas.GRID_SIZE.
  pose proof (Z.div_mod limit 40 ltac:(lia)) as Hdm.
  pose proof (Z.mod_pos_bound limit 40 ltac:(lia)) as Hmod.
  rewrite in_map_iff. split.
  - intros (k & <- & Hin). apply in_seq in Hin.
    split; [lia|].
    rewrite Z.mul_comm. apply Z.mod_mul. lia.
  - intros [Hr Hm].
    pose proof (Z.div_mod gx 40 ltac:(lia)) as Hg. rewrite Hm in Hg.
    exists (Z.to_nat (gx / 40)). split; [lia|].
    apply in_seq. lia.
Qed.

(** X14.  [drawGrid] draws, in grey and half a pixel wide, one vertical
    line over the full height at every multiple of 40 from 0 to the width,
    the width included, then one horizontal line over the full width at
    every multiple of 40 from 0 to the height, and leaves the ink style;
    a window with a negative side gets no line that way. *)
Theorem drawGrid_lines_at_every_stop (width height : Z) :
  Canvas.drawGrid width height
  = [SetStrokeStyle "#f0f0f0"%string; SetLineWidth 0.5]
    ++ flat_map (Terms.verticalLine height) (Terms.gridStops width)
    ++ flat_map (Terms.horizontalLine width) (Terms.gridStops height)
    ++ [SetStrokeStyle "#000000"%string; SetLineWidth 2]
  /\ (forall limit gx,
        In gx (Terms.gridStops limit)
        <-> (0 <= gx <= limit)%Z /\ (gx mod Canvas.GRID_SIZE = 0)%Z).
Proof.
  split; [|apply gridStops_spec].
  unfold Canvas.drawGrid, Terms.gridStops.
  change 0%Z with (Canvas.GRID_SIZE * Z.of_nat 0)%Z at 1 2.
  rewrite (verticalLines_stops width height
             (Z.to_nat (width / Canvas.GRID_SIZE + 1)) 0);
    [|f_equal; cbn; lia | cbn; lia].
  rewrite (horizontalLines_stops width height
             (Z.to_nat (height / Canvas.GRID_SIZE + 1)) 0);
    [|f_equal; cbn; lia | cbn; lia].
  reflexivity.
Qed.

(** ** The orchestrator of part_002 *)

Section Part002Release.
Import JS Geometry ContourClassification.
Context {cv : OpenCV}.
Variables width height : Z.

Lemma drawRecognizedShape_completed_inv (ledger : list Shape) (newShape : Shape) :
  completed (WebCanvas.drawRecognizedShape width height ledger newShape) = true ->
  completed (WebCanvas.drawCleanShape newShape) = true.
Proof.
  unfold WebCanvas.drawRecognizedShape. intros H.
  apply andThen_completed_inv in H. now destruct H as (_ & H & _).
Qed.

Lemma detectShapeFallback_cases (stroke : Stroke) :
  (value (Fallback.isRectangle stroke) = true
   /\ fst (Fallback.detectShapeFallback stroke) = RectangleBox (getBoundingBox stroke))
  \/ (value (Fallback.isRectangle stroke) = false
      /\ fst (Fallback.detectShapeFallback stroke) = Freehand).
Proof.
  unfold Fallback.detectShapeFallback.
  destruct (value (Fallback.isRectangle stroke)) eqn:Hr; [now left|].
  destruct (value (Fallback.isCircle stroke)) eqn:Hc; [|now right].
  apply fallback_circle_is_rectangle in Hc. congruence.
Qed.

(** What the orchestrator of part_002 can answer with a shape that is
    neither freehand nor a bare box. *)
Lemma fallback_detectShape_wellFormed (opencvLoaded : bool) (stroke : Stroke) :
  type (fst (Fallback.detectShape opencvLoaded stroke)) <> freehand ->
  completed (WebCanvas.drawCleanShape (fst (Fallback.detectShape opencvLoaded stroke)))
  = true ->
  Terms.wellFormed (fst (Fallback.detectShape opencvLoaded stroke))
  /\ (opencvLoaded = false ->
      Terms.isLineShape (fst (Fallback.detectShape opencvLoaded stroke))).
Proof.
  unfold Fallback.detectShape, Fallback.isLine.
  destruct (value (Heuristic.isLine stroke)) eqn:Hline.
  { intros _ _. split; [|intros _; exact I]. cbn. now apply isLine_two_points. }
  assert (Hfb : type (fst (Fallback.detectShapeFallback stroke)) <> freehand ->
                completed (WebCanvas.drawCleanShape
                             (fst (Fallback.detectShapeFallback stroke))) = true ->
                False).
  { destruct (detectShapeFallback_cases stroke) as [[_ ->] | [_ ->]].
    - intros _ H. discriminate H.
    - intros H _. now apply H. }
  destruct opencvLoaded; cbn [negb].
  - destruct (first stroke).
    + pose proof (detectShapes_wellFormed true stroke) as Hall.
      destruct (detectShapes true stroke) as [|shape rest].
      * intros H. now contradiction H.
      * intros _ _. split; [now inversion Hall | discriminate].
    + cbn [fst]. intros Hk Hd. destruct (Hfb Hk Hd).
  - cbn [fst]. intros Hk Hd. destruct (Hfb Hk Hd).
Qed.

Lemma part002_handleMouseUp_ledger_cases (st : WebCanvas.State) :
  let verdict := fst (Fallback.detectShape (WebCanvas.opencvLoaded st)
                        (WebCanvas.currentStroke st)) in
  WebCanvas.recognizedShapes (Part002.handleMouseUp width height st)
  = WebCanvas.recognizedShapes st
  \/ (WebCanvas.recognizedShapes (Part002.handleMouseUp width height st)
      = WebCanvas.recognizedShapes st ++ [verdict]
      /\ type verdict <> freehand
      /\ completed (WebCanvas.drawCleanShape verdict) = true).
Proof.
  cbv zeta. unfold Part002.handleMouseUp.
  destruct (WebCanvas.isDrawing st && _); [|now left].
  destruct (Fallback.detectShape _ _) as [shape used]. cbn [fst].
  destruct (negb (ShapeKind_eqb (type shape) freehand)) eqn:Hk; [|now left].
  destruct (completed (WebCanvas.drawRecognizedShape _ _ _ _)) eqn:Hd; [|now left].
  right. split; [reflexivity|]. split.
  - intros E. apply negb_true_iff in Hk. apply ShapeKind_eqb_eq in E. congruence.
  - now apply drawRecognizedShape_completed_inv in Hd.
Qed.

Lemma part002_step_opencvLoaded (st : WebCanvas.State) (e : Event) :
  WebCanvas.opencvLoaded (Part002.step width height st e)
  = match e with ScriptLoaded => true | _ => WebCanvas.opencvLoaded st end.
Proof.
  destruct e as [pos|pos| | |]; try reflexivity.
  - unfold Part002.step, WebCanvas.handleMouseMove.
    now destruct (negb (WebCanvas.isDrawing st)).
  - unfold Part002.step, Part002.handleMouseUp.
    destruct (WebCanvas.isDrawing st && _); [|reflexivity].
    destruct (Fallback.detectShape _ _) as [shape used].
    destruct (negb _); [|reflexivity].
    now destruct (completed _).
Qed.

(** X15.  In part_002 the box the fallback answers with never reaches the
    ledger, whatever the events and whatever the contour library answers:
    every entry is a line over two points or more, a triangle of three
    vertices, a rectangle of four or a circle; and as long as the script
    has not loaded every entry is a line, the fallback heuristics
    notwithstanding. *)
Theorem part002_ledger_never_holds_fallback_shape (events : list Event) :
  Forall Terms.wellFormed
         (WebCanvas.recognizedShapes
            (Part002.run width height events (WebCanvas.mounted width height)))
  /\ (~ In ScriptLoaded events ->
      Forall Terms.isLineShape
             (WebCanvas.recognizedShapes
                (Part002.run width height events (WebCanvas.mounted width height)))).
Proof.
  split.
  - assert (Hrun : forall st,
               Forall Terms.wellFormed (WebCanvas.recognizedShapes st) ->
               Forall Terms.wellFormed
                 (WebCanvas.recognizedShapes (Part002.run width height events st))).
    { induction events as [|e events' IH]; intros st Hst; [exact Hst|].
      cbn. apply IH.
      destruct e as [pos|pos| | |]; try exact Hst.
      - unfold Part002.step, WebCanvas.handleMouseMove.
        now destruct (negb (WebCanvas.isDrawing st)).
      - cbn [Part002.step].
        destruct (part002_handleMouseUp_ledger_cases st) as [-> | (-> & Hk & Hd)];
          [exact Hst|].
        apply Forall_app. split; [exact Hst|].
        constructor; [|constructor].
        now apply fallback_detectShape_wellFormed. }
    apply Hrun. constructor.
  - assert (Hrun : forall st,
               ~ In ScriptLoaded events ->
               WebCanvas.opencvLoaded st = false ->
               Forall Terms.isLineShape (WebCanvas.recognizedShapes st) ->
               Forall Terms.isLineShape
                 (WebCanvas.recognizedShapes (Part002.run width height events st))).
    { induction events as [|e events' IH]; intros st Hno Hl Hst; [exact Hst|].
      cbn. apply IH.
      - intros Hin. apply Hno. now right.
      - rewrite part002_step_opencvLoaded. destruct e; try exact Hl.
        contradiction Hno. now left.
      - destruct e as [pos|pos| | |]; try exact Hst.
        + unfold Part002.step, WebCanvas.handleMouseMove.
          now destruct (negb (WebCanvas.isDrawing st)).
        + cbn [Part002.step].
          destruct (part002_handleMouseUp_ledger_cases st) as [-> | (-> & Hk & Hd)];
            [exact Hst|].
          apply Forall_app. split; [exact Hst|].
          constructor; [|constructor].
          now apply fallback_detectShape_wellFormed. }
    intros Hno. apply Hrun; [exact Hno | reflexivity | constructor].
Qed.

Lemma fallback_isRectangle_needs_four (stroke : Stroke) :
  value (Fallback.isRectangle stroke) = true -> 4 <= length stroke.
Proof.
  unfold Fallback.isRectangle.
  destruct (Nat.ltb_spec (length stroke) 4); [discriminate | intros _; assumption].
Qed.

(** X16.  In part_002, with the library not loaded, the release of a
    stroke that is no line and that the rectangle fallback accepts does
    not end the stroke: the redraw stops at the box, which has no
    vertices, before any state is updated.  The button counts as still
    down, the stroke buffer and the ledger are as they were, and, the
    ledger being drawable, the context is left in the red, three pixel
    style of recognised shapes. *)
Theorem part002_fallback_rectangle_stalls_release (st : WebCanvas.State) :
  WebCanvas.isDrawing st = true ->
  WebCanvas.opencvLoaded st = false ->
  value (Fallback.isLine (WebCanvas.currentStroke st)) = false ->
  value (Fallback.isRectangle (WebCanvas.currentStroke st)) = true ->
  let st' := Part002.handleMouseUp width height st in
  WebCanvas.isDrawing st' = true
  /\ WebCanvas.currentStroke st' = WebCanvas.currentStroke st
  /\ WebCanvas.recognizedShapes st' = WebCanvas.recognizedShapes st
  /\ (Spec.ledgerSound st ->
      forall style w,
        Terms.strokeStyleAfter (WebCanvas.canvas st') style = "#ff0000"%string
        /\ Terms.lineWidthAfter (WebCanvas.canvas st') w = 3%float).
Proof.
  intros Hd Hl Hline Hrect. cbv zeta.
  pose proof (fallback_isRectangle_needs_four _ Hrect) as Hlen.
  unfold Part002.handleMouseUp. rewrite Hd, Hl.
  destruct (Nat.ltb_spec 1 (length (WebCanvas.currentStroke st))) as [_|]; [|lia].
  cbn [andb].
  assert (E : Fallback.detectShape false (WebCanvas.currentStroke st)
              = (RectangleBox (getBoundingBox (WebCanvas.currentStroke st)),
                 [LineHeuristic; RectangleHeuristic])).
  { unfold Fallback.detectShape. rewrite Hline. cbn [negb].
    unfold Fallback.detectShapeFallback. rewrite Hrect. reflexivity. }
  rewrite E. cbn [type ShapeKind_eqb negb].
  assert (Hc : completed
                 (WebCanvas.drawRecognizedShape width height
                    (WebCanvas.recognizedShapes st)
                    (RectangleBox (getBoundingBox (WebCanvas.currentStroke st))))
               = false).
  { destruct (completed _) eqn:Hc; [|reflexivity].
    apply drawRecognizedShape_completed_inv in Hc. discriminate Hc. }
  rewrite Hc. cbn [WebCanvas.isDrawing WebCanvas.currentStroke
                   WebCanvas.recognizedShapes WebCanvas.canvas].
  split; [reflexivity|]. split; [reflexivity|]. split; [reflexivity|].
  intros Hsound style w.
  destruct (forEach_completed WebCanvas.drawCleanShape (WebCanvas.recognizedShapes st))
    as [Hf Hk].
  { eapply Forall_impl; [|exact Hsound].
    intros shape [Hs _]. now apply drawCleanShape_completed. }
  unfold WebCanvas.drawRecognizedShape.
  destruct (andThen_completed (emit [ClearRect 0 0 (of_Z width) (of_Z height)])
              (emit (Canvas.drawGrid width height)) eq_refl eq_refl) as [H1 K1].
  destruct (andThen_completed _ _ H1 Hf) as [H2 K2].
  set (redraw := emit [ClearRect 0 0 (of_Z width) (of_Z height)] +>
                 emit (Canvas.drawGrid width height) +>
                 forEach WebCanvas.drawCleanShape (WebCanvas.recognizedShapes st))
    in *.
  assert (Hcalls :
            calls (redraw +> WebCanvas.drawCleanShape
                     (RectangleBox (getBoundingBox (WebCanvas.currentStroke st))))
            = calls redraw
              ++ [SetStrokeStyle "#ff0000"%string; SetLineWidth 3; BeginPath]).
  { unfold andThen at 1. rewrite H2. reflexivity. }
  rewrite Hcalls, !style_app, !width_app. split; reflexivity.
Qed.

End Part002Release.

(** ** The native canvas (GridCanvas.js, first documents) *)

Lemma native_run_invariant (gestures : list NativeCanvas.Gesture) (st : NativeCanvas.State) :
  NativeCanvas.paths st = [] ->
  (NativeCanvas.currentPath st = None
   \/ exists px py, NativeCanvas.currentPath st = Some [NativeCanvas.PathMoveTo px py]) ->
  NativeCanvas.paths (NativeCanvas.run gestures st) = []
  /\ (NativeCanvas.currentPath (NativeCanvas.run gestures st) = None
      \/ exists px py,
           NativeCanvas.currentPath (NativeCanvas.run gestures st)
           = Some [NativeCanvas.PathMoveTo px py]).
Proof.
  revert st. induction gestures as [|g gestures IH]; intros st Hp Hc; [now split|].
  cbn. apply IH; destruct g as [loc|loc|]; cbn; try assumption.
  right. do 2 eexists. reflexivity.
Qed.

(** X17.  On the native canvas no stroke is ever drawn or kept.  The pan
    responder is created once, so its move and release handlers read the
    [currentPath] of the first render, which is [null]: whatever the
    gestures, the list of finished paths stays empty, and all the canvas
    shows beside the grid is at most one path, holding the [moveTo] of the
    latest touch and no [lineTo]. *)
Theorem native_strokes_never_drawn (gestures : list NativeCanvas.Gesture) :
  let st := NativeCanvas.run gestures NativeCanvas.initial in
  NativeCanvas.paths st = []
  /\ length (NativeCanvas.shown st) <= 1
  /\ Forall (fun path => exists px py, path = [NativeCanvas.PathMoveTo px py])
            (NativeCanvas.shown st)
  /\ Forall (fun path => existsb NativeCanvas.isLineTo path = false)
            (NativeCanvas.shown st).
Proof.
  cbv zeta.
  destruct (native_run_invariant gestures NativeCanvas.initial eq_refl (or_introl eq_refl))
    as [Hp Hc].
  unfold NativeCanvas.shown. rewrite Hp. cbn [app].
  split; [reflexivity|].
  destruct Hc as [-> | (px & py & ->)].
  - split; [cbn; lia|]. split; constructor.
  - split; [cbn; lia|]. split; (constructor; [|constructor]).
    + now exists px, py.
    + reflexivity.
Qed.

(** ** The bounding box (getBoundingBox) *)

Lemma notBelow_trans (a b c : spec_float) :
  Terms.notBelow a b -> Terms.notBelow b c -> Terms.notBelow a c.
Proof.
  unfold Terms.notBelow, SFcompare.
  destruct a as [sa|sa| |sa ma ea], b as [sb|sb| |sb mb eb], c as [sc|sc| |sc mc ec];
    try contradiction; try (intros; exact I);
    repeat match goal with s : bool |- _ => destruct s end;
    try contradiction; try (intros; exact I);
    rewrite ?Pos.compare_cont_spec; cbn [Pos.switch_Eq];
    destruct (Z.compare_spec ea eb), (Z.compare_spec eb ec), (Z.compare_spec ea ec);
    subst; try lia; try contradiction; try (intros; exact I);
    destruct (Pos.compare_spec ma mb), (Pos.compare_spec mb mc), (Pos.compare_spec ma mc);
    subst; cbn; try contradiction; try (intros; exact I); lia.
Qed.

Lemma SFcompare_swap (a b : spec_float) :
  SFcompare b a = match SFcompare a b with
                  | Some c => Some (CompOpp c)
                  | None => None
                  end.
Proof.
  unfold SFcompare.
  destruct a as [sa|sa| |sa ma ea], b as [sb|sb| |sb mb eb];
    repeat match goal with s : bool |- _ => destruct s end;
    try reflexivity;
    rewrite (Z.compare_antisym ea eb);
    destruct (ea ?= eb)%Z; cbn; try reflexivity;
    rewrite (Pos.compare_cont_antisym ma mb Eq); cbn;
    now rewrite ?CompOpp_involutive.
Qed.

Lemma notBelow_not_ltb (a b : float) :
  Prim2SF b = S754_nan \/ Terms.notBelow (Prim2SF a) (Prim2SF b) ->
  (a <? b)%float = false.
Proof.
  rewrite FloatAxioms.ltb_spec. unfold SFltb, Terms.notBelow.
  intros [-> | H].
  - now destruct (Prim2SF a).
  - now destruct (SFcompare (Prim2SF a) (Prim2SF b)) as [[| |]|].
Qed.

Lemma isNaN_false (v : float) :
  JS.isNaN v = false -> SFcompare (Prim2SF v) (Prim2SF v) = Some Eq.
Proof.
  unfold JS.isNaN. rewrite FloatAxioms.eqb_spec. unfold SFeqb.
  now destruct (SFcompare (Prim2SF v) (Prim2SF v)) as [[| |]|].
Qed.

Lemma SFcompare_defined (a b : spec_float) :
  SFcompare a a = Some Eq -> SFcompare b b = Some Eq -> SFcompare a b <> None.
Proof. destruct a, b; cbn; congruence. Qed.

(** One step of [Math.min] is NaN or below neither of its arguments. *)
Lemma min2_notBelow (a b : float) :
  Prim2SF (JS.min2 a b) = S754_nan
  \/ (Terms.notBelow (Prim2SF a) (Prim2SF (JS.min2 a b))
      /\ Terms.notBelow (Prim2SF b) (Prim2SF (JS.min2 a b))).
Proof.
  unfold JS.min2.
  destruct (JS.isNaN a) eqn:Ha; [now left|].
  destruct (JS.isNaN b) eqn:Hb; [now left|].
  cbn [orb]. right.
  apply isNaN_false in Ha, Hb.
  pose proof (SFcompare_defined _ _ Ha Hb) as Hdef.
  pose proof (SFcompare_swap (Prim2SF a) (Prim2SF b)) as Hswap.
  rewrite !FloatAxioms.ltb_spec. unfold SFltb, Terms.notBelow.
  destruct (SFcompare (Prim2SF a) (Prim2SF b)) as [[| |]|] eqn:Hab;
    try congruence; rewrite Hswap; cbn [CompOpp]; cbv iota.
  - destruct (get_sign a); rewrite ?Ha, ?Hb, ?Hab, ?Hswap; now split.
  - rewrite ?Ha, ?Hb, ?Hab, ?Hswap. now split.
  - rewrite ?Ha, ?Hb, ?Hab, ?Hswap. now split.
Qed.

Lemma max2_notBelow (a b : float) :
  Prim2SF (JS.max2 a b) = S754_nan
  \/ (Terms.notBelow (Prim2SF (JS.max2 a b)) (Prim2SF a)
      /\ Terms.notBelow (Prim2SF (JS.max2 a b)) (Prim2SF b)).
Proof.
  unfold JS.max2.
  destruct (JS.isNaN a) eqn:Ha; [now left|].
  destruct (JS.isNaN b) eqn:Hb; [now left|].
  cbn [orb]. right.
  apply isNaN_false in Ha, Hb.
  pose proof (SFcompare_defined _ _ Ha Hb) as Hdef.
  pose proof (SFcompare_swap (Prim2SF a) (Prim2SF b)) as Hswap.
  rewrite !FloatAxioms.ltb_spec. unfold SFltb, Terms.notBelow.
  destruct (SFcompare (Prim2SF a) (Prim2SF b)) as [[| |]|] eqn:Hab;
    try congruence; rewrite Hswap; cbn [CompOpp]; cbv iota.
  - destruct (get_sign a); rewrite ?Ha, ?Hb, ?Hab, ?Hswap; now split.
  - rewrite ?Ha, ?Hb, ?Hab, ?Hswap. now split.
  - rewrite ?Ha, ?Hb, ?Hab, ?Hswap. now split.
Qed.

Lemma notBelow_not_nan (a b : spec_float) :
  Terms.notBelow a b -> a <> S754_nan /\ b <> S754_nan.
Proof.
  unfold Terms.notBelow. destruct a, b; cbn; try contradiction; split; discriminate.
Qed.

Lemma Math_min_notBelow (xs : list float) (acc : float) :
  Prim2SF (fold_left JS.min2 xs acc) = S754_nan
  \/ (Terms.notBelow (Prim2SF acc) (Prim2SF (fold_left JS.min2 xs acc))
      /\ Forall (fun v => Terms.notBelow (Prim2SF v) (Prim2SF (fold_left JS.min2 xs acc)))
                xs).
Proof.
  revert acc. induction xs as [|v xs IH]; intros acc; cbn [fold_left].
  - destruct (Prim2SF acc) eqn:E; [right|right|now left|right];
      (split; [|constructor]); unfold Terms.notBelow; cbn;
      repeat match goal with s : bool |- _ => destruct s end; try exact I;
      now rewrite Z.compare_refl, ?Pos.compare_cont_refl.
  - destruct (IH (JS.min2 acc v)) as [Hn | [Hacc Hall]]; [now left|].
    right.
    destruct (min2_notBelow acc v) as [Hn | [H1 H2]].
    { apply notBelow_not_nan in Hacc. now destruct Hacc. }
    split; [eapply notBelow_trans; eassumption|].
    constructor; [eapply notBelow_trans; eassumption | exact Hall].
Qed.

Lemma Math_max_notBelow (xs : list float) (acc : float) :
  Prim2SF (fold_left JS.max2 xs acc) = S754_nan
  \/ (Terms.notBelow (Prim2SF (fold_left JS.max2 xs acc)) (Prim2SF acc)
      /\ Forall (fun v => Terms.notBelow (Prim2SF (fold_left JS.max2 xs acc)) (Prim2SF v))
                xs).
Proof.
  revert acc. induction xs as [|v xs IH]; intros acc; cbn [fold_left].
  - destruct (Prim2SF acc) eqn:E; [right|right|now left|right];
      (split; [|constructor]); unfold Terms.notBelow; cbn;
      repeat match goal with s : bool |- _ => destruct s end; try exact I;
      now rewrite Z.compare_refl, ?Pos.compare_cont_refl.
  - destruct (IH (JS.max2 acc v)) as [Hn | [Hacc Hall]]; [now left|].
    right.
    destruct (max2_notBelow acc v) as [Hn | [H1 H2]].
    { apply notBelow_not_nan in Hacc. now destruct Hacc. }
    split; [eapply notBelow_trans; eassumption|].
    constructor; [eapply notBelow_trans; eassumption | exact Hall].
Qed.

Lemma ltb_nan_left (a b : float) :
  Prim2SF a = S754_nan -> (a <? b)%float = false.
Proof. rewrite FloatAxioms.ltb_spec. now intros ->. Qed.

(** X18.  No point of a stroke lies outside the bounding box
    [getBoundingBox] computes for it: no coordinate is below the box's
    minimum or above its maximum on its axis.  (A NaN coordinate makes
    the bounds NaN, and nothing is below or above NaN.) *)
Theorem stroke_within_bounding_box (stroke : Stroke) (p : Point) :
  In p stroke ->
  let bounds := Geometry.getBoundingBox stroke in
  (x p <? Geometry.minX bounds)%float = false
  /\ (Geometry.maxX bounds <? x p)%float = false
  /\ (y p <? Geometry.minY bounds)%float = false
  /\ (Geometry.maxY bounds <? y p)%float = false.
Proof.
  intros Hin. cbv zeta. unfold Geometry.getBoundingBox.
  cbn [Geometry.minX Geometry.maxX Geometry.minY Geometry.maxY].
  unfold JS.Math_min, JS.Math_max.
  assert (Hx : In (x p) (map x stroke)) by now apply in_map.
  assert (Hy : In (y p) (map y stroke)) by now apply in_map.
  split; [|split; [|split]].
  - apply notBelow_not_ltb.
    destruct (Math_min_notBelow (map x stroke) infinity) as [Hn | [_ Hall]];
      [now left|].
    right. rewrite Forall_forall in Hall. now apply Hall.
  - destruct (Math_max_notBelow (map x stroke) neg_infinity) as [Hn | [_ Hall]].
    + now apply ltb_nan_left.
    + apply notBelow_not_ltb. right. rewrite Forall_forall in Hall. now apply Hall.
  - apply notBelow_not_ltb.
    destruct (Math_min_notBelow (map y stroke) infinity) as [Hn | [_ Hall]];
      [now left|].
    right. rewrite Forall_forall in Hall. now apply Hall.
  - destruct (Math_max_notBelow (map y stroke) neg_infinity) as [Hn | [_ Hall]].
    + now apply ltb_nan_left.
    + apply notBelow_not_ltb. right. rewrite Forall_forall in Hall. now apply Hall.
Qed.

(** ** Recording a stroke (handleMouseDown, handleMouseMove) *)

(** X19.  A press followed by a drag records the stroke whole and in
    order, whatever state the press finds: the buffer holds the pressed
    point and then the dragged ones, a stroke that was still in progress
    is dropped unclassified, the ink is one [moveTo] and a stroked
    [lineTo] per dragged point, and the ledger is not touched.  So in the
    final revision, so in GridCanvas.js. *)
Theorem press_and_drag_records_stroke
  {cv : OpenCV} (atan2 : float -> float -> float) (width height : Z)
  (p : Point) (rest : list Point) (st : WebCanvas.State) (st1 : Heuristic.State) :
  WebCanvas.run width height (MouseDown p :: map MouseMove rest) st
  = {| WebCanvas.isDrawing := true;
       WebCanvas.currentStroke := p :: rest;
       WebCanvas.recognizedShapes := WebCanvas.recognizedShapes st;
       WebCanvas.opencvLoaded := WebCanvas.opencvLoaded st;
       WebCanvas.canvas := WebCanvas.canvas st ++ Spec.ink (p :: rest);
       WebCanvas.consulted := WebCanvas.consulted st |}
  /\ Heuristic.run atan2 (MouseDown p :: map MouseMove rest) st1
     = {| Heuristic.isDrawing := true;
          Heuristic.currentStroke := p :: rest;
          Heuristic.recognizedShapes := Heuristic.recognizedShapes st1;
          Heuristic.canvas := Heuristic.canvas st1 ++ Spec.ink (p :: rest);
          Heuristic.consulted := Heuristic.consulted st1 |}.
Proof.
  split.
  - change (WebCanvas.run width height (MouseDown p :: map MouseMove rest) st)
      with (WebCanvas.run width height (map MouseMove rest)
              (WebCanvas.handleMouseDown p st)).
    rewrite run_moves by reflexivity.
    cbn [WebCanvas.handleMouseDown WebCanvas.currentStroke WebCanvas.recognizedShapes
         WebCanvas.opencvLoaded WebCanvas.canvas WebCanvas.consulted app Spec.ink].
    now rewrite <- app_assoc.
  - change (Heuristic.run atan2 (MouseDown p :: map MouseMove rest) st1)
      with (Heuristic.run atan2 (map MouseMove rest)
              (Heuristic.handleMouseDown p st1)).
    rewrite heuristic_run_moves by reflexivity.
    cbn [Heuristic.handleMouseDown Heuristic.currentStroke Heuristic.recognizedShapes
         Heuristic.canvas Heuristic.consulted app Spec.ink].
    now rewrite <- app_assoc.
Qed.

(** ** The statistics helpers (average, calculateVariance) *)

(** X20.  Whatever numbers it is given, [calculateVariance] answers NaN
    or a number with a clear sign bit, never one below zero, and it
    divides twice, both times by the count of its values: by zero exactly
    when the list is empty.  The average of distances is no different. *)
Theorem variance_never_negative (values : list float) (center : Point) (stroke : Stroke) :
  (value (Statistics.calculateVariance values) <? 0)%float = false
  /\ divisions (Statistics.calculateVariance values)
     = [DivByLength (length values); DivByLength (length values)]
  /\ (value (Statistics.average (map (fun point => Geometry.distance center point) stroke))
      <? 0)%float = false
  /\ divisions (Statistics.average (map (fun point => Geometry.distance center point) stroke))
     = [DivByLength (length stroke)].
Proof.
  split; [|split; [|split]].
  - apply Nonneg_not_below_zero, calculateVariance_Nonneg.
  - reflexivity.
  - apply Nonneg_not_below_zero, average_Nonneg.
    apply Forall_forall. intros v Hin.
    apply in_map_iff in Hin. destruct Hin as (q & <- & _).
    apply distance_Nonneg.
  - unfold Statistics.average, divideByLength, divisions. cbn [snd].
    now rewrite length_map.
Qed.

(** ** The properties at the samples *)

Lemma arrow_needs_seven_points_witness :
  Heuristic.isArrow rise_atan2 arrow15 = true
  /\ 2 <= length (firstn 10 arrow15)
  /\ 5 <= length (skipn 10 arrow15)
  /\ 7 <= length arrow15.
Proof.
  assert (H : Heuristic.isArrow rise_atan2 arrow15 = true) by (vm_compute; reflexivity).
  split; [exact H|].
  exact (arrow_needs_seven_points rise_atan2 arrow15 H).
Defined.

Lemma cornered_circle_is_rectangle_too_witness :
  value (Heuristic.isCircle ring9) = true
  /\ 2 <= length (Heuristic.findCorners rise_atan2 ring9)
  /\ value (Heuristic.isRectangle rise_atan2 ring9) = true
  /\ (fst (Heuristic.detectShape rise_atan2 ring9) = line
      \/ fst (Heuristic.detectShape rise_atan2 ring9) = circle).
Proof.
  assert (Hc : value (Heuristic.isCircle ring9) = true) by (vm_compute; reflexivity).
  assert (Hk : 2 <= length (Heuristic.findCorners rise_atan2 ring9))
    by (vm_compute; lia).
  split; [exact Hc|]. split; [exact Hk|].
  exact (cornered_circle_is_rectangle_too rise_atan2 ring9 Hc Hk).
Defined.

Lemma loop_is_never_line_witness :
  first ring9 = Some (mkPoint 10 0)
  /\ last ring9 = Some (mkPoint 10 0)
  /\ value (Heuristic.isLine ring9) = false.
Proof.
  split; [reflexivity|]. split; [reflexivity|].
  exact (loop_is_never_line ring9 (mkPoint 10 0) eq_refl eq_refl).
Defined.

Lemma only_lines_without_library_witness :
  (forall traced : Stroke, findContours (OpenCV := absentCV) traced = None)
  /\ Forall Terms.isLineShape
            (WebCanvas.recognizedShapes
               (WebCanvas.run (cv := absentCV) sampleWidth sampleHeight
                  (ScriptLoaded :: diagonalDrag ++ [MouseUp])
                  (WebCanvas.mounted sampleWidth sampleHeight))).
Proof.
  assert (H : forall traced : Stroke, findContours (OpenCV := absentCV) traced = None)
    by (intros traced; reflexivity).
  split; [exact H|].
  exact (only_lines_without_library (cv := absentCV) sampleWidth sampleHeight
           (ScriptLoaded :: diagonalDrag ++ [MouseUp]) H).
Defined.

Lemma part002_fallback_rectangle_stalls_release_witness :
  let st' := Part002.handleMouseUp (cv := absentCV) sampleWidth sampleHeight boxPending in
  WebCanvas.isDrawing st' = true
  /\ WebCanvas.currentStroke st' = box5
  /\ WebCanvas.recognizedShapes st' = []
  /\ (Spec.ledgerSound boxPending ->
      forall style w,
        Terms.strokeStyleAfter (WebCanvas.canvas st') style = "#ff0000"%string
        /\ Terms.lineWidthAfter (WebCanvas.canvas st') w = 3%float).
Proof.
  apply (part002_fallback_rectangle_stalls_release (cv := absentCV)
           sampleWidth sampleHeight boxPending).
  - reflexivity.
  - reflexivity.
  - vm_compute. reflexivity.
  - vm_compute. reflexivity.
Defined.

Lemma stroke_within_bounding_box_witness :
  let bounds := Geometry.getBoundingBox box5 in
  (50 <? Geometry.minX bounds)%float = false
  /\ (Geometry.maxX bounds <? 50)%float = false
  /\ (0 <? Geometry.minY bounds)%float = false
  /\ (Geometry.maxY bounds <? 0)%float = false.
Proof.
  apply (stroke_within_bounding_box box5 (mkPoint 50 0)).
  simpl. right. left. reflexivity.
Defined.
